(** * XICS: the PAPR virtualised interrupt controller of hw/xics.c

    A shallow embedding of the ICP (presentation) and ICS (source) layers of
    [hw/xics.c], followed by the properties of the controller.

    Conventions of the embedding.

    - C integers are [Z].  The 8-bit and 32-bit registers hold values of
      their type's range; the conversions the C code performs implicitly
      (to [uint8_t] at a call, to [uint32_t] at a store) are written [u8]
      and [u32] where a value can leave the range.
    - A C array is a [list]; the number of elements the code keeps next to
      the pointer ([nr_servers], [nr_irqs]) is the length of the list.
    - An access [base + i] outside the array is undefined behaviour in C.
      Every function that dereferences such a pointer returns [option]:
      [None] is an out-of-bounds access, a failed [assert] or a fatal error
      that ends the program; the C program has no defined state afterwards.
    - [struct icp_state] and [struct ics_state] point to each other; the
      embedding has one owner, [icp_state], which holds the [ics_state]. *)

From stdpp Require Import base tactics option list numbers.
From Stdlib Require Import ZArith Lia.

Local Open Scope Z_scope.

(** ** Machine integers *)

Definition u8 (z : Z) : Z := z mod 2 ^ 8.
Definition u32 (z : Z) : Z := z mod 2 ^ 32.

(** C truth value of an integer expression. *)
Definition truthy (z : Z) : bool := negb (z =? 0).

(** ** Arrays addressed by a C [int] *)

Definition at_index {A : Type} (l : list A) (i : Z) : option A :=
  if i <? 0 then None else l !! Z.to_nat i.

Definition store_index {A : Type} (l : list A) (i : Z) (x : A) : list A :=
  <[Z.to_nat i := x]> l.

(** ** The output pin

    Modelled from the spec: [qemu_irq], [qemu_irq_raise], [qemu_irq_lower]
    and [qemu_set_irq] are declared in hw/irq.h, which is not part of the
    sources; the spec describes the pin as a sink of idempotent level
    commands.  The sink is the history of the commands it received, most
    recent first.  Each command is stamped with the presenter registers at
    the moment it is issued, so that properties "at the moment of the raise"
    can be stated.  A presenter without processor has no pin behind its
    [output] (the pointer is NULL in C): its history is that of the commands
    issued on it, which nobody receives. *)

Record pin_event := PinEvent {
  ev_level : bool;
  ev_xirr : Z;
  ev_pending_priority : Z
}.

Definition qemu_irq := list pin_event.

Definition pin_level (q : qemu_irq) : bool :=
  match q with
  | [] => false
  | e :: _ => ev_level e
  end.

(** ** ICP: presentation layer *)

Record icp_server_state := IcpServer {
  xirr : Z;               (* uint32_t *)
  pending_priority : Z;   (* uint8_t *)
  mfrr : Z;               (* uint8_t *)
  output : qemu_irq
}.

Definition XISR_MASK : Z := 0x00ffffff.
Definition CPPR_MASK : Z := 0xff000000.

Definition XISR (s : icp_server_state) : Z := Z.land (xirr s) XISR_MASK.
Definition CPPR (s : icp_server_state) : Z := Z.shiftr (xirr s) 24.

Definition set_xirr (s : icp_server_state) (x : Z) : icp_server_state :=
  IcpServer x (pending_priority s) (mfrr s) (output s).
Definition set_pending_priority (s : icp_server_state) (p : Z) : icp_server_state :=
  IcpServer (xirr s) p (mfrr s) (output s).
Definition set_mfrr (s : icp_server_state) (m : Z) : icp_server_state :=
  IcpServer (xirr s) (pending_priority s) m (output s).

Definition qemu_set_irq (s : icp_server_state) (level : bool) : icp_server_state :=
  IcpServer (xirr s) (pending_priority s) (mfrr s)
            (PinEvent level (xirr s) (pending_priority s) :: output s).
Definition qemu_irq_raise (s : icp_server_state) : icp_server_state :=
  qemu_set_irq s true.
Definition qemu_irq_lower (s : icp_server_state) : icp_server_state :=
  qemu_set_irq s false.

(** ** ICS: source layer *)

Definition XICS_STATUS_ASSERTED : Z := 0x1.
Definition XICS_STATUS_SENT : Z := 0x2.
Definition XICS_STATUS_REJECTED : Z := 0x4.
Definition XICS_STATUS_MASKED_PENDING : Z := 0x8.

Record ics_irq_state := IcsIrq {
  server : Z;           (* int *)
  priority : Z;         (* uint8_t *)
  saved_priority : Z;   (* uint8_t *)
  status : Z;           (* uint8_t *)
  lsi : bool
}.

Definition set_status (q : ics_irq_state) (st : Z) : ics_irq_state :=
  IcsIrq (server q) (priority q) (saved_priority q) st (lsi q).
Definition set_lsi (q : ics_irq_state) (b : bool) : ics_irq_state :=
  IcsIrq (server q) (priority q) (saved_priority q) (status q) b.

(** [status & FLAG] as a C condition. *)
Definition has_status (q : ics_irq_state) (flag : Z) : bool :=
  truthy (Z.land (status q) flag).

Record ics_state := IcsState {
  offset : Z;                  (* int *)
  irqs : list ics_irq_state
}.

Record icp_state := IcpState {
  ss : list icp_server_state;
  ics : ics_state
}.

Definition nr_irqs (i : ics_state) : Z := Z.of_nat (length (irqs i)).
Definition nr_servers (icp : icp_state) : Z := Z.of_nat (length (ss icp)).

(** [icp->ss + server] and [ics->irqs + srcno], read and written. *)
Definition get_ss (icp : icp_state) (srv : Z) : option icp_server_state :=
  at_index (ss icp) srv.
Definition put_ss (icp : icp_state) (srv : Z) (s : icp_server_state) : icp_state :=
  IcpState (store_index (ss icp) srv s) (ics icp).
Definition get_irq (icp : icp_state) (srcno : Z) : option ics_irq_state :=
  at_index (irqs (ics icp)) srcno.
Definition put_irq (icp : icp_state) (srcno : Z) (q : ics_irq_state) : icp_state :=
  IcpState (ss icp) (IcsState (offset (ics icp)) (store_index (irqs (ics icp)) srcno q)).

(** [ics_valid_irq]: [nr] is a [uint32_t]; the two [int] bounds are
    converted to unsigned by the comparison. *)
Definition ics_valid_irq (i : ics_state) (nr : Z) : bool :=
  (u32 (offset i) <=? nr) && (nr <? u32 (offset i + nr_irqs i)).

Definition ics_reject (icp : icp_state) (nr : Z) : option icp_state :=
  let srcno := nr - offset (ics icp) in
  q ← get_irq icp srcno;
  let q := set_status q (Z.lor (status q) XICS_STATUS_REJECTED) in
  let q := set_status q (Z.land (status q) (Z.lnot XICS_STATUS_SENT)) in
  Some (put_irq icp srcno q).

Definition ics_eoi (icp : icp_state) (nr : Z) : option icp_state :=
  let srcno := nr - offset (ics icp) in
  q ← get_irq icp srcno;
  if lsi q
  then Some (put_irq icp srcno
               (set_status q (Z.land (status q) (Z.lnot XICS_STATUS_SENT))))
  else Some icp.

(** ** ICP operations *)

Definition icp_irq (icp : icp_state) (srv nr prio : Z) : option icp_state :=
  s ← get_ss icp srv;
  if (CPPR s <=? prio) || (truthy (XISR s) && (pending_priority s <=? prio))
  then ics_reject icp nr
  else
    icp ← (if truthy (XISR s) then ics_reject icp (XISR s) else Some icp);
    s ← get_ss icp srv;
    let s := set_xirr s (Z.lor (Z.land (xirr s) (u32 (Z.lnot XISR_MASK)))
                               (Z.land nr XISR_MASK)) in
    let s := set_pending_priority s prio in
    Some (put_ss icp srv (qemu_irq_raise s)).

(** ** ICS operations *)

Definition resend_msi (icp : icp_state) (srcno : Z) : option icp_state :=
  q ← get_irq icp srcno;
  if has_status q XICS_STATUS_REJECTED then
    let q := set_status q (Z.land (status q) (Z.lnot XICS_STATUS_REJECTED)) in
    let icp := put_irq icp srcno q in
    if negb (priority q =? 0xff)
    then icp_irq icp (server q) (srcno + offset (ics icp)) (priority q)
    else Some icp
  else Some icp.

Definition resend_lsi (icp : icp_state) (srcno : Z) : option icp_state :=
  q ← get_irq icp srcno;
  if negb (priority q =? 0xff)
     && has_status q XICS_STATUS_ASSERTED
     && negb (has_status q XICS_STATUS_SENT)
  then
    let q := set_status q (Z.lor (status q) XICS_STATUS_SENT) in
    let icp := put_irq icp srcno q in
    icp_irq icp (server q) (srcno + offset (ics icp)) (priority q)
  else Some icp.

Definition set_irq_msi (icp : icp_state) (srcno val : Z) : option icp_state :=
  q ← get_irq icp srcno;
  if truthy val then
    if priority q =? 0xff
    then Some (put_irq icp srcno
                 (set_status q (Z.lor (status q) XICS_STATUS_MASKED_PENDING)))
    else icp_irq icp (server q) (srcno + offset (ics icp)) (priority q)
  else Some icp.

Definition set_irq_lsi (icp : icp_state) (srcno val : Z) : option icp_state :=
  q ← get_irq icp srcno;
  let q := if truthy val
           then set_status q (Z.lor (status q) XICS_STATUS_ASSERTED)
           else set_status q (Z.land (status q) (Z.lnot XICS_STATUS_ASSERTED)) in
  resend_lsi (put_irq icp srcno q) srcno.

Definition ics_set_irq (icp : icp_state) (srcno val : Z) : option icp_state :=
  q ← get_irq icp srcno;
  if lsi q then set_irq_lsi icp srcno val else set_irq_msi icp srcno val.

Definition write_xive_msi (icp : icp_state) (srcno : Z) : option icp_state :=
  q ← get_irq icp srcno;
  if negb (has_status q XICS_STATUS_MASKED_PENDING) || (priority q =? 0xff)
  then Some icp
  else
    let q := set_status q (Z.land (status q) (Z.lnot XICS_STATUS_MASKED_PENDING)) in
    let icp := put_irq icp srcno q in
    icp_irq icp (server q) (srcno + offset (ics icp)) (priority q).

Definition write_xive_lsi (icp : icp_state) (srcno : Z) : option icp_state :=
  resend_lsi icp srcno.

Definition ics_write_xive (icp : icp_state) (nr srv prio saved : Z)
  : option icp_state :=
  let srcno := nr - offset (ics icp) in
  q ← get_irq icp srcno;
  let q := IcsIrq srv prio saved (status q) (lsi q) in
  let icp := put_irq icp srcno q in
  if lsi q then write_xive_lsi icp srcno else write_xive_msi icp srcno.

(** The loop of [ics_resend]: [n] iterations left, starting at index [i]. *)
Fixpoint ics_resend_from (n : nat) (i : Z) (icp : icp_state) : option icp_state :=
  match n with
  | O => Some icp
  | S n' =>
      q ← get_irq icp i;
      icp ← (if lsi q then resend_lsi icp i else resend_msi icp i);
      ics_resend_from n' (i + 1) icp
  end.

Definition ics_resend (icp : icp_state) : option icp_state :=
  ics_resend_from (Z.to_nat (nr_irqs (ics icp))) 0 icp.

(** ** Operations that involve the IPI pseudo-source *)

Section Controller.

(** The macro [XICS_IPI] is declared in hw/xics.h, which is not part of the
    sources: the number of the IPI pseudo-source is a parameter. *)
Variable XICS_IPI : Z.

Definition icp_check_ipi (icp : icp_state) (srv : Z) : option icp_state :=
  s ← get_ss icp srv;
  if truthy (XISR s) && (pending_priority s <=? mfrr s)
  then Some icp
  else
    icp ← (if truthy (XISR s) then ics_reject icp (XISR s) else Some icp);
    s ← get_ss icp srv;
    let s := set_xirr s (Z.lor (Z.land (xirr s) (u32 (Z.lnot XISR_MASK)))
                               XICS_IPI) in
    let s := set_pending_priority s (mfrr s) in
    Some (put_ss icp srv (qemu_irq_raise s)).

Definition icp_resend (icp : icp_state) (srv : Z) : option icp_state :=
  s ← get_ss icp srv;
  icp ← (if mfrr s <? CPPR s then icp_check_ipi icp srv else Some icp);
  ics_resend icp.

(** [cppr] is a [uint8_t]; [cppr << 24] is stored into the 32-bit [xirr]. *)
Definition icp_set_cppr (icp : icp_state) (srv cppr : Z) : option icp_state :=
  s ← get_ss icp srv;
  let old_cppr := CPPR s in
  let s := set_xirr s (Z.lor (Z.land (xirr s) (u32 (Z.lnot CPPR_MASK)))
                             (u32 (Z.shiftl cppr 24))) in
  let icp := put_ss icp srv s in
  if cppr <? old_cppr then
    if truthy (XISR s) && (cppr <=? pending_priority s) then
      let old_xisr := XISR s in
      let s := set_xirr s (Z.land (xirr s) (u32 (Z.lnot XISR_MASK))) in
      let s := qemu_irq_lower s in
      ics_reject (put_ss icp srv s) old_xisr
    else Some icp
  else
    if negb (truthy (XISR s)) then icp_resend icp srv else Some icp.

Definition icp_set_mfrr (icp : icp_state) (srv m : Z) : option icp_state :=
  s ← get_ss icp srv;
  let s := set_mfrr s m in
  let icp := put_ss icp srv s in
  if m <? CPPR s then icp_check_ipi icp srv else Some icp.

Definition icp_accept (s : icp_server_state) : Z * icp_server_state :=
  let s := qemu_irq_lower s in
  let x := xirr s in
  (x, set_xirr s (u32 (Z.shiftl (pending_priority s) 24))).

(** [xirr] is a [uint32_t]. *)
Definition icp_eoi (icp : icp_state) (srv x : Z) : option icp_state :=
  s ← get_ss icp srv;
  let s := set_xirr s (Z.lor (Z.land (xirr s) (u32 (Z.lnot CPPR_MASK)))
                             (Z.land x CPPR_MASK)) in
  icp ← ics_eoi (put_ss icp srv s) (Z.land x XISR_MASK);
  s ← get_ss icp srv;
  if negb (truthy (XISR s)) then icp_resend icp srv else Some icp.

(** ** Exported functions *)

(** [assert(ics_valid_irq(...))]: a failed assertion aborts. *)
Definition xics_set_irq_type (icp : icp_state) (irq : Z) (l : bool)
  : option icp_state :=
  if ics_valid_irq (ics icp) (u32 irq) then
    q ← get_irq icp (irq - offset (ics icp));
    Some (put_irq icp (irq - offset (ics icp)) (set_lsi q l))
  else None.

(** Modelled from the spec: [H_SUCCESS] and [H_PARAMETER] are declared in
    hw/spapr.h, which is not part of the sources; the spec names them as the
    two results of a hypercall. *)
Inductive hcall_result := H_SUCCESS | H_PARAMETER.

(** The hypercalls take register-sized unsigned arguments ([target_ulong]);
    [cpu] is [env->cpu_index] of the calling processor. *)
Definition h_cppr (icp : icp_state) (cpu cppr : Z)
  : option (icp_state * hcall_result) :=
  icp ← icp_set_cppr icp cpu (u8 cppr);
  Some (icp, H_SUCCESS).

Definition h_ipi (icp : icp_state) (srv m : Z)
  : option (icp_state * hcall_result) :=
  if nr_servers icp <=? srv then Some (icp, H_PARAMETER)
  else
    icp ← icp_set_mfrr icp srv (u8 m);
    Some (icp, H_SUCCESS).

(** Returns the state, the value stored in [args[0]] and the result. *)
Definition h_xirr (icp : icp_state) (cpu : Z)
  : option (icp_state * Z * hcall_result) :=
  s ← get_ss icp cpu;
  let '(x, s) := icp_accept s in
  Some (put_ss icp cpu s, x, H_SUCCESS).

Definition h_eoi (icp : icp_state) (cpu x : Z)
  : option (icp_state * hcall_result) :=
  icp ← icp_eoi icp cpu (u32 x);
  Some (icp, H_SUCCESS).

(** Modelled from the spec: [rtas_ld] and [rtas_st] are declared in
    hw/spapr.h, which is not part of the sources.  By the spec an RTAS call
    receives counted integer vectors and writes its status to [rets[0]]:
    [args] is the vector of 32-bit arguments, [rets] the list of the stores
    made to the return vector, most recent first. *)
Definition rtas_ld (args : list Z) (n : nat) : Z := default 0 (args !! n).
Definition rtas_st (rets : list (nat * Z)) (n : nat) (val : Z) : list (nat * Z) :=
  (n, val) :: rets.

Definition rtas_set_xive (icp : icp_state) (nargs : Z) (args : list Z)
    (nret : Z) (rets : list (nat * Z)) : option (icp_state * list (nat * Z)) :=
  if negb (nargs =? 3) || negb (nret =? 1) then Some (icp, rtas_st rets 0 (-3))
  else
    let nr := rtas_ld args 0 in
    let srv := rtas_ld args 1 in
    let prio := rtas_ld args 2 in
    if negb (ics_valid_irq (ics icp) nr) || (nr_servers icp <=? srv)
       || (0xff <? prio)
    then Some (icp, rtas_st rets 0 (-3))
    else
      icp ← ics_write_xive icp nr srv prio prio;
      Some (icp, rtas_st rets 0 0).

Definition rtas_get_xive (icp : icp_state) (nargs : Z) (args : list Z)
    (nret : Z) (rets : list (nat * Z)) : option (icp_state * list (nat * Z)) :=
  if negb (nargs =? 1) || negb (nret =? 3) then Some (icp, rtas_st rets 0 (-3))
  else
    let nr := rtas_ld args 0 in
    if negb (ics_valid_irq (ics icp) nr) then Some (icp, rtas_st rets 0 (-3))
    else
      q ← get_irq icp (nr - offset (ics icp));
      let rets := rtas_st rets 0 0 in
      let rets := rtas_st rets 1 (server q) in
      Some (icp, rtas_st rets 2 (priority q)).

Definition rtas_int_off (icp : icp_state) (nargs : Z) (args : list Z)
    (nret : Z) (rets : list (nat * Z)) : option (icp_state * list (nat * Z)) :=
  if negb (nargs =? 1) || negb (nret =? 1) then Some (icp, rtas_st rets 0 (-3))
  else
    let nr := rtas_ld args 0 in
    if negb (ics_valid_irq (ics icp) nr) then Some (icp, rtas_st rets 0 (-3))
    else
      q ← get_irq icp (nr - offset (ics icp));
      icp ← ics_write_xive icp nr (server q) 0xff (priority q);
      Some (icp, rtas_st rets 0 0).

Definition rtas_int_on (icp : icp_state) (nargs : Z) (args : list Z)
    (nret : Z) (rets : list (nat * Z)) : option (icp_state * list (nat * Z)) :=
  if negb (nargs =? 1) || negb (nret =? 1) then Some (icp, rtas_st rets 0 (-3))
  else
    let nr := rtas_ld args 0 in
    if negb (ics_valid_irq (ics icp) nr) then Some (icp, rtas_st rets 0 (-3))
    else
      q ← get_irq icp (nr - offset (ics icp));
      icp ← ics_write_xive icp nr (server q) (saved_priority q) (saved_priority q);
      Some (icp, rtas_st rets 0 0).

Definition reset_server (s : icp_server_state) : icp_server_state :=
  qemu_set_irq (IcpServer 0 0 0xff (output s)) false.

Definition reset_irq (q : ics_irq_state) : ics_irq_state :=
  IcsIrq 0 0xff 0xff 0 (lsi q).

Definition xics_reset (icp : icp_state) : icp_state :=
  IcpState (reset_server <$> ss icp)
           (IcsState (offset (ics icp)) (reset_irq <$> irqs (ics icp))).

(** Modelled from the spec: [CPUPPCState], the macro [PPC_INPUT] and the
    [PPC_FLAGS_INPUT_*] constants are declared in target-ppc/cpu.h, which is
    not part of the sources.  By the spec the controller is constructed from
    an iteration over the known processors, each giving a server index and
    an output pin.  Of a processor [xics_system_init] reads [cpu_index], the
    bus model and the external interrupt input; the bus models are the two
    that its [switch] names and, as one value, all the others. *)
Inductive ppc_input :=
  | PPC_FLAGS_INPUT_POWER7
  | PPC_FLAGS_INPUT_970
  | PPC_FLAGS_INPUT_other.

Record CPUPPCState := CPU {
  cpu_index : Z;          (* int *)
  PPC_INPUT : ppc_input
}.

(** The first loop of [xics_system_init]: the largest [cpu_index], [-1]
    when there is no processor. *)
Definition max_server_num (cpus : list CPUPPCState) : Z :=
  foldl (fun m env => if m <? cpu_index env then cpu_index env else m) (-1) cpus.

Definition set_output (s : icp_server_state) (o : qemu_irq) : icp_server_state :=
  IcpServer (xirr s) (pending_priority s) (mfrr s) o.

(** The second loop of [xics_system_init], over the processors in list
    order: [&icp->ss[env->cpu_index]] is an access to the presenter array,
    and the [output] of that presenter becomes the external interrupt input
    of the processor, a pin that has received no command yet.  A processor
    of another bus model is fatal ([hw_error], then [exit(1)]): there is no
    controller, [None]. *)
Fixpoint xics_init_outputs (l : list icp_server_state) (cpus : list CPUPPCState)
  : option (list icp_server_state) :=
  match cpus with
  | [] => Some l
  | env :: cpus =>
      s ← at_index l (cpu_index env);
      match PPC_INPUT env with
      | PPC_FLAGS_INPUT_POWER7 | PPC_FLAGS_INPUT_970 =>
          xics_init_outputs (store_index l (cpu_index env) (set_output s [])) cpus
      | PPC_FLAGS_INPUT_other => None
      end
  end.

(** [xics_system_init(nr_irqs)]; [cpus] is the list that starts at
    [first_cpu].  [g_malloc0] zeroes both arrays, so that the [output] of a
    presenter without processor stays NULL.  A negative [nr_irqs], which the
    multiplication converts to an unsigned size, is a size [g_malloc0]
    cannot allocate: the program is terminated, [None]. *)
Definition xics_system_init (n : Z) (cpus : list CPUPPCState) : option icp_state :=
  l ← xics_init_outputs
        (replicate (Z.to_nat (max_server_num cpus + 1)) (IcpServer 0 0 0 []))
        cpus;
  if n <? 0 then None
  else Some (IcpState l (IcsState 16 (replicate (Z.to_nat n) (IcsIrq 0 0 0 0 false)))).

(** ** The controller as a transition system

    One transition per entry point the file exports or registers: the device
    lines ([ics_set_irq] through [qirqs]), the four hypercalls, the four RTAS
    calls, reset and [xics_set_irq_type]. *)
Inductive op :=
  | Op_set_irq (srcno val : Z)
  | Op_h_cppr (cpu cppr : Z)
  | Op_h_ipi (srv m : Z)
  | Op_h_xirr (cpu : Z)
  | Op_h_eoi (cpu x : Z)
  | Op_set_xive (nargs : Z) (args : list Z) (nret : Z)
  | Op_get_xive (nargs : Z) (args : list Z) (nret : Z)
  | Op_int_off (nargs : Z) (args : list Z) (nret : Z)
  | Op_int_on (nargs : Z) (args : list Z) (nret : Z)
  | Op_reset
  | Op_set_irq_type (irq : Z) (l : bool).

Definition step (icp : icp_state) (o : op) : option icp_state :=
  match o with
  | Op_set_irq srcno val => ics_set_irq icp srcno val
  | Op_h_cppr cpu cppr => fst <$> h_cppr icp cpu cppr
  | Op_h_ipi srv m => fst <$> h_ipi icp srv m
  | Op_h_xirr cpu => (fun r => fst (fst r)) <$> h_xirr icp cpu
  | Op_h_eoi cpu x => fst <$> h_eoi icp cpu x
  | Op_set_xive nargs args nret => fst <$> rtas_set_xive icp nargs args nret []
  | Op_get_xive nargs args nret => fst <$> rtas_get_xive icp nargs args nret []
  | Op_int_off nargs args nret => fst <$> rtas_int_off icp nargs args nret []
  | Op_int_on nargs args nret => fst <$> rtas_int_on icp nargs args nret []
  | Op_reset => Some (xics_reset icp)
  | Op_set_irq_type irq l => xics_set_irq_type icp irq l
  end.

Fixpoint run (icp : icp_state) (os : list op) : option icp_state :=
  match os with
  | [] => Some icp
  | o :: os => icp ← step icp o; run icp os
  end.

Inductive reachable : icp_state -> Prop :=
  | reachable_init n cpus icp :
      xics_system_init n cpus = Some icp -> reachable icp
  | reachable_step icp o icp' :
      reachable icp -> step icp o = Some icp' -> reachable icp'.

(** * Invariants, relations and scenarios used by the properties *)

Definition irq_step (a b : ics_irq_state) : Prop :=
  server a = server b /\ priority a = priority b /\
  saved_priority a = saved_priority b /\ lsi a = lsi b /\
  (has_status b XICS_STATUS_SENT = true ->
   has_status a XICS_STATUS_SENT = true \/ (priority a <> 0xff /\ lsi a = true)).

Definition ss_fits (s : icp_server_state) : Prop := 0 <= xirr s < 2 ^ 32.

Definition raise_ok (e : pin_event) : Prop :=
  ev_level e = true -> Z.land (ev_xirr e) XISR_MASK <> 0 ->
  ev_pending_priority e < Z.shiftr (ev_xirr e) 24.

Definition ss_step (a b : icp_server_state) : Prop :=
  CPPR a = CPPR b /\ mfrr a = mfrr b /\ ss_fits b /\
  (Forall raise_ok (output a) -> Forall raise_ok (output b)).

Definition good (x y : icp_state) : Prop :=
  offset (ics x) = offset (ics y) /\
  Forall2 irq_step (irqs (ics x)) (irqs (ics y)) /\
  (Forall ss_fits (ss x) -> Forall2 ss_step (ss x) (ss y)).

Definition pins_inv (icp : icp_state) : Prop :=
  Forall (fun s => ss_fits s /\ Forall raise_ok (output s)) (ss icp).

(** [fine]: what an entry point that reconfigures a presenter preserves. *)
Definition fine (x y : icp_state) : Prop :=
  offset (ics x) = offset (ics y) /\
  Forall2 irq_step (irqs (ics x)) (irqs (ics y)) /\
  (pins_inv x -> pins_inv y).

Definition src_good (x y : icp_state) : Prop :=
  offset (ics x) = offset (ics y) /\
  Forall2 irq_step (irqs (ics x)) (irqs (ics y)).

(** What any transition does to the SENT bit of a source: it is set only on
    a source that is an unmasked LSI afterwards. *)
Definition irq_trans (a c : ics_irq_state) : Prop :=
  has_status c XICS_STATUS_SENT = true ->
  has_status a XICS_STATUS_SENT = true \/ (priority c <> 0xff /\ lsi c = true).

Definition keeps_type (o : op) : Prop :=
  match o with
  | Op_set_irq_type _ _ => False
  | _ => True
  end.

Definition op_rel (o : op) (a c : ics_irq_state) : Prop :=
  irq_trans a c /\ (keeps_type o -> lsi a = lsi c).

(** An RTAS call either leaves the controller alone or is one
    [ics_write_xive]. *)
Definition xive_or_same (icp icp' : icp_state) : Prop :=
  icp' = icp \/
  exists nr srv prio saved, ics_write_xive icp nr srv prio saved = Some icp'.

(** The interrupt numbers are in the range of the C types. *)
Definition ics_wf (i : ics_state) : Prop :=
  0 <= offset i /\ offset i + nr_irqs i < 2 ^ 32.

(** A run in which [xics_set_irq_type] never turns into an MSI a source
    whose SENT bit is set. *)
Definition retype_ok (icp : icp_state) (o : op) : Prop :=
  match o with
  | Op_set_irq_type irq false =>
      forall q, get_irq icp (irq - offset (ics icp)) = Some q ->
                has_status q XICS_STATUS_SENT = false
  | _ => True
  end.

Inductive reachable_typed : icp_state -> Prop :=
  | reachable_typed_init n cpus icp :
      xics_system_init n cpus = Some icp -> reachable_typed icp
  | reachable_typed_step icp o icp' :
      reachable_typed icp -> retype_ok icp o -> step icp o = Some icp' ->
      reachable_typed icp'.

Definition msi_never_sent (icp : icp_state) : Prop :=
  forall i q, irqs (ics icp) !! i = Some q -> lsi q = false ->
              has_status q XICS_STATUS_SENT = false.

(** The end-to-end scenarios of the spec: two POWER7 processors, hence two
    presenters, and four MSI sources; [scenario_boot] is the controller that
    [xics_system_init] returns for them, [scenario_start] the same after
    reset. *)
Definition scenario_cpus : list CPUPPCState :=
  [CPU 0 PPC_FLAGS_INPUT_POWER7; CPU 1 PPC_FLAGS_INPUT_POWER7].

Definition scenario_boot : icp_state :=
  IcpState [IcpServer 0 0 0 []; IcpServer 0 0 0 []]
           (IcsState 16 [IcsIrq 0 0 0 0 false; IcsIrq 0 0 0 0 false;
                         IcsIrq 0 0 0 0 false; IcsIrq 0 0 0 0 false]).

Definition scenario_start : icp_state := xics_reset scenario_boot.

Definition scenario_deliver_16 : list op :=
  [Op_h_cppr 0 0xff; Op_set_xive 3 [16; 0; 5] 1; Op_set_irq 0 1].

Definition scenario_deliver_17 : list op :=
  [Op_set_xive 3 [17; 0; 2] 1; Op_set_irq 1 1].

(** The state the first scenario ends in: presenter 0 has CPPR [0xff] and
    XISR 16 pending at priority 5, with the pin raised. *)
Definition pending_16_presenter : icp_server_state :=
  IcpServer 0xff000010 5 0xff [PinEvent true 0xff000010 5; PinEvent false 0 0].

Definition pending_16 : icp_state :=
  IcpState
    [pending_16_presenter; IcpServer 0 0 0xff [PinEvent false 0 0]]
    (IcsState 16 [IcsIrq 0 5 5 0 false; IcsIrq 0 0xff 0xff 0 false;
                  IcsIrq 0 0xff 0xff 0 false; IcsIrq 0 0xff 0xff 0 false]).

(** Source 16 is delivered, displaced by source 17 and then masked. *)
Definition scenario_reject_then_mask : list op :=
  scenario_deliver_16 ++ scenario_deliver_17 ++ [Op_int_off 1 [16] 1].

(** The state in which the resend pass then finds the controller, when
    presenter 0 has accepted source 17 and signals its end: the EOI has put
    CPPR back to [0xff], no XISR is pending, and source 16 is REJECTED and
    masked, its priority 5 saved. *)
Definition rejected_16_masked : icp_state :=
  IcpState
    [IcpServer 0xff000000 2 0xff
       [PinEvent false 0xff000011 2; PinEvent true 0xff000011 2;
        PinEvent true 0xff000010 5; PinEvent false 0 0];
     IcpServer 0 0 0xff [PinEvent false 0 0]]
    (IcsState 16 [IcsIrq 0 0xff 5 4 false; IcsIrq 0 2 2 0 false;
                  IcsIrq 0 0xff 0xff 0 false; IcsIrq 0 0xff 0xff 0 false]).

(** Source 16 is declared an LSI and asserted while still masked. *)
Definition scenario_lsi : list op := [Op_set_irq_type 16 true].

(** Source 16 is an LSI, is delivered, and is then declared an MSI. *)
Definition scenario_retype : list op :=
  [Op_set_irq_type 16 true; Op_h_cppr 0 0xff; Op_set_xive 3 [16; 0; 5] 1;
   Op_set_irq 0 1; Op_set_irq_type 16 false].

(** A source the resend pass has nothing to do for: an MSI without
    REJECTED, an LSI that is masked, deasserted or already SENT. *)
Definition idle_source (q : ics_irq_state) : Prop :=
  if lsi q
  then negb (priority q =? 0xff) && has_status q XICS_STATUS_ASSERTED
       && negb (has_status q XICS_STATUS_SENT) = false
  else has_status q XICS_STATUS_REJECTED = false.

(** The pin of a presenter follows its XISR: raised exactly when XISR is
    not zero. *)
Definition pin_sync (s : icp_server_state) : Prop :=
  pin_level (output s) = truthy (XISR s).

(** Every source number is positive and fits the XISR field, and every pin
    follows its XISR. *)
Definition sync_inv (icp : icp_state) : Prop :=
  0 < offset (ics icp) /\
  offset (ics icp) + nr_irqs (ics icp) <= 2 ^ 24 /\
  Forall pin_sync (ss icp).

(** [nr] is the number of a source. *)
Definition valid_source (icp : icp_state) (nr : Z) : Prop :=
  offset (ics icp) <= nr < offset (ics icp) + nr_irqs (ics icp).

(** A presenter on which no access can leave the arrays: IPIs are disabled
    ([mfrr = 0xff]) and XISR is zero or the number of a source. *)
Definition safe_ss (icp : icp_state) (s : icp_server_state) : Prop :=
  ss_fits s /\ mfrr s = 0xff /\ (XISR s = 0 \/ valid_source icp (XISR s)).

(** A state in which no access can leave the arrays: the source numbers fit
    the XISR field, every source is routed to an existing presenter, and
    every presenter is [safe_ss]. *)
Definition safe (icp : icp_state) : Prop :=
  0 <= offset (ics icp) /\
  offset (ics icp) + nr_irqs (ics icp) <= 2 ^ 24 /\
  Forall (fun q => 0 <= server q < nr_servers icp) (irqs (ics icp)) /\
  Forall (safe_ss icp) (ss icp).

(** The calls that keep a controller [safe]: device lines, processors and
    interrupt numbers that exist, RTAS arguments that are unsigned, no
    request for an IPI, and EOIs of source interrupts only. *)
Definition benign (icp : icp_state) (o : op) : Prop :=
  match o with
  | Op_set_irq srcno _ => 0 <= srcno < nr_irqs (ics icp)
  | Op_h_cppr cpu _ => 0 <= cpu < nr_servers icp
  | Op_h_ipi srv m => 0 <= srv /\ u8 m = 0xff
  | Op_h_xirr cpu => 0 <= cpu < nr_servers icp
  | Op_h_eoi cpu x =>
      0 <= cpu < nr_servers icp /\
      valid_source icp (Z.land (u32 x) XISR_MASK)
  | Op_set_xive _ args _ => Forall (fun a => 0 <= a) args
  | Op_get_xive _ _ _ | Op_int_off _ _ _ | Op_int_on _ _ _ => True
  | Op_reset => 0 < nr_servers icp
  | Op_set_irq_type irq _ => valid_source icp irq
  end.

(** The state in which an IPI is pending: after reset, presenter 0 sets
    CPPR to [0x10] and requests an IPI at priority 8 (the IPI pseudo-source
    has number 2). *)
Definition scenario_ipi : list op := [Op_h_cppr 0 0x10; Op_h_ipi 0 8].

Definition ipi_pending_presenter : icp_server_state :=
  IcpServer 0x10000002 8 8 [PinEvent true 0x10000002 8; PinEvent false 0 0].

Definition ipi_pending : icp_state :=
  IcpState
    [ipi_pending_presenter; IcpServer 0 0 0xff [PinEvent false 0 0]]
    (IcsState 16 [IcsIrq 0 0xff 0xff 0 false; IcsIrq 0 0xff 0xff 0 false;
                  IcsIrq 0 0xff 0xff 0 false; IcsIrq 0 0xff 0xff 0 false]).

(** The controller holds the interrupt of source [srcno]: the source has
    REJECTED set, so that the next resend pass offers it again, or its
    number is the XISR of the presenter it is routed to. *)
Definition held (icp : icp_state) (srcno : Z) : Prop :=
  exists q,
    get_irq icp srcno = Some q /\
    (has_status q XICS_STATUS_REJECTED = true \/
     exists s, get_ss icp (server q) = Some s /\
               XISR s = srcno + offset (ics icp)).

(** The state in which the resend pass runs in the reject cycle of the
    spec: [rejected_16_masked] without the mask, source 16 being REJECTED
    at priority 5. *)
Definition rejected_16 : icp_state :=
  IcpState
    [IcpServer 0xff000000 2 0xff
       [PinEvent false 0xff000011 2; PinEvent true 0xff000011 2;
        PinEvent true 0xff000010 5; PinEvent false 0 0];
     IcpServer 0 0 0xff [PinEvent false 0 0]]
    (IcsState 16 [IcsIrq 0 5 5 4 false; IcsIrq 0 2 2 0 false;
                  IcsIrq 0 0xff 0xff 0 false; IcsIrq 0 0xff 0xff 0 false]).

(** * Properties *)

(** ** Bit fields of [xirr] *)

Lemma testbit_XISR_MASK n : 0 <= n -> Z.testbit XISR_MASK n = (n <? 24).
Proof. intros Hn. change XISR_MASK with (Z.ones 24). by apply Z.testbit_ones_nonneg. Qed.

Lemma testbit_CPPR_MASK n :
  0 <= n -> Z.testbit CPPR_MASK n = (24 <=? n) && (n <? 32).
Proof.
  intros Hn. change CPPR_MASK with (Z.ones 8 * 2 ^ 24).
  rewrite Z.mul_pow2_bits, Z.testbit_ones by lia.
  destruct (Z.leb_spec 0 (n - 24)), (Z.leb_spec 24 n),
    (Z.ltb_spec (n - 24) 8), (Z.ltb_spec n 32); simpl; lia || done.
Qed.

Lemma not_XISR_MASK : u32 (Z.lnot XISR_MASK) = CPPR_MASK.
Proof. reflexivity. Qed.

Lemma not_CPPR_MASK : u32 (Z.lnot CPPR_MASK) = XISR_MASK.
Proof. reflexivity. Qed.

Lemma testbit_above x k n :
  0 <= x < 2 ^ k -> 0 <= k <= n -> Z.testbit x n = false.
Proof.
  intros Hx Hk. rewrite <- (Z.mod_small x (2 ^ k)) by lia.
  apply Z.mod_pow2_bits_high. lia.
Qed.

Lemma range_of_bits x k :
  0 <= k -> 0 <= x -> (forall n, k <= n -> Z.testbit x n = false) -> x < 2 ^ k.
Proof.
  intros Hk Hx Hb.
  assert (x = x mod 2 ^ k) as ->; [|apply Z.mod_pos_bound; lia].
  apply Z.bits_inj'. intros n Hn. rewrite Z.testbit_mod_pow2 by lia.
  destruct (Z.ltb_spec n k); simpl; [done|]. by apply Hb.
Qed.

Lemma lor_range a b k :
  0 <= k -> 0 <= a < 2 ^ k -> 0 <= b < 2 ^ k -> 0 <= Z.lor a b < 2 ^ k.
Proof.
  intros Hk Ha Hb. split; [apply Z.lor_nonneg; lia|].
  apply range_of_bits; [done|apply Z.lor_nonneg; lia|].
  intros n Hn. rewrite Z.lor_spec, (testbit_above a k), (testbit_above b k); done || lia.
Qed.

Lemma land_range a m k :
  0 <= k -> 0 <= m < 2 ^ k -> 0 <= Z.land a m < 2 ^ k.
Proof.
  intros Hk Hm. split; [apply Z.land_nonneg; lia|].
  apply range_of_bits; [done|apply Z.land_nonneg; lia|].
  intros n Hn. rewrite Z.land_spec, (testbit_above m k), andb_false_r; done || lia.
Qed.

Ltac bool_cases :=
  repeat match goal with
    | |- context [?a <? ?b] => destruct (Z.ltb_spec a b)
    | |- context [?a <=? ?b] => destruct (Z.leb_spec a b)
    end;
  simpl; rewrite ?andb_false_r, ?andb_true_r, ?orb_false_r; try done; try lia.

(** Writing the XISR field leaves CPPR alone and reads back. *)
Lemma CPPR_write_xisr x v :
  0 <= x < 2 ^ 32 -> 0 <= v < 2 ^ 24 ->
  Z.shiftr (Z.lor (Z.land x (u32 (Z.lnot XISR_MASK))) v) 24 = Z.shiftr x 24.
Proof.
  intros Hx Hv. rewrite not_XISR_MASK. apply Z.bits_inj'. intros n Hn.
  rewrite !Z.shiftr_spec, Z.lor_spec, Z.land_spec, testbit_CPPR_MASK by lia.
  rewrite (testbit_above v 24) by lia.
  destruct (Z.ltb_spec (n + 24) 32); bool_cases.
  rewrite (testbit_above x 32); done || lia.
Qed.

Lemma XISR_write_xisr x v :
  0 <= v < 2 ^ 24 ->
  Z.land (Z.lor (Z.land x (u32 (Z.lnot XISR_MASK))) v) XISR_MASK = v.
Proof.
  intros Hv. rewrite not_XISR_MASK. apply Z.bits_inj'. intros n Hn.
  rewrite Z.land_spec, Z.lor_spec, Z.land_spec, testbit_CPPR_MASK,
    testbit_XISR_MASK by lia.
  bool_cases. all: rewrite (testbit_above v 24); done || lia.
Qed.

Lemma CPPR_write_cppr x c :
  0 <= c < 2 ^ 8 ->
  Z.shiftr (Z.lor (Z.land x (u32 (Z.lnot CPPR_MASK))) (u32 (Z.shiftl c 24))) 24 = c.
Proof.
  intros Hc. rewrite not_CPPR_MASK. unfold u32.
  rewrite Z.shiftl_mul_pow2, Z.mod_small by lia.
  apply Z.bits_inj'. intros n Hn.
  rewrite !Z.shiftr_spec, Z.lor_spec, Z.land_spec, testbit_XISR_MASK by lia.
  rewrite Z.mul_pow2_bits by lia. replace (n + 24 - 24) with n by lia.
  bool_cases.
Qed.

Lemma XISR_write_cppr x c :
  0 <= c < 2 ^ 8 ->
  Z.land (Z.lor (Z.land x (u32 (Z.lnot CPPR_MASK))) (u32 (Z.shiftl c 24))) XISR_MASK
  = Z.land x XISR_MASK.
Proof.
  intros Hc. rewrite not_CPPR_MASK. unfold u32.
  rewrite Z.shiftl_mul_pow2, Z.mod_small by lia.
  apply Z.bits_inj'. intros n Hn.
  rewrite !Z.land_spec, Z.lor_spec, Z.land_spec, testbit_XISR_MASK by lia.
  bool_cases. rewrite Z.mul_pow2_bits_low by lia. by rewrite orb_false_r.
Qed.

Lemma land_XISR_MASK_range a : 0 <= Z.land a XISR_MASK < 2 ^ 24.
Proof. apply land_range; unfold XISR_MASK; lia. Qed.
Lemma land_CPPR_MASK_range a : 0 <= Z.land a CPPR_MASK < 2 ^ 32.
Proof. apply land_range; unfold CPPR_MASK; lia. Qed.

Lemma XISR_range s : 0 <= XISR s < 2 ^ 24.
Proof. apply land_XISR_MASK_range. Qed.

Lemma CPPR_range s : 0 <= xirr s < 2 ^ 32 -> 0 <= CPPR s < 2 ^ 8.
Proof.
  intros Hx. unfold CPPR. rewrite Z.shiftr_div_pow2 by lia. split.
  - apply Z.div_pos; lia.
  - apply Z.div_lt_upper_bound; lia.
Qed.

(** ** Status bits *)

Lemma status_set_other s f g :
  Z.land f g = 0 -> Z.land (Z.lor s f) g = Z.land s g.
Proof. intros H. by rewrite Z.land_lor_distr_l, H, Z.lor_0_r. Qed.

Lemma status_clear_other s f g :
  Z.land (Z.lnot f) g = g -> Z.land (Z.land s (Z.lnot f)) g = Z.land s g.
Proof. intros H. by rewrite <- Z.land_assoc, H. Qed.

Lemma status_clear_same s f : Z.land (Z.land s (Z.lnot f)) f = 0.
Proof.
  rewrite <- Z.land_assoc, (Z.land_comm (Z.lnot f)), Z.land_lnot_diag.
  apply Z.land_0_r.
Qed.

Lemma status_set_same s f : f <> 0 -> Z.land (Z.lor s f) f <> 0.
Proof.
  intros Hf. rewrite Z.land_lor_distr_l, Z.land_diag.
  intros H. apply Z.lor_eq_0_iff in H. tauto.
Qed.

Lemma truthy_true z : truthy z = true <-> z <> 0.
Proof. unfold truthy. destruct (Z.eqb_spec z 0); simpl; split; congruence. Qed.

Lemma truthy_false z : truthy z = false <-> z = 0.
Proof. unfold truthy. destruct (Z.eqb_spec z 0); simpl; split; congruence. Qed.

(** ** Array accesses *)

Lemma at_index_Some {A} (l : list A) i x :
  at_index l i = Some x <-> 0 <= i /\ l !! Z.to_nat i = Some x.
Proof.
  unfold at_index. destruct (Z.ltb_spec i 0); split.
  - done.
  - intros [? _]; lia.
  - intros ?; split; [lia|done].
  - by intros [_ ?].
Qed.

Lemma at_index_in_range {A} (l : list A) i :
  0 <= i < Z.of_nat (length l) -> is_Some (at_index l i).
Proof.
  intros Hi. unfold at_index. destruct (Z.ltb_spec i 0); [lia|].
  apply lookup_lt_is_Some. lia.
Qed.

Lemma at_index_store_eq {A} (l : list A) i x y :
  at_index l i = Some x -> at_index (store_index l i y) i = Some y.
Proof.
  rewrite !at_index_Some. intros [Hi Hx]. split; [done|].
  apply list_lookup_insert_eq. by eapply lookup_lt_Some.
Qed.

Lemma at_index_store_ne {A} (l : list A) i j y :
  0 <= i -> i <> j -> at_index (store_index l i y) j = at_index l j.
Proof.
  intros Hi Hij. unfold at_index, store_index.
  destruct (Z.ltb_spec j 0); [done|].
  apply list_lookup_insert_ne. lia.
Qed.

Lemma Forall2_store_self {A} (R : A -> A -> Prop) (l : list A) i x y :
  (forall a, R a a) -> at_index l i = Some x -> R x y ->
  Forall2 R l (store_index l i y).
Proof.
  intros Hrefl [_ Hx]%at_index_Some Hxy. unfold store_index.
  rewrite <- (list_insert_id l (Z.to_nat i) x) at 1 by done.
  apply Forall2_insert; [|done].
  apply Forall_Forall2_diag, Forall_forall. auto.
Qed.

(** ** What a call into the other layer preserves

    [irq_step] relates a source before and after a call that does not
    reconfigure it: routing, priorities and type stay, and SENT is set only
    on an unmasked LSI.  [ss_step] relates a presenter before and after:
    CPPR and MFRR stay, [xirr] still fits 32 bits, and every raise of the pin
    so far was made above the priority gate. *)

Lemma irq_step_refl a : irq_step a a.
Proof. unfold irq_step. tauto. Qed.

Lemma irq_step_trans a b c : irq_step a b -> irq_step b c -> irq_step a c.
Proof.
  unfold irq_step. intros (Hs1 & Hp1 & Hv1 & Hl1 & Hab) (Hs2 & Hp2 & Hv2 & Hl2 & Hbc).
  repeat split; try congruence.
  intros Hc. destruct (Hbc Hc) as [Hb|[Hp Hl]]; [by apply Hab|].
  right. split; congruence.
Qed.

Lemma ss_step_refl a : ss_fits a -> ss_step a a.
Proof. unfold ss_step. tauto. Qed.

Lemma ss_step_trans a b c : ss_step a b -> ss_step b c -> ss_step a c.
Proof.
  unfold ss_step. intros (Hc1 & Hm1 & _ & Hab) (Hc2 & Hm2 & Hc & Hbc).
  repeat split; try congruence; try apply Hc. auto.
Qed.

Lemma ss_step_fits l k : Forall2 ss_step l k -> Forall ss_fits k.
Proof.
  intros H. eapply Forall2_Forall_r; [done|].
  apply Forall_forall. intros a _ b Hab. apply Hab.
Qed.

Lemma irq_step_diag (l : list ics_irq_state) : Forall2 irq_step l l.
Proof. apply Forall_Forall2_diag, Forall_forall. intros. apply irq_step_refl. Qed.

Lemma ss_step_diag (l : list icp_server_state) :
  Forall ss_fits l -> Forall2 ss_step l l.
Proof.
  intros H. apply Forall_Forall2_diag.
  revert H. apply Forall_impl. intros. by apply ss_step_refl.
Qed.

Lemma good_refl x : good x x.
Proof. repeat split; [apply irq_step_diag|apply ss_step_diag]. Qed.

Lemma good_trans x y z : good x y -> good y z -> good x z.
Proof.
  intros (Ho1 & Hi1 & Hs1) (Ho2 & Hi2 & Hs2). repeat split.
  - congruence.
  - eapply Forall2_trans; [apply irq_step_trans|done|done].
  - intros Hx. specialize (Hs1 Hx).
    eapply Forall2_trans; [apply ss_step_trans|done|].
    apply Hs2. by eapply ss_step_fits.
Qed.

Lemma good_put_irq icp i q q' :
  get_irq icp i = Some q -> irq_step q q' -> good icp (put_irq icp i q').
Proof.
  intros Hq Hstep. repeat split; simpl.
  - eapply Forall2_store_self; [apply irq_step_refl|done|done].
  - apply ss_step_diag.
Qed.

Lemma good_put_ss icp srv s s' :
  get_ss icp srv = Some s -> (ss_fits s -> ss_step s s') ->
  good icp (put_ss icp srv s').
Proof.
  intros Hs Hstep. repeat split; simpl.
  - apply irq_step_diag.
  - intros H. apply at_index_Some in Hs as [_ Hs]. unfold store_index.
    rewrite <- (list_insert_id (ss icp) (Z.to_nat srv) s) at 1 by done.
    apply Forall2_insert; [by apply ss_step_diag|].
    apply Hstep. by eapply (Forall_lookup_1 _ _ _ _ H).
Qed.

(** Case analysis on a monadic bind that returned. *)
Ltac bind_inv H :=
  let x := fresh "x" in
  let Hx := fresh "H" x in
  apply bind_Some in H as (x & Hx & H).

Lemma ics_reject_ss icp nr icp' :
  ics_reject icp nr = Some icp' -> ss icp' = ss icp.
Proof. unfold ics_reject. intros H. bind_inv H. by simplify_eq. Qed.

Lemma ics_reject_step q :
  irq_step q
    (set_status q (Z.land (Z.lor (status q) XICS_STATUS_REJECTED)
                          (Z.lnot XICS_STATUS_SENT))).
Proof.
  repeat split. unfold has_status; simpl.
  rewrite status_clear_same. discriminate.
Qed.

Lemma good_ics_reject icp nr icp' :
  ics_reject icp nr = Some icp' -> good icp icp'.
Proof.
  unfold ics_reject. intros H. bind_inv H. simplify_eq.
  eapply good_put_irq; [done|]. apply ics_reject_step.
Qed.

Lemma good_maybe_reject icp (b : bool) nr icp' :
  (if b then ics_reject icp nr else Some icp) = Some icp' ->
  good icp icp' /\ ss icp' = ss icp.
Proof.
  destruct b; intros H.
  - split; [by eapply good_ics_reject|by eapply ics_reject_ss].
  - simplify_eq. split; [apply good_refl|done].
Qed.

(** Installing an interrupt number in XISR, as [icp_irq] and [icp_check_ipi]
    do, when the priority passed the gate. *)
Lemma install_step s v prio :
  0 <= v < 2 ^ 24 -> prio < CPPR s -> ss_fits s ->
  ss_step s
    (qemu_irq_raise
       (set_pending_priority
          (set_xirr s (Z.lor (Z.land (xirr s) (u32 (Z.lnot XISR_MASK))) v))
          prio)).
Proof.
  intros Hv Hprio Hs. unfold ss_step, ss_fits, CPPR in *; simpl.
  rewrite CPPR_write_xisr by done. repeat split; try done.
  - apply Z.lor_nonneg. split; [|lia]. apply Z.land_nonneg. lia.
  - apply lor_range; [lia| |lia]. rewrite not_XISR_MASK.
    apply land_CPPR_MASK_range.
  - intros Hout. constructor; [|done].
    intros _ _. simpl. by rewrite CPPR_write_xisr.
Qed.

Lemma good_icp_irq icp srv nr prio icp' :
  icp_irq icp srv nr prio = Some icp' -> good icp icp'.
Proof.
  unfold icp_irq. intros H. bind_inv H.
  destruct (_ || _) eqn:Hc; [by eapply good_ics_reject|].
  apply orb_false_iff in Hc as [Hc _]. apply Z.leb_gt in Hc.
  bind_inv H. apply good_maybe_reject in Hx0 as [Hg Hss].
  bind_inv H. simplify_eq.
  assert (x1 = x) as -> by (unfold get_ss in *; congruence).
  eapply good_trans; [done|]. eapply good_put_ss; [done|].
  apply install_step; [apply land_XISR_MASK_range|done].
Qed.

(** A status write that does not set SENT. *)
Lemma irq_step_status q st :
  (truthy (Z.land st XICS_STATUS_SENT) = true ->
   has_status q XICS_STATUS_SENT = true) ->
  irq_step q (set_status q st).
Proof. intros H. repeat split. intros Hs. left. by apply H. Qed.

Lemma irq_step_clear q f :
  irq_step q (set_status q (Z.land (status q) (Z.lnot f))).
Proof.
  apply irq_step_status. unfold has_status.
  rewrite !truthy_true, <- Z.land_assoc, (Z.land_comm (Z.lnot f)), Z.land_assoc.
  intros H Hz. apply H. by rewrite Hz.
Qed.

Lemma irq_step_set q f :
  Z.land f XICS_STATUS_SENT = 0 ->
  irq_step q (set_status q (Z.lor (status q) f)).
Proof.
  intros Hf. apply irq_step_status. unfold has_status.
  by rewrite status_set_other.
Qed.

Lemma irq_step_send q :
  priority q <> 0xff -> lsi q = true ->
  irq_step q (set_status q (Z.lor (status q) XICS_STATUS_SENT)).
Proof. intros Hp Hl. repeat split. auto. Qed.

Lemma good_resend_msi icp srcno icp' :
  resend_msi icp srcno = Some icp' -> good icp icp'.
Proof.
  unfold resend_msi. intros H. bind_inv H.
  destruct (has_status x _); [|simplify_eq; apply good_refl].
  eapply good_trans; [eapply good_put_irq; [done|apply irq_step_clear]|].
  destruct (negb _); [by eapply good_icp_irq|].
  simplify_eq. apply good_refl.
Qed.

Lemma good_resend_lsi icp srcno q icp' :
  get_irq icp srcno = Some q -> lsi q = true ->
  resend_lsi icp srcno = Some icp' -> good icp icp'.
Proof.
  unfold resend_lsi. intros Hq Hl H. rewrite Hq in H. simpl in H.
  destruct (_ && _) eqn:Hc; [|simplify_eq; apply good_refl].
  apply andb_true_iff in Hc as [[Hp _]%andb_true_iff _].
  apply negb_true_iff, Z.eqb_neq in Hp.
  eapply good_trans; [eapply good_put_irq; [done|by apply irq_step_send]|].
  by eapply good_icp_irq.
Qed.

Lemma good_ics_resend_from n i icp icp' :
  ics_resend_from n i icp = Some icp' -> good icp icp'.
Proof.
  revert i icp. induction n as [|n IH]; simpl; intros i icp H.
  - simplify_eq. apply good_refl.
  - bind_inv H. bind_inv H. eapply good_trans; [|by eapply IH].
    destruct (lsi x) eqn:Hl.
    + by eapply good_resend_lsi.
    + by eapply good_resend_msi.
Qed.

Lemma good_ics_resend icp icp' : ics_resend icp = Some icp' -> good icp icp'.
Proof. apply good_ics_resend_from. Qed.

Lemma good_set_irq_msi icp srcno val icp' :
  set_irq_msi icp srcno val = Some icp' -> good icp icp'.
Proof.
  unfold set_irq_msi. intros H. bind_inv H.
  destruct (truthy val); [|simplify_eq; apply good_refl].
  destruct (priority x =? 0xff); [|by eapply good_icp_irq].
  simplify_eq. eapply good_put_irq; [done|]. by apply irq_step_set.
Qed.

Lemma get_put_irq icp i q q' :
  get_irq icp i = Some q -> get_irq (put_irq icp i q') i = Some q'.
Proof. apply at_index_store_eq. Qed.

Lemma get_put_ss icp i s s' :
  get_ss icp i = Some s -> get_ss (put_ss icp i s') i = Some s'.
Proof. apply at_index_store_eq. Qed.

Lemma good_set_irq_lsi icp srcno val q icp' :
  get_irq icp srcno = Some q -> lsi q = true ->
  set_irq_lsi icp srcno val = Some icp' -> good icp icp'.
Proof.
  unfold set_irq_lsi. intros Hq Hl H. rewrite Hq in H. simpl in H.
  eapply good_trans; [|eapply good_resend_lsi; [by eapply get_put_irq| |done]].
  - eapply good_put_irq; [done|].
    destruct (truthy val); [by apply irq_step_set|apply irq_step_clear].
  - by destruct (truthy val).
Qed.

Lemma good_ics_set_irq icp srcno val icp' :
  ics_set_irq icp srcno val = Some icp' -> good icp icp'.
Proof.
  unfold ics_set_irq. intros H. bind_inv H. destruct (lsi x) eqn:Hl.
  - by eapply good_set_irq_lsi.
  - by eapply good_set_irq_msi.
Qed.

Lemma good_write_xive_msi icp srcno icp' :
  write_xive_msi icp srcno = Some icp' -> good icp icp'.
Proof.
  unfold write_xive_msi. intros H. bind_inv H.
  destruct (_ || _); [simplify_eq; apply good_refl|].
  eapply good_trans; [eapply good_put_irq; [done|apply irq_step_clear]|].
  by eapply good_icp_irq.
Qed.

Lemma good_ics_eoi icp nr icp' : ics_eoi icp nr = Some icp' -> good icp icp'.
Proof.
  unfold ics_eoi. intros H. bind_inv H.
  destruct (lsi x); simplify_eq; [|apply good_refl].
  eapply good_put_irq; [done|apply irq_step_clear].
Qed.

(** ** The presenter invariant and the IPI path *)

Lemma pins_inv_fits icp : pins_inv icp -> Forall ss_fits (ss icp).
Proof. apply Forall_impl. tauto. Qed.

Lemma good_pins x y : good x y -> pins_inv x -> pins_inv y.
Proof.
  intros (_ & _ & Hs) Hx. specialize (Hs (pins_inv_fits _ Hx)).
  eapply Forall2_Forall_r; [done|]. revert Hx. apply Forall_impl.
  intros a [_ Ha] b (_ & _ & Hb & Hout). auto.
Qed.

Lemma good_icp_check_ipi icp srv icp' :
  0 <= XICS_IPI < 2 ^ 24 ->
  (forall s, get_ss icp srv = Some s -> mfrr s < CPPR s) ->
  icp_check_ipi icp srv = Some icp' -> good icp icp'.
Proof.
  unfold icp_check_ipi. intros Hipi Hguard H. bind_inv H.
  destruct (_ && _); [simplify_eq; apply good_refl|].
  bind_inv H. apply good_maybe_reject in Hx0 as [Hg Hss].
  bind_inv H. simplify_eq.
  assert (x1 = x) as -> by (unfold get_ss in *; congruence).
  eapply good_trans; [done|]. eapply good_put_ss; [done|].
  apply (install_step x XICS_IPI (mfrr x)); auto.
Qed.

Lemma good_icp_resend icp srv icp' :
  0 <= XICS_IPI < 2 ^ 24 -> icp_resend icp srv = Some icp' -> good icp icp'.
Proof.
  unfold icp_resend. intros Hipi H. bind_inv H. bind_inv H.
  eapply good_trans; [|by eapply good_ics_resend].
  destruct (Z.ltb_spec (mfrr x) (CPPR x)); [|simplify_eq; apply good_refl].
  eapply good_icp_check_ipi; [done| |done]. intros s Hs. by simplify_eq.
Qed.

Lemma good_fine x y : good x y -> fine x y.
Proof.
  intros Hg. split; [apply Hg|]. split; [apply Hg|]. by apply good_pins.
Qed.

Lemma fine_trans x y z : fine x y -> fine y z -> fine x z.
Proof.
  intros (Ho1 & Hi1 & Hs1) (Ho2 & Hi2 & Hs2). repeat split.
  - congruence.
  - eapply Forall2_trans; [apply irq_step_trans|done|done].
  - auto.
Qed.

Lemma fine_put_ss icp srv s s' :
  get_ss icp srv = Some s ->
  (ss_fits s -> Forall raise_ok (output s) ->
   ss_fits s' /\ Forall raise_ok (output s')) ->
  fine icp (put_ss icp srv s').
Proof.
  intros Hs Hstep. repeat split; simpl; [apply irq_step_diag|].
  intros H. apply Forall_insert; [done|].
  apply at_index_Some in Hs as [_ Hs].
  destruct (Forall_lookup_1 _ _ _ _ H Hs). auto.
Qed.

Lemma lower_ok s x :
  Forall raise_ok (output s) ->
  Forall raise_ok (output (qemu_irq_lower (set_xirr s x))).
Proof. intros H. constructor; [|done]. intros Hl. discriminate. Qed.

Lemma fine_icp_set_cppr icp srv cppr icp' :
  0 <= XICS_IPI < 2 ^ 24 ->
  icp_set_cppr icp srv cppr = Some icp' -> fine icp icp'.
Proof.
  unfold icp_set_cppr. intros Hipi H. bind_inv H.
  set (s1 := set_xirr x _) in H.
  assert (ss_fits s1) as Hs1.
  { unfold ss_fits, s1; simpl. apply lor_range; [lia| |].
    - rewrite not_CPPR_MASK.
      pose proof (land_XISR_MASK_range (xirr x)). lia.
    - apply Z.mod_pos_bound. lia. }
  assert (fine icp (put_ss icp srv s1)) as Hf1.
  { eapply fine_put_ss; [done|]. intros _ Ho. by split. }
  eapply fine_trans; [done|].
  destruct (cppr <? CPPR x).
  - destruct (_ && _).
    + apply good_ics_reject, good_fine in H. revert H. apply fine_trans.
      eapply fine_put_ss; [by eapply get_put_ss|]. intros _ Ho. split.
      * unfold ss_fits; simpl. rewrite not_XISR_MASK.
        apply land_CPPR_MASK_range.
      * by apply lower_ok.
    + simplify_eq. apply good_fine, good_refl.
  - destruct (negb _).
    + by eapply good_fine, good_icp_resend.
    + simplify_eq. apply good_fine, good_refl.
Qed.

Lemma fine_icp_set_mfrr icp srv m icp' :
  0 <= XICS_IPI < 2 ^ 24 ->
  icp_set_mfrr icp srv m = Some icp' -> fine icp icp'.
Proof.
  unfold icp_set_mfrr. intros Hipi H. bind_inv H.
  eapply fine_trans; [eapply (fine_put_ss _ _ _ (set_mfrr x m)); [done|tauto]|].
  destruct (Z.ltb_spec m (CPPR (set_mfrr x m))).
  - apply good_fine. eapply good_icp_check_ipi; [done| |done].
    intros s Hs. erewrite get_put_ss in Hs by done. by simplify_eq.
  - simplify_eq. apply good_fine, good_refl.
Qed.

Lemma fine_icp_eoi icp srv v icp' :
  0 <= XICS_IPI < 2 ^ 24 ->
  icp_eoi icp srv v = Some icp' -> fine icp icp'.
Proof.
  unfold icp_eoi. intros Hipi H. bind_inv H. bind_inv H. bind_inv H.
  set (s1 := set_xirr x _) in Hx0.
  apply (fine_trans _ (put_ss icp srv s1)).
  { eapply fine_put_ss; [done|]. intros _ Ho. split; [|done].
    unfold ss_fits; simpl. apply lor_range; [lia| |].
    - rewrite not_CPPR_MASK.
      pose proof (land_XISR_MASK_range (xirr x)). lia.
    - apply land_CPPR_MASK_range. }
  eapply fine_trans; [by eapply good_fine, good_ics_eoi|].
  destruct (negb _).
  - by eapply good_fine, good_icp_resend.
  - simplify_eq. apply good_fine, good_refl.
Qed.

Lemma fine_h_xirr icp cpu r :
  h_xirr icp cpu = Some r -> fine icp (fst (fst r)).
Proof.
  unfold h_xirr. intros H. bind_inv H. simpl in H. simplify_eq. simpl.
  eapply fine_put_ss; [done|]. intros _ Ho. split.
  - unfold ss_fits; simpl. apply Z.mod_pos_bound. lia.
  - by apply lower_ok.
Qed.

(** ** The source side of the presenter entry points

    The same facts about the sources hold whatever number the IPI
    pseudo-source has. *)

Lemma good_src x y : good x y -> src_good x y.
Proof. intros (? & ? & _). by split. Qed.

Lemma src_good_same x y : ics x = ics y -> src_good x y.
Proof. intros H. unfold src_good. rewrite H. split; [done|apply irq_step_diag]. Qed.

Lemma src_good_trans x y z : src_good x y -> src_good y z -> src_good x z.
Proof.
  intros [Ho1 Hi1] [Ho2 Hi2]. split; [congruence|].
  eapply Forall2_trans; [apply irq_step_trans|done|done].
Qed.

Lemma src_icp_check_ipi icp srv icp' :
  icp_check_ipi icp srv = Some icp' -> src_good icp icp'.
Proof.
  unfold icp_check_ipi. intros H. bind_inv H.
  destruct (_ && _); [simplify_eq; by apply src_good_same|].
  bind_inv H. apply good_maybe_reject in Hx0 as [Hg _].
  bind_inv H. simplify_eq.
  eapply src_good_trans; [by apply good_src|]. by apply src_good_same.
Qed.

Lemma src_icp_resend icp srv icp' :
  icp_resend icp srv = Some icp' -> src_good icp icp'.
Proof.
  unfold icp_resend. intros H. bind_inv H. bind_inv H.
  eapply src_good_trans; [|by eapply good_src, good_ics_resend].
  destruct (_ <? _); [by eapply src_icp_check_ipi|].
  simplify_eq. by apply src_good_same.
Qed.

Lemma src_icp_set_cppr icp srv cppr icp' :
  icp_set_cppr icp srv cppr = Some icp' -> src_good icp icp'.
Proof.
  unfold icp_set_cppr. intros H. bind_inv H.
  destruct (_ <? _).
  - destruct (_ && _); [|simplify_eq; by apply src_good_same].
    apply good_ics_reject, good_src in H.
    eapply src_good_trans; [|done]. by apply src_good_same.
  - destruct (negb _); [|simplify_eq; by apply src_good_same].
    apply src_icp_resend in H.
    eapply src_good_trans; [|done]. by apply src_good_same.
Qed.

Lemma src_icp_set_mfrr icp srv m icp' :
  icp_set_mfrr icp srv m = Some icp' -> src_good icp icp'.
Proof.
  unfold icp_set_mfrr. intros H. bind_inv H.
  destruct (_ <? _); [|simplify_eq; by apply src_good_same].
  apply src_icp_check_ipi in H.
  eapply src_good_trans; [|done]. by apply src_good_same.
Qed.

Lemma src_icp_eoi icp srv v icp' :
  icp_eoi icp srv v = Some icp' -> src_good icp icp'.
Proof.
  unfold icp_eoi. intros H. bind_inv H. bind_inv H. bind_inv H.
  apply good_ics_eoi, good_src in Hx0.
  eapply src_good_trans; [by apply src_good_same|].
  eapply src_good_trans; [done|].
  destruct (negb _); [by eapply src_icp_resend|].
  simplify_eq. by apply src_good_same.
Qed.

(** ** One transition *)

Lemma src_good_op_rel o x y :
  src_good x y -> Forall2 (op_rel o) (irqs (ics x)) (irqs (ics y)).
Proof.
  intros [_ H]. revert H. apply Forall2_impl.
  intros a b (_ & Hp & _ & Hl & Hs). split; [|done].
  intros Hb. destruct (Hs Hb) as [|[? ?]]; [by left|right].
  split; congruence.
Qed.

Lemma src_ics_write_xive icp nr srv prio saved icp' o :
  ics_write_xive icp nr srv prio saved = Some icp' ->
  Forall2 (op_rel o) (irqs (ics icp)) (irqs (ics icp')).
Proof.
  unfold ics_write_xive. intros H. bind_inv H.
  set (q := IcsIrq srv prio saved (status x) (lsi x)) in H.
  set (icp1 := put_irq icp (nr - offset (ics icp)) q) in H.
  assert (get_irq icp1 (nr - offset (ics icp)) = Some q) as Hq
    by (by eapply get_put_irq).
  assert (src_good icp1 icp') as [_ Hg].
  { destruct (lsi x) eqn:Hl; simpl in H.
    - by eapply good_src, good_resend_lsi.
    - by eapply good_src, good_write_xive_msi. }
  eapply (Forall2_trans (fun a b => status a = status b /\ lsi a = lsi b));
    [|eapply (Forall2_store_self _ _ _ x q); [done|done|done]|exact Hg].
  intros a b c [Hst Hl] (_ & Hp & _ & Hl' & Hs). split; [|congruence].
  intros Hc. destruct (Hs Hc) as [Hb|[? ?]].
  - left. unfold has_status in *. by rewrite Hst.
  - right. split; congruence.
Qed.

Lemma pins_ics_write_xive icp nr srv prio saved icp' :
  ics_write_xive icp nr srv prio saved = Some icp' ->
  pins_inv icp -> pins_inv icp'.
Proof.
  unfold ics_write_xive. intros H. bind_inv H.
  set (q := IcsIrq srv prio saved (status x) (lsi x)) in H.
  set (icp1 := put_irq icp (nr - offset (ics icp)) q) in H.
  assert (get_irq icp1 (nr - offset (ics icp)) = Some q) as Hq
    by (by eapply get_put_irq).
  intros Hp. assert (pins_inv icp1) as Hp1 by done.
  revert Hp1. apply good_pins.
  destruct (lsi x) eqn:Hl; simpl in H.
  - by eapply good_resend_lsi.
  - by eapply good_write_xive_msi.
Qed.

Lemma rtas_set_xive_cases icp nargs args nret rets r :
  rtas_set_xive icp nargs args nret rets = Some r -> xive_or_same icp (fst r).
Proof.
  unfold rtas_set_xive. intros H.
  destruct (_ || _); [simplify_eq; by left|].
  destruct (_ || _); [simplify_eq; by left|].
  bind_inv H. simplify_eq. right. eauto.
Qed.

Lemma rtas_get_xive_cases icp nargs args nret rets r :
  rtas_get_xive icp nargs args nret rets = Some r -> xive_or_same icp (fst r).
Proof.
  unfold rtas_get_xive. intros H.
  destruct (_ || _); [simplify_eq; by left|].
  destruct (negb _); [simplify_eq; by left|].
  bind_inv H. simplify_eq. by left.
Qed.

Lemma rtas_int_off_cases icp nargs args nret rets r :
  rtas_int_off icp nargs args nret rets = Some r -> xive_or_same icp (fst r).
Proof.
  unfold rtas_int_off. intros H.
  destruct (_ || _); [simplify_eq; by left|].
  destruct (negb _); [simplify_eq; by left|].
  bind_inv H. bind_inv H. simplify_eq. right. eauto.
Qed.

Lemma rtas_int_on_cases icp nargs args nret rets r :
  rtas_int_on icp nargs args nret rets = Some r -> xive_or_same icp (fst r).
Proof.
  unfold rtas_int_on. intros H.
  destruct (_ || _); [simplify_eq; by left|].
  destruct (negb _); [simplify_eq; by left|].
  bind_inv H. bind_inv H. simplify_eq. right. eauto.
Qed.

Lemma xive_or_same_sources o icp icp' :
  xive_or_same icp icp' ->
  Forall2 (op_rel o) (irqs (ics icp)) (irqs (ics icp')).
Proof.
  intros [->|(nr & srv & prio & saved & H)].
  - by apply src_good_op_rel, src_good_same.
  - by eapply src_ics_write_xive.
Qed.

Lemma xive_or_same_pins icp icp' :
  xive_or_same icp icp' -> pins_inv icp -> pins_inv icp'.
Proof.
  intros [->|(nr & srv & prio & saved & H)]; [done|].
  by eapply pins_ics_write_xive.
Qed.

Lemma has_status_0 q f : has_status (set_status q 0) f = false.
Proof. reflexivity. Qed.

Lemma step_sources icp o icp' :
  step icp o = Some icp' ->
  Forall2 (op_rel o) (irqs (ics icp)) (irqs (ics icp')).
Proof.
  destruct o; simpl; intros H.
  - by eapply src_good_op_rel, good_src, good_ics_set_irq.
  - apply fmap_Some in H as (r & H & ->). unfold h_cppr in H. bind_inv H.
    simplify_eq. by eapply src_good_op_rel, src_icp_set_cppr.
  - apply fmap_Some in H as (r & H & ->). unfold h_ipi in H.
    destruct (_ <=? _); [simplify_eq; by apply src_good_op_rel, src_good_same|].
    bind_inv H. simplify_eq. by eapply src_good_op_rel, src_icp_set_mfrr.
  - apply fmap_Some in H as (r & H & ->). unfold h_xirr in H. bind_inv H.
    simpl in H. simplify_eq. by apply src_good_op_rel, src_good_same.
  - apply fmap_Some in H as (r & H & ->). unfold h_eoi in H. bind_inv H.
    simplify_eq. by eapply src_good_op_rel, src_icp_eoi.
  - apply fmap_Some in H as (r & H & ->).
    by eapply xive_or_same_sources, rtas_set_xive_cases.
  - apply fmap_Some in H as (r & H & ->).
    by eapply xive_or_same_sources, rtas_get_xive_cases.
  - apply fmap_Some in H as (r & H & ->).
    by eapply xive_or_same_sources, rtas_int_off_cases.
  - apply fmap_Some in H as (r & H & ->).
    by eapply xive_or_same_sources, rtas_int_on_cases.
  - simplify_eq. simpl. apply Forall2_fmap_r, Forall_Forall2_diag, Forall_forall.
    intros q _. split; [|done]. intros Hs. discriminate.
  - unfold xics_set_irq_type in H. destruct (ics_valid_irq _ _); [|done].
    bind_inv H. simplify_eq. simpl.
    eapply Forall2_store_self; [| done |].
    + intros a. split; [by left|done].
    + split; [by left|]. simpl. tauto.
Qed.

Lemma step_pins icp o icp' :
  0 <= XICS_IPI < 2 ^ 24 ->
  step icp o = Some icp' -> pins_inv icp -> pins_inv icp'.
Proof.
  intros Hipi. destruct o; simpl; intros H.
  - by eapply good_pins, good_ics_set_irq.
  - apply fmap_Some in H as (r & H & ->). unfold h_cppr in H. bind_inv H.
    simplify_eq. by eapply fine_icp_set_cppr.
  - apply fmap_Some in H as (r & H & ->). unfold h_ipi in H.
    destruct (_ <=? _); [by simplify_eq|].
    bind_inv H. simplify_eq. by eapply fine_icp_set_mfrr.
  - apply fmap_Some in H as (r & H & ->). by eapply fine_h_xirr.
  - apply fmap_Some in H as (r & H & ->). unfold h_eoi in H. bind_inv H.
    simplify_eq. by eapply fine_icp_eoi.
  - apply fmap_Some in H as (r & H & ->).
    by eapply xive_or_same_pins, rtas_set_xive_cases.
  - apply fmap_Some in H as (r & H & ->).
    by eapply xive_or_same_pins, rtas_get_xive_cases.
  - apply fmap_Some in H as (r & H & ->).
    by eapply xive_or_same_pins, rtas_int_off_cases.
  - apply fmap_Some in H as (r & H & ->).
    by eapply xive_or_same_pins, rtas_int_on_cases.
  - simplify_eq. unfold pins_inv. simpl. rewrite Forall_fmap.
    apply Forall_impl. intros s [_ Ho]. split.
    + unfold ss_fits. simpl. lia.
    + constructor; [|done]. intros ?. discriminate.
  - unfold xics_set_irq_type in H. destruct (ics_valid_irq _ _); [|done].
    bind_inv H. by simplify_eq.
Qed.

(** ** Construction *)

(** The second loop of [xics_system_init] finds every presenter zeroed and
    attaches a pin without history: the registers stay as allocated. *)
Lemma xics_init_outputs_zeroed l cpus l' :
  Forall (fun s => s = IcpServer 0 0 0 []) l ->
  xics_init_outputs l cpus = Some l' -> l' = l.
Proof.
  intros Hl. induction cpus as [|env cpus IH]; cbn [xics_init_outputs]; intros H.
  - by simplify_eq.
  - bind_inv H. apply at_index_Some in Hx as [_ Hx].
    pose proof (Forall_lookup_1 _ _ _ _ Hl Hx) as Hz. cbv beta in Hz. subst x.
    assert (store_index l (cpu_index env) (set_output (IcpServer 0 0 0 []) []) = l)
      as Hid by (unfold store_index; by apply list_insert_id).
    rewrite Hid in H. destruct (PPC_INPUT env); [by apply IH..|done].
Qed.

Lemma xics_system_init_Some n cpus icp :
  xics_system_init n cpus = Some icp ->
  0 <= n /\
  icp = IcpState
          (replicate (Z.to_nat (max_server_num cpus + 1)) (IcpServer 0 0 0 []))
          (IcsState 16 (replicate (Z.to_nat n) (IcsIrq 0 0 0 0 false))).
Proof.
  unfold xics_system_init. intros H. bind_inv H.
  apply xics_init_outputs_zeroed in Hx; [|by apply Forall_replicate].
  destruct (Z.ltb_spec n 0); [done|]. by simplify_eq.
Qed.

Lemma pins_inv_init n cpus icp :
  xics_system_init n cpus = Some icp -> pins_inv icp.
Proof.
  intros [_ ->]%xics_system_init_Some.
  apply Forall_replicate. split; [|constructor].
  unfold ss_fits. simpl. lia.
Qed.

Lemma reachable_pins icp :
  0 <= XICS_IPI < 2 ^ 24 -> reachable icp -> pins_inv icp.
Proof.
  intros Hipi H. induction H as [n cpus icp Hinit|icp o icp' _ IH Hstep].
  - by eapply pins_inv_init.
  - by eapply step_pins.
Qed.
(** ** The claims *)

(** Simplification restricted to the monad and the records: plain [simpl]
    would also unfold the arithmetic on the 32-bit constants. *)
Tactic Notation "msimpl" := cbn [mbind option_bind].
Tactic Notation "csimpl" :=
  cbn [mbind option_bind fmap option_fmap option_map fst snd negb andb orb
       xirr pending_priority mfrr output server priority saved_priority
       status lsi ss ics offset irqs ev_level ev_xirr ev_pending_priority
       set_xirr set_pending_priority set_mfrr set_status set_lsi
       qemu_set_irq qemu_irq_raise qemu_irq_lower pin_level put_ss put_irq].
Tactic Notation "csimpl" "in" hyp(H) :=
  cbn [mbind option_bind fmap option_fmap option_map fst snd negb andb orb
       xirr pending_priority mfrr output server priority saved_priority
       status lsi ss ics offset irqs ev_level ev_xirr ev_pending_priority
       set_xirr set_pending_priority set_mfrr set_status set_lsi
       qemu_set_irq qemu_irq_raise qemu_irq_lower pin_level put_ss put_irq]
    in H.

Lemma ics_reject_defined icp nr q :
  get_irq icp (nr - offset (ics icp)) = Some q ->
  ics_reject icp nr =
    Some (put_irq icp (nr - offset (ics icp))
            (set_status q (Z.land (Z.lor (status q) XICS_STATUS_REJECTED)
                                  (Z.lnot XICS_STATUS_SENT)))).
Proof. unfold ics_reject. intros ->. reflexivity. Qed.

(** The numbers [icp_irq] is called with are [srcno + offset] for a source
    [srcno] of the array: they fit the XISR field when the source numbers
    do. *)
Lemma source_number_fits icp srcno q :
  0 <= offset (ics icp) ->
  offset (ics icp) + nr_irqs (ics icp) <= 2 ^ 24 ->
  get_irq icp srcno = Some q ->
  0 <= srcno + offset (ics icp) < 2 ^ 24.
Proof.
  intros Ho Hn [H0 Hq]%at_index_Some. apply lookup_lt_Some in Hq.
  unfold nr_irqs in Hn. lia.
Qed.

(** C1.  [icp_irq(server, nr, priority)] on presenter [s]: if
    [priority >= CPPR(s)], or an XISR is pending with
    [pending_priority <= priority], the call is [ics_reject(nr)] and leaves
    every presenter as it was; for a valid [nr] that marks the source
    REJECTED and not SENT.  Otherwise a pending XISR is first rejected with
    [ics_reject(old_xisr)], and then XISR is set to [nr],
    [pending_priority] to [priority], and the pin is raised; CPPR and MFRR
    keep their values.  XISR is a field of 24 bits, written with
    [nr & XISR_MASK]: it is [nr] for every interrupt number the field can
    hold, [0 <= nr < 2^24], which is what every call passes
    ([source_number_fits]). *)
Theorem icp_irq_spec icp srv nr prio s :
  get_ss icp srv = Some s ->
  ((CPPR s <= prio \/ (XISR s <> 0 /\ pending_priority s <= prio)) ->
     icp_irq icp srv nr prio = ics_reject icp nr /\
     (forall icp', icp_irq icp srv nr prio = Some icp' -> ss icp' = ss icp) /\
     (forall q, get_irq icp (nr - offset (ics icp)) = Some q ->
        exists icp' q',
          icp_irq icp srv nr prio = Some icp' /\
          get_irq icp' (nr - offset (ics icp)) = Some q' /\
          has_status q' XICS_STATUS_REJECTED = true /\
          has_status q' XICS_STATUS_SENT = false))
  /\
  (~ (CPPR s <= prio \/ (XISR s <> 0 /\ pending_priority s <= prio)) ->
     forall icp1,
       (if truthy (XISR s) then ics_reject icp (XISR s) else Some icp)
         = Some icp1 ->
       exists s',
         icp_irq icp srv nr prio = Some (put_ss icp1 srv s') /\
         get_ss (put_ss icp1 srv s') srv = Some s' /\
         XISR s' = Z.land nr XISR_MASK /\
         (0 <= nr < 2 ^ 24 -> XISR s' = nr) /\
         pending_priority s' = prio /\
         pin_level (output s') = true /\
         mfrr s' = mfrr s /\
         (ss_fits s -> CPPR s' = CPPR s)).
Proof.
  intros Hs. unfold icp_irq. rewrite Hs. csimpl. split.
  - intros Hc.
    assert ((CPPR s <=? prio)
            || (truthy (XISR s) && (pending_priority s <=? prio)) = true) as ->.
    { apply orb_true_iff. destruct Hc as [Hc|[Hx Hp]].
      - left. by apply Z.leb_le.
      - right. apply andb_true_iff. split; [by apply truthy_true|by apply Z.leb_le]. }
    split; [done|]. split; [apply ics_reject_ss|].
    intros q Hq. rewrite (ics_reject_defined _ _ _ Hq).
    eexists _, _. split; [done|]. split; [by eapply get_put_irq|].
    unfold has_status; csimpl. split.
    + apply truthy_true. rewrite status_clear_other by done.
      by apply status_set_same.
    + apply truthy_false, status_clear_same.
  - intros Hc icp1 Hrej.
    assert ((CPPR s <=? prio)
            || (truthy (XISR s) && (pending_priority s <=? prio)) = false) as ->.
    { apply orb_false_iff. split.
      - apply Z.leb_gt. lia.
      - apply andb_false_iff.
        destruct (Z.eq_dec (XISR s) 0) as [Hx|Hx].
        + left. by apply truthy_false.
        + right. apply Z.leb_gt. lia. }
    rewrite Hrej. csimpl.
    assert (ss icp1 = ss icp) as Hss.
    { destruct (truthy (XISR s)); [by eapply ics_reject_ss|by simplify_eq]. }
    assert (get_ss icp1 srv = Some s) as Hs1 by (unfold get_ss; by rewrite Hss).
    rewrite Hs1. csimpl. eexists. split; [done|].
    split; [by eapply get_put_ss|].
    unfold XISR, CPPR, ss_fits; csimpl.
    pose proof (land_XISR_MASK_range nr) as Hr.
    rewrite XISR_write_xisr by done. split; [done|]. split.
    { intros Hnr. change XISR_MASK with (Z.ones 24).
      rewrite Z.land_ones, Z.mod_small; lia. }
    repeat split. intros Hf. by apply CPPR_write_xisr.
Qed.

(** C4.  What [resend_msi(i)] does, and where it leaves the claim.  A
    source without REJECTED is left alone, and a source with REJECTED that
    is not masked has the bit cleared and is offered again through
    [icp_irq(server, i + offset, priority)], as the claim says.  But the bit
    is cleared before the mask is looked at: on a source with REJECTED set
    and [priority = 0xff] the status is changed, REJECTED being cleared, and
    nothing is delivered, so that the rejected interrupt is forgotten.  The
    sibling paths treat a masked source differently: [resend_lsi] and
    [write_xive_msi] return at once and leave its status alone, and
    [set_irq_msi] records the interrupt in MASKED_PENDING. *)
Theorem resend_msi_spec icp srcno q :
  get_irq icp srcno = Some q ->
  let q' := set_status q (Z.land (status q) (Z.lnot XICS_STATUS_REJECTED)) in
  (has_status q XICS_STATUS_REJECTED = false ->
     resend_msi icp srcno = Some icp) /\
  (has_status q XICS_STATUS_REJECTED = true -> priority q <> 0xff ->
     resend_msi icp srcno
     = icp_irq (put_irq icp srcno q') (server q)
               (srcno + offset (ics icp)) (priority q)) /\
  (has_status q XICS_STATUS_REJECTED = true -> priority q = 0xff ->
     resend_msi icp srcno = Some (put_irq icp srcno q') /\
     get_irq (put_irq icp srcno q') srcno = Some q' /\
     has_status q' XICS_STATUS_REJECTED = false /\
     status q' <> status q /\
     ss (put_irq icp srcno q') = ss icp) /\
  (priority q = 0xff ->
     resend_lsi icp srcno = Some icp /\
     write_xive_msi icp srcno = Some icp /\
     forall val, val <> 0 ->
       let q1 := set_status q (Z.lor (status q) XICS_STATUS_MASKED_PENDING) in
       set_irq_msi icp srcno val = Some (put_irq icp srcno q1) /\
       has_status q1 XICS_STATUS_MASKED_PENDING = true /\
       has_status q1 XICS_STATUS_REJECTED = has_status q XICS_STATUS_REJECTED).
Proof.
  intros Hq q'.
  assert (has_status q' XICS_STATUS_REJECTED = false) as Hq'
    by apply truthy_false, status_clear_same.
  split; [|split; [|split]].
  - unfold resend_msi. rewrite Hq. csimpl. by intros ->.
  - unfold resend_msi. rewrite Hq. csimpl.
    intros -> Hp. apply Z.eqb_neq in Hp. csimpl. by rewrite Hp.
  - intros Hr Hp. split; [|split; [by eapply get_put_irq|split; [done|split]]].
    + unfold resend_msi. rewrite Hq. csimpl. rewrite Hr. csimpl.
      by rewrite Hp.
    + intros Heq. unfold has_status in Hr, Hq'.
      rewrite Heq in Hq'. congruence.
    + reflexivity.
  - intros Hp. split; [|split].
    + unfold resend_lsi. rewrite Hq. csimpl. by rewrite Hp.
    + unfold write_xive_msi. rewrite Hq. csimpl. rewrite Hp.
      by rewrite orb_true_r.
    + intros val Hval q1. split; [|split].
      * unfold set_irq_msi. rewrite Hq. csimpl.
        apply truthy_true in Hval as ->. by rewrite Hp.
      * unfold has_status, q1; csimpl. apply truthy_true.
        by apply status_set_same.
      * unfold has_status, q1; csimpl. by rewrite status_set_other.
Qed.

(** C5.  [icp_accept] returns the whole [xirr] held before the call;
    afterwards XISR is zero, the stored [xirr] is [pending_priority << 24],
    so its CPPR byte is the old [pending_priority], and the pin is lowered.
    [h_xirr] hands that value to the guest and stores the new presenter. *)
Theorem icp_accept_spec s :
  0 <= pending_priority s < 2 ^ 8 ->
  fst (icp_accept s) = xirr s /\
  xirr (snd (icp_accept s)) = Z.shiftl (pending_priority s) 24 /\
  XISR (snd (icp_accept s)) = 0 /\
  CPPR (snd (icp_accept s)) = pending_priority s /\
  pin_level (output (snd (icp_accept s))) = false /\
  pending_priority (snd (icp_accept s)) = pending_priority s /\
  mfrr (snd (icp_accept s)) = mfrr s /\
  (forall icp cpu, get_ss icp cpu = Some s ->
     h_xirr icp cpu
     = Some (put_ss icp cpu (snd (icp_accept s)), xirr s, H_SUCCESS)).
Proof.
  intros Hp.
  assert (xirr (snd (icp_accept s)) = Z.shiftl (pending_priority s) 24) as Hx.
  { unfold icp_accept, u32; csimpl.
    rewrite Z.shiftl_mul_pow2 by lia. apply Z.mod_small. lia. }
  split; [reflexivity|]. split; [exact Hx|].
  split.
  { unfold XISR. rewrite Hx. change XISR_MASK with (Z.ones 24).
    rewrite Z.land_ones, Z.shiftl_mul_pow2 by lia. apply Z.mod_mul. lia. }
  split.
  { unfold CPPR. rewrite Hx.
    rewrite Z.shiftr_shiftl_l, Z.sub_diag by lia. apply Z.shiftl_0_r. }
  split; [reflexivity|]. split; [reflexivity|]. split; [reflexivity|].
  intros icp cpu Hs. unfold h_xirr. rewrite Hs. reflexivity.
Qed.

Lemma good_lookup_cppr x y srv a :
  good x y -> Forall ss_fits (ss x) -> get_ss x srv = Some a ->
  exists b, get_ss y srv = Some b /\ CPPR b = CPPR a.
Proof.
  intros (_ & _ & Hs) Hf [H0 Ha]%at_index_Some.
  destruct (Forall2_lookup_l _ _ _ _ _ (Hs Hf) Ha) as (b & Hb & Hab).
  exists b. split; [by apply at_index_Some|]. symmetry. apply Hab.
Qed.

Lemma fits_put_ss icp srv s :
  Forall ss_fits (ss icp) -> ss_fits s -> Forall ss_fits (ss (put_ss icp srv s)).
Proof. intros. by apply Forall_insert. Qed.

(** C6.  [icp_set_cppr(server, cppr)] writes [cppr] into the CPPR byte.
    If that lowers CPPR and an XISR is pending with
    [pending_priority >= cppr], XISR is cleared, the pin lowered and
    [ics_reject(old_xisr)] called.  If CPPR is not lowered and no XISR is
    pending, [icp_resend(server)] is called.  In every other case nothing
    else happens.  When the call returns, CPPR of the presenter is [cppr]. *)
Theorem icp_set_cppr_spec icp srv cppr s :
  get_ss icp srv = Some s ->
  0 <= cppr < 2 ^ 8 ->
  let s1 := set_xirr s (Z.lor (Z.land (xirr s) XISR_MASK) (Z.shiftl cppr 24)) in
  let s2 := qemu_irq_lower (set_xirr s (Z.shiftl cppr 24)) in
  (CPPR s1 = cppr /\ XISR s1 = XISR s /\ CPPR s2 = cppr /\ XISR s2 = 0 /\
   pin_level (output s2) = false) /\
  (cppr < CPPR s -> XISR s <> 0 -> cppr <= pending_priority s ->
     icp_set_cppr icp srv cppr = ics_reject (put_ss icp srv s2) (XISR s)) /\
  (cppr < CPPR s -> ~ (XISR s <> 0 /\ cppr <= pending_priority s) ->
     icp_set_cppr icp srv cppr = Some (put_ss icp srv s1)) /\
  (CPPR s <= cppr -> XISR s = 0 ->
     icp_set_cppr icp srv cppr = icp_resend (put_ss icp srv s1) srv) /\
  (CPPR s <= cppr -> XISR s <> 0 ->
     icp_set_cppr icp srv cppr = Some (put_ss icp srv s1)) /\
  (0 <= XICS_IPI < 2 ^ 24 -> Forall ss_fits (ss icp) ->
   forall icp', icp_set_cppr icp srv cppr = Some icp' ->
     exists s', get_ss icp' srv = Some s' /\ CPPR s' = cppr).
Proof.
  intros Hs Hc s1 s2.
  assert (u32 (Z.shiftl cppr 24) = Z.shiftl cppr 24) as Hu.
  { unfold u32. rewrite Z.shiftl_mul_pow2 by lia. apply Z.mod_small. lia. }
  assert (CPPR s1 = cppr) as Hc1.
  { unfold CPPR, s1; csimpl. rewrite <- not_CPPR_MASK, <- Hu.
    by apply CPPR_write_cppr. }
  assert (XISR s1 = XISR s) as Hx1.
  { unfold XISR, s1; csimpl. rewrite <- not_CPPR_MASK, <- Hu.
    by apply XISR_write_cppr. }
  assert (Z.land (xirr s1) (u32 (Z.lnot XISR_MASK)) = Z.shiftl cppr 24) as Hhi.
  { unfold s1; csimpl. rewrite not_XISR_MASK. apply Z.bits_inj'. intros n Hn.
    rewrite Z.land_spec, Z.lor_spec, Z.land_spec, testbit_XISR_MASK,
      testbit_CPPR_MASK, Z.shiftl_mul_pow2, Z.mul_pow2_bits by lia.
    destruct (Z.ltb_spec n 24) as [Hlt|Hge].
    - rewrite (Z.testbit_neg_r cppr (n - 24)) by lia.
      replace (24 <=? n) with false by (symmetry; apply Z.leb_gt; lia).
      by destruct (Z.testbit (xirr s) n), (n <? 32).
    - rewrite andb_false_r, orb_false_l.
      replace (24 <=? n) with true by (symmetry; apply Z.leb_le; lia).
      destruct (Z.ltb_spec n 32) as [Hlt|Hge'].
      + by rewrite andb_true_r.
      + rewrite andb_false_r. symmetry. apply (testbit_above cppr 8); lia. }
  assert (CPPR s2 = cppr) as Hc2.
  { unfold CPPR, s2; csimpl.
    rewrite Z.shiftr_shiftl_l, Z.sub_diag by lia. apply Z.shiftl_0_r. }
  assert (XISR s2 = 0) as Hx2.
  { unfold XISR, s2; csimpl. change XISR_MASK with (Z.ones 24).
    rewrite Z.land_ones, Z.shiftl_mul_pow2 by lia. apply Z.mod_mul. lia. }
  assert (icp_set_cppr icp srv cppr =
    if cppr <? CPPR s then
      if truthy (XISR s) && (cppr <=? pending_priority s)
      then ics_reject (put_ss icp srv s2) (XISR s)
      else Some (put_ss icp srv s1)
    else if negb (truthy (XISR s))
      then icp_resend (put_ss icp srv s1) srv
      else Some (put_ss icp srv s1)) as Heq.
  { unfold icp_set_cppr. rewrite Hs. msimpl.
    rewrite not_CPPR_MASK, Hu. fold s1. rewrite Hx1, Hhi.
    destruct (cppr <? CPPR s); [|done].
    destruct (_ && _); [|done].
    unfold put_ss, store_index; csimpl. by rewrite list_insert_insert_eq. }
  split; [done|]. rewrite Heq. split; [|split; [|split; [|split]]].
  - intros Hlt Hx Hp. apply Z.ltb_lt in Hlt as ->.
    apply truthy_true in Hx as ->. by apply Z.leb_le in Hp as ->.
  - intros Hlt Hn. apply Z.ltb_lt in Hlt as ->.
    destruct (truthy (XISR s)) eqn:Hx; [|done].
    apply truthy_true in Hx. destruct (Z.leb_spec cppr (pending_priority s));
      [tauto|done].
  - intros Hge Hx. apply Z.ltb_ge in Hge as ->.
    by apply truthy_false in Hx as ->.
  - intros Hge Hx. apply Z.ltb_ge in Hge as ->.
    by apply truthy_true in Hx as ->.
  - intros Hipi Hf icp' H.
    assert (ss_fits s1) as Hf1.
    { unfold ss_fits, s1; csimpl. apply lor_range; [lia| |].
      - pose proof (land_XISR_MASK_range (xirr s)). lia.
      - rewrite Z.shiftl_mul_pow2; lia. }
    assert (ss_fits s2) as Hf2.
    { unfold ss_fits, s2; csimpl. rewrite Z.shiftl_mul_pow2; lia. }
    assert (forall sx, ss_fits sx -> CPPR sx = cppr ->
            good (put_ss icp srv sx) icp' ->
            exists s', get_ss icp' srv = Some s' /\ CPPR s' = cppr) as Hfin.
    { intros sx Hfx Hcx Hg.
      destruct (good_lookup_cppr _ _ srv sx Hg) as (b & Hb & Hbc).
      - by apply fits_put_ss.
      - by eapply get_put_ss.
      - exists b. split; [done|congruence]. }
    destruct (cppr <? CPPR s).
    + destruct (_ && _).
      * apply (Hfin s2); [done|done|by eapply good_ics_reject].
      * simplify_eq. apply (Hfin s1); [done|done|apply good_refl].
    + destruct (negb _).
      * apply (Hfin s1); [done|done|by eapply good_icp_resend].
      * simplify_eq. apply (Hfin s1); [done|done|apply good_refl].
Qed.

Lemma ics_valid_irq_iff i nr :
  ics_wf i ->
  ics_valid_irq i nr = true <-> offset i <= nr < offset i + nr_irqs i.
Proof.
  intros [Ho Hn]. unfold ics_valid_irq, u32, nr_irqs in *.
  rewrite !Z.mod_small by lia.
  rewrite andb_true_iff, Z.leb_le, Z.ltb_lt. done.
Qed.

Lemma is_Some_at_index {A} (l : list A) i :
  is_Some (at_index l i) <-> 0 <= i < Z.of_nat (length l).
Proof.
  split; [|apply at_index_in_range].
  intros [x [Hi Hx]%at_index_Some]. apply lookup_lt_Some in Hx. lia.
Qed.

Lemma valid_get_irq icp nr :
  ics_wf (ics icp) -> ics_valid_irq (ics icp) nr = true ->
  is_Some (get_irq icp (nr - offset (ics icp))).
Proof.
  intros Hwf Hv. apply ics_valid_irq_iff in Hv; [|done].
  apply is_Some_at_index. unfold nr_irqs in Hv. lia.
Qed.

Lemma is_Some_get_put_irq icp i q j :
  is_Some (get_irq icp j) -> is_Some (get_irq (put_irq icp i q) j).
Proof.
  unfold get_irq, put_irq, store_index; csimpl.
  rewrite !is_Some_at_index, length_insert. done.
Qed.

Lemma icp_irq_defined icp srv nr prio s :
  get_ss icp srv = Some s ->
  is_Some (get_irq icp (nr - offset (ics icp))) ->
  XISR s = 0 \/ is_Some (get_irq icp (XISR s - offset (ics icp))) ->
  is_Some (icp_irq icp srv nr prio).
Proof.
  intros Hs [q Hq] Hx. unfold icp_irq. rewrite Hs. csimpl.
  destruct (_ || _).
  - by rewrite (ics_reject_defined _ _ _ Hq).
  - destruct (truthy (XISR s)) eqn:Ht.
    + destruct Hx as [Hx|[q0 Hq0]]; [by apply truthy_true in Ht|].
      rewrite (ics_reject_defined _ _ _ Hq0). csimpl.
      change (get_ss (put_irq icp _ _) srv) with (get_ss icp srv).
      by rewrite Hs.
    + csimpl. by rewrite Hs.
Qed.

Lemma good_lookup_irq x y i a :
  good x y -> get_irq x i = Some a ->
  exists b, get_irq y i = Some b /\ irq_step a b.
Proof.
  intros (_ & Hi & _) [H0 Ha]%at_index_Some.
  destruct (Forall2_lookup_l _ _ _ _ _ Hi Ha) as (b & Hb & Hab).
  exists b. split; [by apply at_index_Some|done].
Qed.

(** C8.  For a valid interrupt number, [ibm,int-off] stores priority [0xff]
    and saves the old priority, without touching anything else, and reports
    success; a following [ibm,int-on] that returns reports success and
    leaves the source with the server and the priority it had before the
    [ibm,int-off].  The [ibm,int-on] does return when the presenter it
    delivers to exists and holds no XISR or the XISR of a source. *)
Theorem int_off_int_on icp nr rets rets' :
  ics_wf (ics icp) ->
  ics_valid_irq (ics icp) nr = true ->
  exists q icp1,
    get_irq icp (nr - offset (ics icp)) = Some q /\
    rtas_int_off icp 1 [nr] 1 rets = Some (icp1, rtas_st rets 0 0) /\
    icp1 = put_irq icp (nr - offset (ics icp))
             (IcsIrq (server q) 0xff (priority q) (status q) (lsi q)) /\
    (forall r, rtas_int_on icp1 1 [nr] 1 rets' = Some r ->
       snd r = rtas_st rets' 0 0 /\
       exists q2,
         get_irq (fst r) (nr - offset (ics icp)) = Some q2 /\
         server q2 = server q /\ priority q2 = priority q) /\
    (forall s, get_ss icp (server q) = Some s ->
       XISR s = 0 \/ is_Some (get_irq icp (XISR s - offset (ics icp))) ->
       is_Some (rtas_int_on icp1 1 [nr] 1 rets')).
Proof.
  intros Hwf Hv. destruct (valid_get_irq _ _ Hwf Hv) as [q Hq].
  set (srcno := nr - offset (ics icp)) in *.
  set (q1 := IcsIrq (server q) 0xff (priority q) (status q) (lsi q)).
  set (icp1 := put_irq icp srcno q1).
  assert (get_irq icp1 srcno = Some q1) as Hq1 by (by eapply get_put_irq).
  assert (ics_write_xive icp nr (server q) 0xff (priority q) = Some icp1) as Hoff.
  { unfold ics_write_xive. fold srcno. rewrite Hq. csimpl. fold q1 icp1.
    destruct (lsi q).
    - unfold write_xive_lsi, resend_lsi. by rewrite Hq1.
    - unfold write_xive_msi. rewrite Hq1. csimpl. by rewrite orb_true_r. }
  assert (ics_valid_irq (ics icp1) nr = true) as Hv1.
  { unfold ics_valid_irq, nr_irqs, icp1, put_irq, store_index in *; csimpl.
    by rewrite length_insert. }
  set (q2 := IcsIrq (server q) (priority q) (priority q) (status q) (lsi q)).
  set (icp2 := put_irq icp1 srcno q2).
  assert (get_irq icp2 srcno = Some q2) as Hq2 by (by eapply get_put_irq).
  assert (rtas_int_on icp1 1 [nr] 1 rets' =
          (i ← (if lsi q then write_xive_lsi icp2 srcno
                 else write_xive_msi icp2 srcno);
           Some (i, rtas_st rets' 0 0))) as Hon.
  { unfold rtas_int_on. csimpl. change (rtas_ld [nr] 0) with nr.
    rewrite Hv1. csimpl. change (offset (ics icp1)) with (offset (ics icp)).
    fold srcno. rewrite Hq1. csimpl. unfold ics_write_xive.
    change (offset (ics icp1)) with (offset (ics icp)). fold srcno.
    rewrite Hq1. reflexivity. }
  exists q, icp1. split; [done|]. split; [|split; [done|split]].
  - unfold rtas_int_off. csimpl. change (rtas_ld [nr] 0) with nr.
    rewrite Hv. csimpl. fold srcno. rewrite Hq. csimpl. by rewrite Hoff.
  - intros r Hr. rewrite Hon in Hr. bind_inv Hr. simplify_eq. csimpl.
    split; [done|].
    assert (good icp2 x) as Hg.
    { destruct (lsi q) eqn:Hl.
      - by eapply good_resend_lsi.
      - by eapply good_write_xive_msi. }
    destruct (good_lookup_irq _ _ _ _ Hg Hq2) as (b & Hb & Hs & Hp & _).
    exists b. split; [done|]. by rewrite <- Hs, <- Hp.
  - intros s Hs Hx. rewrite Hon.
    assert (forall qx, is_Some (icp_irq (put_irq icp2 srcno qx) (server q)
                         (srcno + offset (ics icp)) (priority q))) as Hirq.
    { intros qx. eapply icp_irq_defined; [exact Hs| |].
      - change (offset (ics (put_irq icp2 srcno qx))) with (offset (ics icp)).
        replace (srcno + offset (ics icp) - offset (ics icp))
          with srcno by lia.
        apply is_Some_get_put_irq. by eexists.
      - destruct Hx as [Hx|Hx]; [by left|right].
        change (offset (ics (put_irq icp2 srcno qx))) with (offset (ics icp)).
        by do 3 apply is_Some_get_put_irq. }
    assert (is_Some (if lsi q then write_xive_lsi icp2 srcno
                     else write_xive_msi icp2 srcno)) as [i Hi].
    { destruct (lsi q).
      - unfold write_xive_lsi, resend_lsi. rewrite Hq2. csimpl.
        destruct (_ && _); [apply Hirq|by eexists].
      - unfold write_xive_msi. rewrite Hq2. csimpl.
        destruct (_ || _); [by eexists|apply Hirq]. }
    rewrite Hi. by eexists.
Qed.

(** C9.  [ibm,set-xive]: with a wrong number of arguments or results, an
    interrupt number outside [offset, offset + nr_irqs), a server number
    that is not below [nr_servers], or a priority above [0xff], the call
    stores status [-3] in [rets[0]] and leaves the controller as it was.
    Otherwise it is [ics_write_xive(nr, server, priority, priority)] followed
    by the store of status [0]. *)
Theorem rtas_set_xive_spec icp nargs args nret rets :
  ics_wf (ics icp) ->
  let nr := rtas_ld args 0 in
  let srv := rtas_ld args 1 in
  let prio := rtas_ld args 2 in
  let bad :=
    nargs <> 3 \/ nret <> 1 \/
    ~ (offset (ics icp) <= nr < offset (ics icp) + nr_irqs (ics icp)) \/
    nr_servers icp <= srv \/ 0xff < prio in
  (bad ->
     rtas_set_xive icp nargs args nret rets = Some (icp, rtas_st rets 0 (-3))) /\
  (~ bad ->
     rtas_set_xive icp nargs args nret rets
     = (icp' ← ics_write_xive icp nr srv prio prio;
        Some (icp', rtas_st rets 0 0))).
Proof.
  intros Hwf nr srv prio bad. unfold rtas_set_xive. fold nr srv prio.
  pose proof (ics_valid_irq_iff (ics icp) nr Hwf) as Hv.
  destruct (Z.eqb_spec nargs 3) as [Ha|Ha]; csimpl.
  2: { split; [done|]. intros Hb. exfalso. apply Hb. by left. }
  destruct (Z.eqb_spec nret 1) as [Hr|Hr]; csimpl.
  2: { split; [done|]. intros Hb. exfalso. apply Hb. right. by left. }
  destruct (ics_valid_irq (ics icp) nr) eqn:Hvalid; csimpl.
  2: { split; [done|]. intros Hb. exfalso. apply Hb. do 2 right. left.
       intros Hin. apply Hv in Hin. congruence. }
  destruct (Z.leb_spec (nr_servers icp) srv) as [Hs|Hs]; csimpl.
  { split; [done|]. intros Hb. exfalso. apply Hb. do 3 right. by left. }
  destruct (Z.ltb_spec 0xff prio) as [Hp|Hp]; csimpl.
  { split; [done|]. intros Hb. exfalso. apply Hb. by do 4 right. }
  split; [|done]. intros [?|[?|[Hn|[?|?]]]]; try done; try lia.
Qed.

(** C7, as amended.  No transition sets SENT on a source that is masked
    ([priority = 0xff]) when the transition ends.  Asserting a masked source
    through [ics_set_irq] delivers nothing to a presenter: an MSI source
    acquires MASKED_PENDING, an LSI source acquires ASSERTED and its
    MASKED_PENDING bit is left as it was. *)
Theorem masked_source icp :
  (forall o icp' i q q',
     step icp o = Some icp' ->
     irqs (ics icp) !! i = Some q -> irqs (ics icp') !! i = Some q' ->
     priority q' = 0xff ->
     has_status q' XICS_STATUS_SENT = true ->
     has_status q XICS_STATUS_SENT = true) /\
  (forall srcno val q,
     get_irq icp srcno = Some q -> priority q = 0xff -> val <> 0 ->
     let flag := if lsi q then XICS_STATUS_ASSERTED
                 else XICS_STATUS_MASKED_PENDING in
     let q' := set_status q (Z.lor (status q) flag) in
     ics_set_irq icp srcno val = Some (put_irq icp srcno q') /\
     ss (put_irq icp srcno q') = ss icp /\
     get_irq (put_irq icp srcno q') srcno = Some q' /\
     has_status q' flag = true /\
     has_status q' XICS_STATUS_SENT = has_status q XICS_STATUS_SENT /\
     (lsi q = true ->
      has_status q' XICS_STATUS_MASKED_PENDING
      = has_status q XICS_STATUS_MASKED_PENDING)).
Proof.
  split.
  - intros o icp' i q q' Hstep Hq Hq' Hp Hs.
    destruct (Forall2_lookup_lr _ _ _ _ _ _ (step_sources _ _ _ Hstep) Hq Hq')
      as [Ht _].
    destruct (Ht Hs) as [|[? _]]; done.
  - intros srcno val q Hq Hp Hval flag q'.
    assert (truthy val = true) as Hv by (by apply truthy_true).
    assert (get_irq (put_irq icp srcno q') srcno = Some q') as Hq'
      by (by eapply get_put_irq).
    split; [|split; [done|split; [done|split; [|split]]]].
    + subst q' flag. unfold ics_set_irq. rewrite Hq. msimpl.
      destruct (lsi q) eqn:Hl.
      * unfold set_irq_lsi. rewrite Hq. msimpl. rewrite Hv.
        unfold resend_lsi. rewrite Hq'. msimpl.
        cbn [priority set_status]. rewrite Hp. reflexivity.
      * unfold set_irq_msi. rewrite Hq. msimpl. rewrite Hv, Hp. reflexivity.
    + unfold has_status, q'; csimpl. apply truthy_true, status_set_same.
      subst flag. by destruct (lsi q).
    + unfold has_status, q'; csimpl. rewrite status_set_other; [done|].
      subst flag. by destruct (lsi q).
    + intros Hl. unfold has_status, q', flag; csimpl. rewrite Hl.
      by rewrite status_set_other.
Qed.

Lemma msi_never_sent_step icp o icp' :
  msi_never_sent icp -> retype_ok icp o -> step icp o = Some icp' ->
  msi_never_sent icp'.
Proof.
  intros Hinv Hre Hstep i q' Hq' Hl.
  destruct (Forall2_lookup_r _ _ _ _ _ (step_sources _ _ _ Hstep) Hq')
    as (q & Hq & Ht & Hk).
  destruct (has_status q' XICS_STATUS_SENT) eqn:Hs; [|done].
  destruct (Ht Hs) as [Hsq|[_ Hl']]; [|congruence].
  assert (lsi q = true) as Hlq.
  { destruct (lsi q) eqn:Hlq; [done|]. by rewrite (Hinv i q Hq Hlq) in Hsq. }
  destruct o; try (specialize (Hk I); congruence).
  cbn [step] in Hstep. unfold xics_set_irq_type in Hstep.
  destruct (ics_valid_irq _ _); [|done]. bind_inv Hstep. simplify_eq.
  cbn [ics irqs put_irq] in Hq'. unfold store_index in Hq'.
  pose proof Hx as [_ Hx']%at_index_Some.
  destruct (decide (Z.to_nat (irq - offset (ics icp)) = i)) as [<-|Hne].
  - rewrite list_lookup_insert_eq in Hq' by (by eapply lookup_lt_Some).
    simplify_eq. cbn [lsi set_lsi] in Hl. subst l. cbn [retype_ok] in Hre.
    by rewrite (Hre _ Hx) in Hsq.
  - rewrite list_lookup_insert_ne in Hq' by done. congruence.
Qed.

(** C10, as amended.  In every state reached by a run in which
    [xics_set_irq_type] never turns into an MSI a source whose SENT bit is
    set, no MSI source has SENT set. *)
Theorem msi_source_never_sent icp :
  reachable_typed icp -> msi_never_sent icp.
Proof.
  intros H. induction H as [n cpus icp Hinit|icp o icp' _ IH Hre Hstep].
  - apply xics_system_init_Some in Hinit as [_ ->].
    intros i q Hq _. csimpl in Hq.
    apply lookup_replicate in Hq as [-> _]. reflexivity.
  - by eapply msi_never_sent_step.
Qed.

(** C2.  In every reachable state, every raise the output pin of a
    presenter has received so far was issued at a moment when, if XISR was
    not zero, [pending_priority < CPPR] held: the raise of [icp_irq] comes
    after its priority test, the raise of [icp_check_ipi] after the
    [mfrr < CPPR] test of its callers.  The number of the IPI pseudo-source
    is assumed to fit the XISR field. *)
Theorem raise_above_gate icp srv s e :
  0 <= XICS_IPI < 2 ^ 24 ->
  reachable icp ->
  get_ss icp srv = Some s ->
  e ∈ output s ->
  ev_level e = true ->
  Z.land (ev_xirr e) XISR_MASK <> 0 ->
  ev_pending_priority e < Z.shiftr (ev_xirr e) 24.
Proof.
  intros Hipi Hreach [_ Hs]%at_index_Some He.
  pose proof (reachable_pins _ Hipi Hreach) as Hinv.
  destruct (Forall_lookup_1 _ _ _ _ Hinv Hs) as [_ Hout].
  rewrite Forall_forall in Hout. apply list_elem_of_In in He.
  exact (Hout e He).
Qed.

(** C3.  The scenario of the claim runs as the claim says.  Presenter 0
    has CPPR [0xff] and XISR 16 pending at priority 5; delivering source 17
    at priority 2 sets the REJECTED bit of source 16 and installs XISR 17 at
    pending priority 2, the pin staying raised; accept returns an [xirr]
    that carries 17, and the EOI of that [xirr] runs the resend pass, which
    clears the REJECTED bit of source 16 and delivers it again.  The
    guarantee that the claim opens with does not hold, though.  In the same
    run with source 16 masked by [ibm,int-off] between the reject and the
    accept, the resend pass of the EOI clears REJECTED and delivers
    nothing, and no bit of the source remembers the interrupt: after
    [ibm,int-on] source 16 is unmasked at priority 5 with status 0, no XISR
    is pending, the pin is low, and a further resend pass ([h_cppr]) changes
    nothing.  The interrupt of source 16 is lost. *)
Theorem reject_cycle_loses_masked_source :
  (exists st1 st2 st3 st4 x s1 s2 s4 q2 q4,
    run scenario_start scenario_deliver_16 = Some st1 /\
    get_ss st1 0 = Some s1 /\
    (CPPR s1 = 0xff /\ XISR s1 = 16 /\ pending_priority s1 = 5 /\
     pin_level (output s1) = true) /\
    run st1 scenario_deliver_17 = Some st2 /\
    get_ss st2 0 = Some s2 /\ get_irq st2 0 = Some q2 /\
    (has_status q2 XICS_STATUS_REJECTED = true /\
     XISR s2 = 17 /\ pending_priority s2 = 2 /\
     pin_level (output s2) = true) /\
    h_xirr st2 0 = Some (st3, x, H_SUCCESS) /\
    Z.land x XISR_MASK = 17 /\
    h_eoi st3 0 x = Some (st4, H_SUCCESS) /\
    get_ss st4 0 = Some s4 /\ get_irq st4 0 = Some q4 /\
    (has_status q4 XICS_STATUS_REJECTED = false /\
     XISR s4 = 16 /\ pending_priority s4 = 5 /\
     pin_level (output s4) = true)) /\
  (exists st2 st3 st4 st5 x q2 q4 q5 s5,
    run scenario_start scenario_reject_then_mask = Some st2 /\
    get_irq st2 0 = Some q2 /\
    (has_status q2 XICS_STATUS_REJECTED = true /\ priority q2 = 0xff /\
     saved_priority q2 = 5) /\
    h_xirr st2 0 = Some (st3, x, H_SUCCESS) /\
    Z.land x XISR_MASK = 17 /\
    h_eoi st3 0 x = Some (st4, H_SUCCESS) /\
    get_irq st4 0 = Some q4 /\
    status q4 = 0 /\
    rtas_int_on st4 1 [16] 1 [] = Some (st5, rtas_st [] 0 0) /\
    get_irq st5 0 = Some q5 /\ get_ss st5 0 = Some s5 /\
    (priority q5 = 5 /\ status q5 = 0 /\ lsi q5 = false) /\
    (XISR s5 = 0 /\ CPPR s5 = 0xff /\ pin_level (output s5) = false) /\
    h_cppr st5 0 0xff = Some (st5, H_SUCCESS)).
Proof.
  split.
  - do 10 eexists.
    split; [lazy; reflexivity|]. split; [lazy; reflexivity|].
    split; [lazy; done|].
    split; [lazy; reflexivity|]. split; [lazy; reflexivity|].
    split; [lazy; reflexivity|]. split; [lazy; done|].
    split; [lazy; reflexivity|]. split; [lazy; reflexivity|].
    split; [lazy; reflexivity|]. split; [lazy; reflexivity|].
    split; [lazy; reflexivity|]. lazy. done.
  - do 9 eexists.
    split; [lazy; reflexivity|]. split; [lazy; reflexivity|].
    split; [lazy; done|].
    split; [lazy; reflexivity|]. split; [lazy; reflexivity|].
    split; [lazy; reflexivity|]. split; [lazy; reflexivity|].
    split; [lazy; reflexivity|]. split; [lazy; reflexivity|].
    split; [lazy; reflexivity|]. split; [lazy; reflexivity|].
    split; [lazy; done|]. split; [lazy; done|]. lazy. reflexivity.
Qed.

Lemma reachable_run icp os icp' :
  reachable icp -> run icp os = Some icp' -> reachable icp'.
Proof.
  intros Hr. revert icp Hr.
  induction os as [|o os IH]; cbn [run]; intros icp Hr H.
  - by simplify_eq.
  - bind_inv H. apply (IH x); [|exact H].
    exact (reachable_step _ _ _ Hr Hx).
Qed.

Lemma scenario_boot_init : xics_system_init 4 scenario_cpus = Some scenario_boot.
Proof. reflexivity. Qed.

Lemma reachable_scenario_start : reachable scenario_start.
Proof.
  apply (reachable_step scenario_boot Op_reset).
  - exact (reachable_init 4 scenario_cpus _ scenario_boot_init).
  - reflexivity.
Qed.

Lemma reachable_typed_run icp os icp' :
  reachable_typed icp -> Forall keeps_type os -> run icp os = Some icp' ->
  reachable_typed icp'.
Proof.
  intros Hr Hos. revert icp Hr.
  induction Hos as [|o os Ho _ IH]; cbn [run]; intros icp Hr H.
  - by simplify_eq.
  - bind_inv H. apply (IH x); [|exact H].
    apply (reachable_typed_step _ o _ Hr); [|exact Hx].
    by destruct o.
Qed.

(** ** Further properties of the controller *)

Tactic Notation "msimpl" "in" hyp(H) := cbn [mbind option_bind] in H.

Lemma at_index_None {A} (l : list A) i :
  at_index l i = None <-> i < 0 \/ Z.of_nat (length l) <= i.
Proof.
  rewrite eq_None_not_Some, is_Some_at_index. lia.
Qed.

Lemma put_irq_twice icp i q q' :
  put_irq (put_irq icp i q) i q' = put_irq icp i q'.
Proof.
  unfold put_irq, store_index. cbn [ss ics offset irqs].
  by rewrite list_insert_insert_eq.
Qed.

Lemma reject_status_twice s :
  Z.land (Z.lor (Z.land (Z.lor s XICS_STATUS_REJECTED)
                        (Z.lnot XICS_STATUS_SENT))
                XICS_STATUS_REJECTED)
         (Z.lnot XICS_STATUS_SENT)
  = Z.land (Z.lor s XICS_STATUS_REJECTED) (Z.lnot XICS_STATUS_SENT).
Proof.
  apply Z.bits_inj'. intros n Hn.
  rewrite !Z.land_spec, !Z.lor_spec, !Z.land_spec, Z.lor_spec.
  by destruct (Z.testbit s n), (Z.testbit XICS_STATUS_REJECTED n),
    (Z.testbit (Z.lnot XICS_STATUS_SENT) n).
Qed.

(** [ics_reject] is idempotent, and touches nothing but two status bits of
    the source it names.  A second [ics_reject(nr)] leaves the state the
    first one produced.  The first leaves the presenters, [offset], the
    number of sources and every other source as they were; of source [nr]
    it keeps the server, both priorities and the type, and in the status it
    sets REJECTED, clears SENT and keeps ASSERTED and MASKED_PENDING. *)
Theorem ics_reject_idempotent icp nr icp' :
  ics_reject icp nr = Some icp' ->
  ics_reject icp' nr = Some icp' /\
  ss icp' = ss icp /\
  offset (ics icp') = offset (ics icp) /\
  nr_irqs (ics icp') = nr_irqs (ics icp) /\
  (forall j, j <> nr - offset (ics icp) -> get_irq icp' j = get_irq icp j) /\
  exists q q',
    get_irq icp (nr - offset (ics icp)) = Some q /\
    get_irq icp' (nr - offset (ics icp)) = Some q' /\
    server q' = server q /\ priority q' = priority q /\
    saved_priority q' = saved_priority q /\ lsi q' = lsi q /\
    status q' = Z.land (Z.lor (status q) XICS_STATUS_REJECTED)
                       (Z.lnot XICS_STATUS_SENT) /\
    has_status q' XICS_STATUS_REJECTED = true /\
    has_status q' XICS_STATUS_SENT = false /\
    has_status q' XICS_STATUS_ASSERTED = has_status q XICS_STATUS_ASSERTED /\
    has_status q' XICS_STATUS_MASKED_PENDING
    = has_status q XICS_STATUS_MASKED_PENDING.
Proof.
  unfold ics_reject. intros H. bind_inv H. simplify_eq.
  split; [|split; [done|split; [done|split; [|split]]]].
  - cbn [ics offset put_irq]. erewrite get_put_irq by done. msimpl.
    cbn [status set_status]. rewrite reject_status_twice.
    by rewrite put_irq_twice.
  - unfold nr_irqs, put_irq, store_index. cbn [ics irqs].
    by rewrite length_insert.
  - intros j Hj. apply at_index_Some in Hx as [H0 _].
    unfold get_irq. cbn [ics irqs put_irq]. by apply at_index_store_ne.
  - eexists x, _. split; [done|]. split; [by eapply get_put_irq|].
    cbn [server priority saved_priority lsi status set_status].
    do 5 (split; [reflexivity|]).
    unfold has_status. cbn [status set_status].
    split; [|split; [|split]].
    + apply truthy_true. rewrite status_clear_other by done.
      by apply status_set_same.
    + apply truthy_false, status_clear_same.
    + by rewrite status_clear_other, status_set_other.
    + by rewrite status_clear_other, status_set_other.
Qed.

(** [icp_check_ipi] on presenter [s]: with an XISR pending at a priority
    not above [mfrr] nothing happens.  Otherwise a pending XISR is rejected
    with [ics_reject], then the IPI pseudo-source is installed in XISR with
    [pending_priority = mfrr] and the pin is raised; CPPR and MFRR keep their
    values when the number of the pseudo-source fits the XISR field. *)
Theorem icp_check_ipi_spec icp srv s :
  get_ss icp srv = Some s ->
  (XISR s <> 0 /\ pending_priority s <= mfrr s ->
     icp_check_ipi icp srv = Some icp) /\
  (~ (XISR s <> 0 /\ pending_priority s <= mfrr s) ->
     forall icp1,
       (if truthy (XISR s) then ics_reject icp (XISR s) else Some icp)
         = Some icp1 ->
       exists s',
         icp_check_ipi icp srv = Some (put_ss icp1 srv s') /\
         get_ss (put_ss icp1 srv s') srv = Some s' /\
         pending_priority s' = mfrr s /\
         mfrr s' = mfrr s /\
         pin_level (output s') = true /\
         (0 <= XICS_IPI < 2 ^ 24 -> XISR s' = XICS_IPI) /\
         (0 <= XICS_IPI < 2 ^ 24 -> ss_fits s -> CPPR s' = CPPR s)).
Proof.
  intros Hs. unfold icp_check_ipi. rewrite Hs. msimpl. split.
  - intros [Hx Hp]. apply truthy_true in Hx as ->.
    by apply Z.leb_le in Hp as ->.
  - intros Hc icp1 Hrej.
    assert (truthy (XISR s) && (pending_priority s <=? mfrr s) = false) as ->.
    { apply andb_false_iff. destruct (Z.eq_dec (XISR s) 0) as [Hx|Hx].
      - left. by apply truthy_false.
      - right. apply Z.leb_gt. lia. }
    rewrite Hrej. msimpl.
    assert (ss icp1 = ss icp) as Hss.
    { destruct (truthy (XISR s)); [by eapply ics_reject_ss|by simplify_eq]. }
    assert (get_ss icp1 srv = Some s) as Hs1 by (unfold get_ss; by rewrite Hss).
    rewrite Hs1. msimpl. eexists. split; [done|].
    split; [by eapply get_put_ss|].
    split; [done|]. split; [done|]. split; [done|].
    unfold XISR, CPPR, ss_fits.
    cbn [xirr set_xirr set_pending_priority qemu_irq_raise qemu_set_irq].
    split.
    + intros Hipi. by apply XISR_write_xisr.
    + intros Hipi Hf. by apply CPPR_write_xisr.
Qed.

(** An out-of-bounds access.  When the XISR pending at a presenter is not
    the number of a source (as for the IPI pseudo-source, whose number is
    below [offset]) and [icp_irq] delivers a more favoured interrupt, the
    pending one is displaced through [ics_reject], which indexes the source
    array outside its bounds. *)
Theorem icp_irq_displaces_non_source icp srv nr prio s :
  get_ss icp srv = Some s ->
  XISR s <> 0 ->
  XISR s < offset (ics icp) \/
    offset (ics icp) + nr_irqs (ics icp) <= XISR s ->
  prio < CPPR s -> prio < pending_priority s ->
  icp_irq icp srv nr prio = None.
Proof.
  intros Hs Hx Hout Hc Hp. unfold icp_irq. rewrite Hs. msimpl.
  assert ((CPPR s <=? prio)
          || (truthy (XISR s) && (pending_priority s <=? prio)) = false) as ->.
  { apply orb_false_iff. split; [apply Z.leb_gt; lia|].
    apply andb_false_iff. right. apply Z.leb_gt. lia. }
  apply truthy_true in Hx as ->.
  unfold ics_reject.
  assert (get_irq icp (XISR s - offset (ics icp)) = None) as ->; [|done].
  apply at_index_None. unfold nr_irqs in Hout. lia.
Qed.

(** An out-of-bounds access.  [icp_eoi] passes the XISR field of the value
    written by the guest to [ics_eoi], which reads the source array at that
    number without a validity test: an EOI whose XISR field is not the
    number of a source (the IPI pseudo-source, or 0) reads outside the
    array. *)
Theorem icp_eoi_of_non_source icp srv x :
  is_Some (get_ss icp srv) ->
  Z.land x XISR_MASK < offset (ics icp) \/
    offset (ics icp) + nr_irqs (ics icp) <= Z.land x XISR_MASK ->
  icp_eoi icp srv x = None.
Proof.
  intros [s Hs] Hout. unfold icp_eoi. rewrite Hs. msimpl.
  unfold ics_eoi. cbn [ics offset put_ss].
  assert (get_irq (put_ss icp srv
            (set_xirr s (Z.lor (Z.land (xirr s) (u32 (Z.lnot CPPR_MASK)))
                               (Z.land x CPPR_MASK))))
            (Z.land x XISR_MASK - offset (ics icp)) = None) as ->; [|done].
  unfold get_irq. cbn [ics put_ss]. apply at_index_None.
  unfold nr_irqs in Hout. lia.
Qed.

Lemma good_lookup_ss x y srv a :
  good x y -> Forall ss_fits (ss x) -> get_ss x srv = Some a ->
  exists b, get_ss y srv = Some b /\ ss_step a b.
Proof.
  intros (_ & _ & Hs) Hf [H0 Ha]%at_index_Some.
  destruct (Forall2_lookup_l _ _ _ _ _ (Hs Hf) Ha) as (b & Hb & Hab).
  exists b. split; [by apply at_index_Some|done].
Qed.

Lemma icp_check_ipi_defined icp srv s :
  get_ss icp srv = Some s ->
  XISR s = 0 \/ is_Some (get_irq icp (XISR s - offset (ics icp))) ->
  is_Some (icp_check_ipi icp srv).
Proof.
  intros Hs Hx. unfold icp_check_ipi. rewrite Hs. msimpl.
  destruct (_ && _); [by eexists|].
  destruct (truthy (XISR s)) eqn:Ht.
  - destruct Hx as [Hx|[q0 Hq0]]; [by apply truthy_true in Ht|].
    rewrite (ics_reject_defined _ _ _ Hq0). msimpl.
    change (get_ss (put_irq icp _ _) srv) with (get_ss icp srv).
    rewrite Hs. by eexists.
  - msimpl. rewrite Hs. by eexists.
Qed.

(** [h_ipi]: a server number that is not below [nr_servers] gives
    [H_PARAMETER] and changes nothing.  Otherwise a returning call gives
    [H_SUCCESS] and leaves the low byte of the argument in MFRR of that
    presenter, with its CPPR unchanged; the call returns when the presenter
    holds no XISR or the XISR of a source. *)
Theorem h_ipi_spec icp srv m :
  (nr_servers icp <= srv -> h_ipi icp srv m = Some (icp, H_PARAMETER)) /\
  (srv < nr_servers icp ->
   forall s, get_ss icp srv = Some s ->
     (0 <= XICS_IPI < 2 ^ 24 -> Forall ss_fits (ss icp) ->
      forall r, h_ipi icp srv m = Some r ->
        snd r = H_SUCCESS /\
        exists s', get_ss (fst r) srv = Some s' /\
                   mfrr s' = u8 m /\ CPPR s' = CPPR s) /\
     (XISR s = 0 \/ is_Some (get_irq icp (XISR s - offset (ics icp))) ->
      is_Some (h_ipi icp srv m))).
Proof.
  unfold h_ipi. split.
  - intros H. by apply Z.leb_le in H as ->.
  - intros H s Hs. apply Z.leb_gt in H as ->.
    unfold icp_set_mfrr. rewrite Hs. msimpl.
    set (s1 := set_mfrr s (u8 m)). set (icp1 := put_ss icp srv s1).
    assert (get_ss icp1 srv = Some s1) as Hs1 by (by eapply get_put_ss).
    split.
    + intros Hipi Hf r Hr. bind_inv Hr. simplify_eq. split; [done|].
      cbn [fst].
      assert (good icp1 x) as Hg.
      { destruct (Z.ltb_spec (u8 m) (CPPR s1)); [|simplify_eq; apply good_refl].
        eapply good_icp_check_ipi; [done| |done].
        intros s0 Hs0. rewrite Hs1 in Hs0. by simplify_eq. }
      assert (Forall ss_fits (ss icp1)) as Hf1.
      { apply fits_put_ss; [done|].
        apply at_index_Some in Hs as [_ Hs].
        exact (Forall_lookup_1 _ _ _ _ Hf Hs). }
      destruct (good_lookup_ss _ _ _ _ Hg Hf1 Hs1) as (b & Hb & Hc & Hm & _).
      exists b. split; [done|]. by rewrite <- Hm, <- Hc.
    + intros Hx.
      assert (is_Some (if u8 m <? CPPR s1 then icp_check_ipi icp1 srv
                       else Some icp1)) as [i Hi].
      { destruct (_ <? _); [|by eexists].
        eapply icp_check_ipi_defined; [done|].
        destruct Hx as [Hx|Hx]; [by left|by right]. }
      rewrite Hi. by eexists.
Qed.

(** Writing CPPR from the value passed to [icp_eoi]. *)
Lemma CPPR_write_eoi xi x :
  0 <= x < 2 ^ 32 ->
  Z.shiftr (Z.lor (Z.land xi (u32 (Z.lnot CPPR_MASK))) (Z.land x CPPR_MASK)) 24
  = Z.shiftr x 24.
Proof.
  intros Hx. rewrite not_CPPR_MASK. apply Z.bits_inj'. intros n Hn.
  rewrite !Z.shiftr_spec, Z.lor_spec, !Z.land_spec, testbit_XISR_MASK,
    testbit_CPPR_MASK by lia.
  replace (n + 24 <? 24) with false by (symmetry; apply Z.ltb_ge; lia).
  replace (24 <=? n + 24) with true by (symmetry; apply Z.leb_le; lia).
  rewrite andb_false_r, orb_false_l. cbn [andb].
  destruct (Z.ltb_spec (n + 24) 32); [by rewrite andb_true_r|].
  rewrite andb_false_r. symmetry. apply (testbit_above x 32); lia.
Qed.

Lemma icp_eoi_presenter icp srv x icp' :
  icp_eoi icp srv x = Some icp' -> is_Some (get_ss icp srv).
Proof. unfold icp_eoi. intros H. bind_inv H. by eexists. Qed.

(** What follows the CPPR write of [icp_eoi] is a call into the source
    layer and a resend. *)
Lemma icp_eoi_after_write icp srv x icp' s :
  0 <= XICS_IPI < 2 ^ 24 ->
  get_ss icp srv = Some s ->
  icp_eoi icp srv x = Some icp' ->
  good (put_ss icp srv
          (set_xirr s (Z.lor (Z.land (xirr s) (u32 (Z.lnot CPPR_MASK)))
                             (Z.land x CPPR_MASK))))
       icp'.
Proof.
  intros Hipi Hs H. unfold icp_eoi in H. rewrite Hs in H. msimpl in H.
  bind_inv H. bind_inv H.
  eapply good_trans; [by eapply good_ics_eoi|].
  destruct (negb _); [by eapply good_icp_resend|].
  simplify_eq. apply good_refl.
Qed.

Lemma eoi_write_fits s x :
  ss_fits (set_xirr s (Z.lor (Z.land (xirr s) (u32 (Z.lnot CPPR_MASK)))
                             (Z.land x CPPR_MASK))).
Proof.
  unfold ss_fits. cbn [xirr set_xirr]. apply lor_range; [lia| |].
  - rewrite not_CPPR_MASK. pose proof (land_XISR_MASK_range (xirr s)). lia.
  - apply land_CPPR_MASK_range.
Qed.

(** [icp_eoi] restores CPPR before anything else is examined: when the call
    returns, CPPR of the presenter is the top byte of the value written,
    whatever the resend pass delivered. *)
Theorem icp_eoi_restores_cppr icp srv x icp' :
  0 <= XICS_IPI < 2 ^ 24 -> Forall ss_fits (ss icp) -> 0 <= x < 2 ^ 32 ->
  icp_eoi icp srv x = Some icp' ->
  exists s', get_ss icp' srv = Some s' /\ CPPR s' = Z.shiftr x 24.
Proof.
  intros Hipi Hf Hx H. destruct (icp_eoi_presenter _ _ _ _ H) as [s Hs].
  pose proof (icp_eoi_after_write _ _ _ _ _ Hipi Hs H) as Hg.
  set (s1 := set_xirr s _) in Hg.
  assert (Forall ss_fits (ss (put_ss icp srv s1))) as Hf1
    by (apply fits_put_ss; [done|apply eoi_write_fits]).
  destruct (good_lookup_ss _ _ srv s1 Hg Hf1) as (b & Hb & Hc & _);
    [by eapply get_put_ss|].
  exists b. split; [done|]. rewrite <- Hc. unfold CPPR, s1.
  cbn [xirr set_xirr]. by apply CPPR_write_eoi.
Qed.

(** Accept and EOI form a round trip on CPPR: [h_xirr] returns the [xirr]
    of the presenter; an [h_eoi] of the value returned, when it returns,
    puts back the CPPR the presenter had before the accept. *)
Theorem accept_then_eoi icp cpu icp1 x r1 icp2 r2 :
  0 <= XICS_IPI < 2 ^ 24 -> Forall ss_fits (ss icp) ->
  h_xirr icp cpu = Some (icp1, x, r1) ->
  h_eoi icp1 cpu x = Some (icp2, r2) ->
  exists s s2,
    get_ss icp cpu = Some s /\ x = xirr s /\
    get_ss icp2 cpu = Some s2 /\ CPPR s2 = CPPR s.
Proof.
  intros Hipi Hf H1 H2. unfold h_xirr in H1. bind_inv H1.
  cbn [icp_accept] in H1. simplify_eq.
  assert (ss_fits x0) as Hf0.
  { apply at_index_Some in Hx0 as [_ Hx0].
    exact (Forall_lookup_1 _ _ _ _ Hf Hx0). }
  unfold h_eoi in H2. bind_inv H2. simplify_eq.
  assert (u32 (xirr (qemu_irq_lower x0)) = xirr x0) as Hu
    by (apply Z.mod_small, Hf0).
  rewrite Hu in Hx.
  set (sa := set_xirr (qemu_irq_lower x0) _) in Hx.
  assert (Forall ss_fits (ss (put_ss icp cpu sa))) as Hfa.
  { apply fits_put_ss; [done|]. unfold ss_fits, sa. cbn [xirr set_xirr].
    apply Z.mod_pos_bound. lia. }
  assert (get_ss (put_ss icp cpu sa) cpu = Some sa) as Hsa
    by (by eapply get_put_ss).
  pose proof (icp_eoi_after_write _ _ _ _ _ Hipi Hsa Hx) as Hg.
  set (s1 := set_xirr sa _) in Hg.
  assert (Forall ss_fits (ss (put_ss (put_ss icp cpu sa) cpu s1))) as Hf1
    by (apply fits_put_ss; [done|apply eoi_write_fits]).
  destruct (good_lookup_ss _ _ cpu s1 Hg Hf1) as (b & Hb & Hc & _);
    [by eapply get_put_ss|].
  exists x0, b. split; [done|]. split; [done|]. split; [done|].
  rewrite <- Hc. unfold CPPR, s1. cbn [xirr set_xirr].
  by apply CPPR_write_eoi.
Qed.

Lemma ics_resend_from_idle n i icp :
  Forall idle_source (irqs (ics icp)) ->
  0 <= i -> i + Z.of_nat n <= nr_irqs (ics icp) ->
  ics_resend_from n i icp = Some icp.
Proof.
  intros Hidle. revert i. induction n as [|n IH]; intros i Hi Hn; [done|].
  cbn [ics_resend_from].
  destruct (at_index_in_range (irqs (ics icp)) i) as [q Hq];
    [unfold nr_irqs in Hn; lia|].
  unfold get_irq at 1. rewrite Hq. msimpl.
  assert (idle_source q) as Hidle_q.
  { apply at_index_Some in Hq as [_ Hq].
    exact (Forall_lookup_1 _ _ _ _ Hidle Hq). }
  unfold idle_source in Hidle_q.
  assert ((if lsi q then resend_lsi icp i else resend_msi icp i) = Some icp)
    as ->.
  { destruct (lsi q).
    - unfold resend_lsi, get_irq. rewrite Hq. msimpl. by rewrite Hidle_q.
    - unfold resend_msi, get_irq. rewrite Hq. msimpl. by rewrite Hidle_q. }
  msimpl. apply IH; lia.
Qed.

(** The resend pass is a no-op on idle sources: when no MSI source is
    REJECTED and every LSI source is masked, deasserted or already SENT,
    [ics_resend] returns the state it was given. *)
Theorem ics_resend_idle icp :
  Forall idle_source (irqs (ics icp)) -> ics_resend icp = Some icp.
Proof.
  intros H. apply ics_resend_from_idle; [done|lia|].
  unfold nr_irqs. lia.
Qed.

(** After [xics_reset] the controller is quiet: every source is masked with
    status 0 and its type kept, every presenter has [xirr = 0],
    [mfrr = 0xff] and a lowered pin, and neither [ics_resend] nor
    [icp_resend] on an existing presenter delivers or changes anything. *)
Theorem xics_reset_quiet icp :
  Forall (fun q => priority q = 0xff /\ saved_priority q = 0xff /\
                   status q = 0 /\ server q = 0)
         (irqs (ics (xics_reset icp))) /\
  lsi <$> irqs (ics (xics_reset icp)) = lsi <$> irqs (ics icp) /\
  Forall (fun s => xirr s = 0 /\ pending_priority s = 0 /\ mfrr s = 0xff /\
                   pin_level (output s) = false)
         (ss (xics_reset icp)) /\
  length (ss (xics_reset icp)) = length (ss icp) /\
  ics_resend (xics_reset icp) = Some (xics_reset icp) /\
  (forall srv, is_Some (get_ss icp srv) ->
     icp_resend (xics_reset icp) srv = Some (xics_reset icp)).
Proof.
  assert (ics_resend (xics_reset icp) = Some (xics_reset icp)) as Hres.
  { apply ics_resend_from_idle; [|lia|unfold nr_irqs; lia].
    cbn [xics_reset ics irqs].
    apply Forall_fmap, Forall_forall. intros q _.
    unfold idle_source, reset_irq. cbn. by destruct (lsi q). }
  split; [|split; [|split; [|split; [|split]]]].
  - cbn [xics_reset ics irqs]. apply Forall_fmap, Forall_forall.
    by intros q _.
  - cbn [xics_reset ics irqs]. rewrite <- list_fmap_compose.
    by apply list_fmap_ext.
  - cbn [xics_reset ss]. apply Forall_fmap, Forall_forall. by intros s _.
  - cbn [xics_reset ss]. apply length_fmap.
  - exact Hres.
  - intros srv [s Hs]. unfold icp_resend.
    assert (get_ss (xics_reset icp) srv = Some (reset_server s)) as ->.
    { apply at_index_Some in Hs as [H0 Hs]. apply at_index_Some.
      split; [done|]. cbn [xics_reset ss]. by rewrite list_lookup_fmap, Hs. }
    msimpl. cbn [reset_server qemu_set_irq mfrr xirr CPPR].
    change (mfrr (reset_server s) <? CPPR (reset_server s)) with false.
    msimpl. exact Hres.
Qed.

Lemma max_server_num_ge cpus m0 env :
  env ∈ cpus ->
  cpu_index env
  <= foldl (fun m e => if m <? cpu_index e then cpu_index e else m) m0 cpus.
Proof.
  assert (forall l m1,
            m1 <= foldl (fun m e => if m <? cpu_index e then cpu_index e else m)
                        m1 l) as Hmono.
  { induction l as [|b l IHl]; intros m1; cbn [foldl]; [lia|].
    specialize (IHl (if m1 <? cpu_index b then cpu_index b else m1)).
    destruct (Z.ltb_spec m1 (cpu_index b)); lia. }
  revert m0. induction cpus as [|a cpus IH]; intros m0 Hc.
  - by apply elem_of_nil in Hc.
  - cbn [foldl]. apply elem_of_cons in Hc as [->|Hc]; [|by apply IH].
    specialize (Hmono cpus (if m0 <? cpu_index a then cpu_index a else m0)).
    destruct (Z.ltb_spec m0 (cpu_index a)); lia.
Qed.

Lemma max_server_num_attained cpus m0 :
  foldl (fun m e => if m <? cpu_index e then cpu_index e else m) m0 cpus = m0 \/
  exists env,
    env ∈ cpus /\
    foldl (fun m e => if m <? cpu_index e then cpu_index e else m) m0 cpus
    = cpu_index env.
Proof.
  revert m0. induction cpus as [|a cpus IH]; intros m0; cbn [foldl]; [by left|].
  destruct (IH (if m0 <? cpu_index a then cpu_index a else m0))
    as [->|(env & He & ->)].
  - destruct (Z.ltb_spec m0 (cpu_index a)); [|by left].
    right. exists a. split; [apply elem_of_cons; by left|done].
  - right. exists env. split; [apply elem_of_cons; by right|done].
Qed.

(** On zeroed presenters the second loop of [xics_system_init] comes to its
    end exactly when every processor indexes the array and has a supported
    bus model. *)
Lemma xics_init_outputs_is_Some l cpus :
  Forall (fun s => s = IcpServer 0 0 0 []) l ->
  is_Some (xics_init_outputs l cpus) <->
  Forall (fun env => 0 <= cpu_index env < Z.of_nat (length l) /\
                     PPC_INPUT env <> PPC_FLAGS_INPUT_other) cpus.
Proof.
  intros Hl. induction cpus as [|env cpus IH]; cbn [xics_init_outputs].
  - split; [constructor|by eexists].
  - rewrite Forall_cons_iff, <- IH. clear IH.
    destruct (at_index l (cpu_index env)) as [s|] eqn:Hs; msimpl.
    + assert (0 <= cpu_index env < Z.of_nat (length l)) as Hi
        by (apply is_Some_at_index; by eexists).
      apply at_index_Some in Hs as [_ Hs].
      pose proof (Forall_lookup_1 _ _ _ _ Hl Hs) as Hz. cbv beta in Hz. subst s.
      assert (store_index l (cpu_index env) (set_output (IcpServer 0 0 0 []) [])
              = l) as -> by (unfold store_index; by apply list_insert_id).
      destruct (PPC_INPUT env).
      * split; [|by intros [_ ?]]. intros H. by split.
      * split; [|by intros [_ ?]]. intros H. by split.
      * split; [|by intros [[_ ?] _]]. intros H. by apply is_Some_None in H.
    + apply at_index_None in Hs. split.
      * intros H. by apply is_Some_None in H.
      * intros [[? _] _]. lia.
Qed.

(** The second loop of [xics_system_init] assigns the [output] of the
    presenters that have a processor and touches nothing else: a presenter
    without processor keeps the [output] it was allocated with. *)
Lemma xics_init_outputs_wiring cpus l l' :
  xics_init_outputs l cpus = Some l' ->
  length l' = length l /\
  forall i s, l !! i = Some s ->
    l' !! i = Some (if existsb (fun env => cpu_index env =? Z.of_nat i) cpus
                    then set_output s [] else s).
Proof.
  revert l. induction cpus as [|env cpus IH]; cbn [xics_init_outputs existsb];
    intros l H.
  - by simplify_eq.
  - bind_inv H. apply at_index_Some in Hx as [H0 Hx].
    assert (xics_init_outputs
              (store_index l (cpu_index env) (set_output x [])) cpus = Some l')
      as Hl' by (by destruct (PPC_INPUT env)).
    destruct (IH _ Hl') as [Hlen Hget]. unfold store_index in Hlen, Hget.
    rewrite length_insert in Hlen. split; [done|]. intros i s Hs.
    destruct (decide (i = Z.to_nat (cpu_index env))) as [->|Hne].
    + rewrite Z2Nat.id, Z.eqb_refl by done. cbn [orb].
      rewrite Hx in Hs. injection Hs as <-.
      rewrite (Hget _ (set_output x []))
        by (apply list_lookup_insert_eq; by eapply lookup_lt_Some).
      by destruct (existsb _ cpus).
    + assert ((cpu_index env =? Z.of_nat i) = false) as ->
        by (apply Z.eqb_neq; lia).
      cbn [orb]. apply Hget. by rewrite list_lookup_insert_ne.
Qed.

(** [xics_system_init].  The call returns a controller exactly when
    [nr_irqs] is not negative and every processor has a [cpu_index] that is
    not negative and one of the two supported bus models; a processor of
    another bus model is fatal.  The controller it returns has as many
    presenters as the largest [cpu_index] plus one (none when there is no
    processor), each with zeroed registers and an output on which no command
    has been issued: MFRR is 0, not [0xff], until the first reset.  It has
    [nr_irqs] sources, numbered from 16, all zeroed: MSI, priority 0,
    status 0.  The loop over the processors assigns the [output] of the
    presenters that have a processor, and of no other. *)
Theorem xics_system_init_spec n cpus :
  (is_Some (xics_system_init n cpus) <->
   0 <= n /\
   Forall (fun env => 0 <= cpu_index env /\
                      PPC_INPUT env <> PPC_FLAGS_INPUT_other) cpus) /\
  (forall icp, xics_system_init n cpus = Some icp ->
     (forall env, env ∈ cpus -> 0 <= cpu_index env < nr_servers icp) /\
     (cpus = [] -> nr_servers icp = 0) /\
     (cpus <> [] ->
      exists env, env ∈ cpus /\ nr_servers icp = cpu_index env + 1) /\
     (forall srv, 0 <= srv < nr_servers icp ->
        get_ss icp srv = Some (IcpServer 0 0 0 [])) /\
     offset (ics icp) = 16 /\
     nr_irqs (ics icp) = n /\
     (forall i, 0 <= i < n -> get_irq icp i = Some (IcsIrq 0 0 0 0 false))) /\
  (forall l l', xics_init_outputs l cpus = Some l' ->
     length l' = length l /\
     forall i s, l !! i = Some s ->
       l' !! i = Some (if existsb (fun env => cpu_index env =? Z.of_nat i) cpus
                       then set_output s [] else s)).
Proof.
  assert (Forall (fun s => s = IcpServer 0 0 0 [])
            (replicate (Z.to_nat (max_server_num cpus + 1)) (IcpServer 0 0 0 [])))
    as Hz by (by apply Forall_replicate).
  pose proof (xics_init_outputs_is_Some _ cpus Hz) as Hloop.
  rewrite length_replicate in Hloop.
  split; [|split; [|exact (xics_init_outputs_wiring cpus)]].
  - unfold xics_system_init. split.
    + intros [icp H]. bind_inv H.
      destruct (Z.ltb_spec n 0); [done|]. split; [done|].
      assert (is_Some (xics_init_outputs
                (replicate (Z.to_nat (max_server_num cpus + 1))
                   (IcpServer 0 0 0 [])) cpus)) as Hs by (by eexists).
      apply Hloop in Hs. revert Hs. apply Forall_impl. intros env [[? _] ?].
      done.
    + intros [Hn Hc].
      assert (is_Some (xics_init_outputs
                (replicate (Z.to_nat (max_server_num cpus + 1))
                   (IcpServer 0 0 0 [])) cpus)) as [l Hl].
      { apply Hloop. apply list.Forall_forall. intros env He.
        rewrite list.Forall_forall in Hc. destruct (Hc env He) as [H0 Hm].
        split; [|done].
        pose proof (max_server_num_ge cpus (-1) env He) as Hmax.
        unfold max_server_num. lia. }
      rewrite Hl. msimpl. destruct (Z.ltb_spec n 0); [lia|]. by eexists.
  - intros icp Hinit.
    assert (is_Some (xics_system_init n cpus)) as Hsome by (by eexists).
    apply xics_system_init_Some in Hinit as [Hn ->].
    assert (Forall (fun env => 0 <= cpu_index env < max_server_num cpus + 1)
              cpus) as Hidx.
    { unfold xics_system_init in Hsome. destruct Hsome as [icp H]. bind_inv H.
      assert (is_Some (xics_init_outputs
                (replicate (Z.to_nat (max_server_num cpus + 1))
                   (IcpServer 0 0 0 [])) cpus)) as Hs by (by eexists).
      apply Hloop in Hs. revert Hs. apply Forall_impl. intros env [? _].
      pose proof (max_server_num_ge cpus (-1) env) as Hmax.
      unfold max_server_num in *. lia. }
    unfold nr_servers, nr_irqs, get_ss, get_irq. cbn [ss ics irqs offset].
    rewrite !length_replicate.
    split; [|split; [|split; [|split; [|split; [done|split]]]]].
    + intros env He. rewrite list.Forall_forall in Hidx.
      specialize (Hidx env He). lia.
    + by intros ->.
    + intros Hne. destruct (max_server_num_attained cpus (-1))
        as [Hm|(env & He & Hm)].
      * destruct cpus as [|env cpus]; [done|].
        apply Forall_cons_iff in Hidx as [Hi _]. unfold max_server_num in Hi. lia.
      * exists env. split; [done|].
        rewrite list.Forall_forall in Hidx. specialize (Hidx env He).
        unfold max_server_num in *. lia.
    + intros srv Hsrv. apply at_index_Some. split; [lia|].
      apply lookup_replicate_2. lia.
    + lia.
    + intros i Hi. apply at_index_Some. split; [lia|].
      apply lookup_replicate_2. lia.
Qed.

Lemma good_shape x y :
  good x y ->
  offset (ics y) = offset (ics x) /\ nr_irqs (ics y) = nr_irqs (ics x).
Proof.
  intros (Ho & Hi & _). split; [done|]. unfold nr_irqs.
  apply Forall2_length in Hi. by rewrite Hi.
Qed.

Lemma ics_write_xive_source icp nr srv prio saved icp' q :
  get_irq icp (nr - offset (ics icp)) = Some q ->
  ics_write_xive icp nr srv prio saved = Some icp' ->
  offset (ics icp') = offset (ics icp) /\
  nr_irqs (ics icp') = nr_irqs (ics icp) /\
  exists q',
    get_irq icp' (nr - offset (ics icp)) = Some q' /\
    server q' = srv /\ priority q' = prio /\ saved_priority q' = saved /\
    lsi q' = lsi q.
Proof.
  intros Hq H. unfold ics_write_xive in H. rewrite Hq in H. msimpl in H.
  set (q1 := IcsIrq srv prio saved (status q) (lsi q)) in H.
  set (icp1 := put_irq icp (nr - offset (ics icp)) q1) in H.
  assert (get_irq icp1 (nr - offset (ics icp)) = Some q1) as Hq1
    by (by eapply get_put_irq).
  assert (good icp1 icp') as Hg.
  { change (lsi q1) with (lsi q) in H. destruct (lsi q) eqn:Hl.
    - by eapply (good_resend_lsi _ _ q1).
    - by eapply good_write_xive_msi. }
  destruct (good_shape _ _ Hg) as [Ho Hn].
  split; [done|]. split.
  { rewrite Hn. unfold nr_irqs, icp1, put_irq, store_index.
    cbn [ics irqs]. by rewrite length_insert. }
  destruct (good_lookup_irq _ _ _ _ Hg Hq1) as (b & Hb & Hs & Hp & Hv & Hl & _).
  exists b. split; [done|]. by rewrite <- Hs, <- Hp, <- Hv, <- Hl.
Qed.

(** [ibm,get-xive]: with a wrong number of arguments or results, or an
    interrupt number outside [offset, offset + nr_irqs), status [-3] is
    stored; otherwise status 0, the server and the priority of the source
    are stored in [rets[0..2]].  The controller is never changed. *)
Theorem rtas_get_xive_spec icp nargs args nret rets :
  ics_wf (ics icp) ->
  let nr := rtas_ld args 0 in
  let bad :=
    nargs <> 1 \/ nret <> 3 \/
    ~ (offset (ics icp) <= nr < offset (ics icp) + nr_irqs (ics icp)) in
  (bad ->
     rtas_get_xive icp nargs args nret rets = Some (icp, rtas_st rets 0 (-3))) /\
  (~ bad ->
     exists q,
       get_irq icp (nr - offset (ics icp)) = Some q /\
       rtas_get_xive icp nargs args nret rets
       = Some (icp, rtas_st (rtas_st (rtas_st rets 0 0) 1 (server q))
                            2 (priority q))).
Proof.
  intros Hwf nr bad. unfold rtas_get_xive. fold nr.
  pose proof (ics_valid_irq_iff (ics icp) nr Hwf) as Hv.
  destruct (Z.eqb_spec nargs 1) as [Ha|Ha]; cbn [negb orb].
  2: { split; [done|]. intros Hb. exfalso. apply Hb. by left. }
  destruct (Z.eqb_spec nret 3) as [Hr|Hr]; cbn [negb orb].
  2: { split; [done|]. intros Hb. exfalso. apply Hb. right. by left. }
  destruct (ics_valid_irq (ics icp) nr) eqn:Hvalid; cbn [negb].
  2: { split; [done|]. intros Hb. exfalso. apply Hb. do 2 right.
       intros Hin. apply Hv in Hin. congruence. }
  split.
  - intros [?|[?|Hn]]; [done|done|]. exfalso. apply Hn. by apply Hv.
  - intros _. destruct (valid_get_irq icp nr Hwf Hvalid) as [q Hq].
    exists q. split; [done|]. by rewrite Hq.
Qed.

(** [ibm,set-xive] followed by [ibm,get-xive] is a round trip: after a
    [set-xive(nr, server, priority)] with valid arguments that returns,
    [get-xive(nr)] reports status 0, that server and that priority,
    whatever the delivery attempt of the write did. *)
Theorem set_xive_then_get_xive icp nr srv prio rets icp' rets1 rets2 :
  ics_wf (ics icp) ->
  ics_valid_irq (ics icp) nr = true ->
  srv < nr_servers icp -> prio <= 0xff ->
  rtas_set_xive icp 3 [nr; srv; prio] 1 rets = Some (icp', rets1) ->
  rets1 = rtas_st rets 0 0 /\
  rtas_get_xive icp' 1 [nr] 3 rets2
  = Some (icp', rtas_st (rtas_st (rtas_st rets2 0 0) 1 srv) 2 prio).
Proof.
  intros Hwf Hv Hs Hp H. unfold rtas_set_xive in H.
  change (rtas_ld [nr; srv; prio] 0) with nr in H.
  change (rtas_ld [nr; srv; prio] 1) with srv in H.
  change (rtas_ld [nr; srv; prio] 2) with prio in H.
  cbn [Z.eqb Pos.eqb negb orb] in H. rewrite Hv in H. cbn [negb orb] in H.
  apply Z.leb_gt in Hs. rewrite Hs in H. cbn [orb] in H.
  assert ((0xff <? prio) = false) as Hp' by (apply Z.ltb_ge; lia).
  rewrite Hp' in H. bind_inv H. simplify_eq. split; [done|].
  destruct (valid_get_irq icp nr Hwf Hv) as [q Hq].
  destruct (ics_write_xive_source _ _ _ _ _ _ _ Hq Hx)
    as (Ho & Hn & q' & Hq' & Hsrv & Hprio & _).
  unfold rtas_get_xive. change (rtas_ld [nr] 0) with nr.
  cbn [Z.eqb Pos.eqb negb orb].
  assert (ics_valid_irq (ics icp') nr = true) as ->.
  { unfold ics_valid_irq in *. by rewrite Ho, Hn. }
  cbn [negb]. rewrite Ho, Hq'. msimpl. by rewrite Hsrv, Hprio.
Qed.

(** [ibm,int-off] and [ibm,int-on]: with a wrong number of arguments or
    results, or an interrupt number outside [offset, offset + nr_irqs),
    status [-3] is stored and the controller is not changed. *)
Theorem rtas_int_parameter_errors icp nargs args nret rets :
  ics_wf (ics icp) ->
  let nr := rtas_ld args 0 in
  nargs <> 1 \/ nret <> 1 \/
  ~ (offset (ics icp) <= nr < offset (ics icp) + nr_irqs (ics icp)) ->
  rtas_int_off icp nargs args nret rets = Some (icp, rtas_st rets 0 (-3)) /\
  rtas_int_on icp nargs args nret rets = Some (icp, rtas_st rets 0 (-3)).
Proof.
  intros Hwf nr Hbad. unfold rtas_int_off, rtas_int_on. fold nr.
  pose proof (ics_valid_irq_iff (ics icp) nr Hwf) as Hv.
  destruct (Z.eqb_spec nargs 1) as [Ha|Ha]; cbn [negb orb]; [|done].
  destruct (Z.eqb_spec nret 1) as [Hr|Hr]; cbn [negb orb]; [|done].
  destruct (ics_valid_irq (ics icp) nr) eqn:Hvalid; cbn [negb]; [|done].
  exfalso. destruct Hbad as [?|[?|Hn]]; [done|done|]. apply Hn. by apply Hv.
Qed.

(** *** The pin follows XISR *)

Lemma sync_put_irq icp i q : sync_inv icp -> sync_inv (put_irq icp i q).
Proof.
  intros (Ho & Hn & Hs). split; [done|]. split; [|done].
  unfold nr_irqs, put_irq, store_index in *. cbn [ics irqs offset] in *.
  by rewrite length_insert.
Qed.

Lemma sync_put_ss icp srv s :
  sync_inv icp -> pin_sync s -> sync_inv (put_ss icp srv s).
Proof.
  intros (Ho & Hn & Hs) Hp. split; [done|]. split; [done|].
  by apply Forall_insert.
Qed.

Lemma sync_get_ss icp srv s : sync_inv icp -> get_ss icp srv = Some s -> pin_sync s.
Proof.
  intros (_ & _ & Hs) [_ H]%at_index_Some. exact (Forall_lookup_1 _ _ _ _ Hs H).
Qed.

Lemma sync_ics_reject icp nr icp' :
  sync_inv icp -> ics_reject icp nr = Some icp' -> sync_inv icp'.
Proof.
  unfold ics_reject. intros Hi H. bind_inv H. simplify_eq.
  by apply sync_put_irq.
Qed.

Lemma sync_maybe_reject icp (b : bool) nr icp' :
  sync_inv icp ->
  (if b then ics_reject icp nr else Some icp) = Some icp' -> sync_inv icp'.
Proof.
  intros Hi H. destruct b; [by eapply sync_ics_reject|by simplify_eq].
Qed.

Lemma pin_sync_install s v prio :
  0 < v < 2 ^ 24 ->
  pin_sync
    (qemu_irq_raise
       (set_pending_priority
          (set_xirr s (Z.lor (Z.land (xirr s) (u32 (Z.lnot XISR_MASK))) v))
          prio)).
Proof.
  intros Hv. unfold pin_sync, XISR.
  cbn [xirr output pin_level ev_level set_xirr set_pending_priority
       qemu_irq_raise qemu_set_irq].
  rewrite XISR_write_xisr by lia. symmetry. apply truthy_true. lia.
Qed.

Lemma sync_icp_irq icp srv nr prio icp' :
  sync_inv icp -> 0 < nr < 2 ^ 24 ->
  icp_irq icp srv nr prio = Some icp' -> sync_inv icp'.
Proof.
  unfold icp_irq. intros Hi Hnr H. bind_inv H.
  destruct (_ || _); [by eapply sync_ics_reject|].
  bind_inv H. bind_inv H. simplify_eq.
  apply sync_put_ss; [by eapply sync_maybe_reject|].
  assert (Z.land nr XISR_MASK = nr) as ->.
  { change XISR_MASK with (Z.ones 24). rewrite Z.land_ones by lia.
    apply Z.mod_small. lia. }
  by apply pin_sync_install.
Qed.

Lemma sync_source_nr icp srcno q :
  sync_inv icp -> get_irq icp srcno = Some q ->
  0 < srcno + offset (ics icp) < 2 ^ 24.
Proof.
  intros (Ho & Hn & _) Hq.
  assert (is_Some (get_irq icp srcno)) as Hs by (by eexists).
  apply is_Some_at_index in Hs. unfold nr_irqs in Hn. lia.
Qed.

Lemma sync_resend_msi icp srcno icp' :
  sync_inv icp -> resend_msi icp srcno = Some icp' -> sync_inv icp'.
Proof.
  unfold resend_msi. intros Hi H. bind_inv H.
  pose proof (sync_source_nr _ _ _ Hi Hx) as Hnr.
  destruct (has_status x _); [|by simplify_eq].
  destruct (negb _).
  - eapply sync_icp_irq; [|exact Hnr|exact H]. by apply sync_put_irq.
  - simplify_eq. by apply sync_put_irq.
Qed.

Lemma sync_resend_lsi icp srcno icp' :
  sync_inv icp -> resend_lsi icp srcno = Some icp' -> sync_inv icp'.
Proof.
  unfold resend_lsi. intros Hi H. bind_inv H.
  pose proof (sync_source_nr _ _ _ Hi Hx) as Hnr.
  destruct (_ && _); [|by simplify_eq].
  eapply sync_icp_irq; [|exact Hnr|exact H]. by apply sync_put_irq.
Qed.

Lemma sync_ics_resend_from n i icp icp' :
  sync_inv icp -> ics_resend_from n i icp = Some icp' -> sync_inv icp'.
Proof.
  revert i icp. induction n as [|n IH]; cbn [ics_resend_from]; intros i icp Hi H.
  - by simplify_eq.
  - bind_inv H. bind_inv H. eapply IH; [|exact H].
    destruct (lsi x); [by eapply sync_resend_lsi|by eapply sync_resend_msi].
Qed.

Lemma sync_ics_set_irq icp srcno val icp' :
  sync_inv icp -> ics_set_irq icp srcno val = Some icp' -> sync_inv icp'.
Proof.
  unfold ics_set_irq. intros Hi H. bind_inv H.
  pose proof (sync_source_nr _ _ _ Hi Hx) as Hnr.
  destruct (lsi x).
  - unfold set_irq_lsi in H. bind_inv H.
    eapply sync_resend_lsi; [|exact H]. by apply sync_put_irq.
  - unfold set_irq_msi in H. bind_inv H.
    destruct (truthy val); [|by simplify_eq].
    destruct (_ =? _).
    + simplify_eq. by apply sync_put_irq.
    + by eapply sync_icp_irq.
Qed.

Lemma sync_ics_write_xive icp nr srv prio saved icp' :
  sync_inv icp -> ics_write_xive icp nr srv prio saved = Some icp' ->
  sync_inv icp'.
Proof.
  unfold ics_write_xive. intros Hi H. bind_inv H.
  set (icp1 := put_irq icp _ _) in H.
  assert (sync_inv icp1) as Hi1 by (by apply sync_put_irq).
  cbn [lsi] in H. destruct (lsi x).
  - by eapply sync_resend_lsi.
  - unfold write_xive_msi in H. bind_inv H.
    pose proof (sync_source_nr _ _ _ Hi1 Hx0) as Hnr.
    destruct (_ || _); [by simplify_eq|].
    eapply sync_icp_irq; [|exact Hnr|exact H]. by apply sync_put_irq.
Qed.

Lemma sync_icp_check_ipi icp srv icp' :
  0 < XICS_IPI < 2 ^ 24 ->
  sync_inv icp -> icp_check_ipi icp srv = Some icp' -> sync_inv icp'.
Proof.
  unfold icp_check_ipi. intros Hipi Hi H. bind_inv H.
  destruct (_ && _); [by simplify_eq|].
  bind_inv H. bind_inv H. simplify_eq.
  apply sync_put_ss; [by eapply sync_maybe_reject|].
  by apply (pin_sync_install _ XICS_IPI).
Qed.

Lemma sync_icp_resend icp srv icp' :
  0 < XICS_IPI < 2 ^ 24 ->
  sync_inv icp -> icp_resend icp srv = Some icp' -> sync_inv icp'.
Proof.
  unfold icp_resend. intros Hipi Hi H. bind_inv H. bind_inv H.
  eapply sync_ics_resend_from; [|exact H].
  destruct (_ <? _); [by eapply sync_icp_check_ipi|by simplify_eq].
Qed.

Lemma XISR_cleared x :
  Z.land (Z.land x (u32 (Z.lnot XISR_MASK))) XISR_MASK = 0.
Proof.
  rewrite not_XISR_MASK. apply Z.bits_inj'. intros n Hn.
  rewrite !Z.land_spec, testbit_CPPR_MASK, testbit_XISR_MASK, Z.bits_0 by lia.
  destruct (Z.ltb_spec n 24), (Z.leb_spec 24 n); try lia;
    cbn [andb]; by rewrite ?andb_false_r.
Qed.

Lemma XISR_after_accept p : Z.land (u32 (Z.shiftl p 24)) XISR_MASK = 0.
Proof.
  unfold u32. apply Z.bits_inj'. intros n Hn.
  rewrite Z.land_spec, testbit_XISR_MASK, Z.testbit_mod_pow2, Z.bits_0,
    Z.shiftl_mul_pow2 by lia.
  destruct (Z.ltb_spec n 24); [|by rewrite andb_false_r].
  rewrite Z.mul_pow2_bits_low by lia. by rewrite andb_false_r.
Qed.

Lemma XISR_write_eoi xi x :
  Z.land (Z.lor (Z.land xi (u32 (Z.lnot CPPR_MASK))) (Z.land x CPPR_MASK))
         XISR_MASK
  = Z.land xi XISR_MASK.
Proof.
  rewrite not_CPPR_MASK. apply Z.bits_inj'. intros n Hn.
  rewrite !Z.land_spec, Z.lor_spec, !Z.land_spec, testbit_CPPR_MASK,
    testbit_XISR_MASK by lia.
  destruct (Z.ltb_spec n 24), (Z.leb_spec 24 n); try lia;
    cbn [andb]; rewrite ?andb_false_r, ?andb_true_r, ?orb_false_r; done.
Qed.

Lemma sync_icp_set_cppr icp srv cppr icp' :
  0 < XICS_IPI < 2 ^ 24 -> 0 <= cppr < 2 ^ 8 ->
  sync_inv icp -> icp_set_cppr icp srv cppr = Some icp' -> sync_inv icp'.
Proof.
  unfold icp_set_cppr. intros Hipi Hc Hi H. bind_inv H.
  set (s1 := set_xirr x _) in H.
  assert (pin_sync s1) as Hs1.
  { pose proof (sync_get_ss _ _ _ Hi Hx) as Hp. unfold pin_sync, XISR in *.
    unfold s1. cbn [xirr output set_xirr]. by rewrite XISR_write_cppr. }
  assert (sync_inv (put_ss icp srv s1)) as Hi1 by (by apply sync_put_ss).
  destruct (_ <? _).
  - destruct (_ && _); [|by simplify_eq].
    eapply sync_ics_reject; [|exact H]. apply sync_put_ss; [done|].
    unfold pin_sync, XISR.
    cbn [xirr output pin_level ev_level set_xirr qemu_irq_lower qemu_set_irq].
    rewrite XISR_cleared. reflexivity.
  - destruct (negb _); [|by simplify_eq].
    by eapply sync_icp_resend.
Qed.

Lemma sync_icp_set_mfrr icp srv m icp' :
  0 < XICS_IPI < 2 ^ 24 ->
  sync_inv icp -> icp_set_mfrr icp srv m = Some icp' -> sync_inv icp'.
Proof.
  unfold icp_set_mfrr. intros Hipi Hi H. bind_inv H.
  assert (sync_inv (put_ss icp srv (set_mfrr x m))) as Hi1.
  { apply sync_put_ss; [done|]. exact (sync_get_ss _ _ _ Hi Hx). }
  destruct (_ <? _); [by eapply sync_icp_check_ipi|by simplify_eq].
Qed.

Lemma sync_icp_eoi icp srv v icp' :
  0 < XICS_IPI < 2 ^ 24 ->
  sync_inv icp -> icp_eoi icp srv v = Some icp' -> sync_inv icp'.
Proof.
  unfold icp_eoi. intros Hipi Hi H. bind_inv H. bind_inv H. bind_inv H.
  set (s1 := set_xirr x _) in Hx0.
  assert (sync_inv (put_ss icp srv s1)) as Hi1.
  { apply sync_put_ss; [done|].
    pose proof (sync_get_ss _ _ _ Hi Hx) as Hp. unfold pin_sync, XISR in *.
    unfold s1. cbn [xirr output set_xirr]. by rewrite XISR_write_eoi. }
  assert (sync_inv x0) as Hi2.
  { unfold ics_eoi in Hx0. bind_inv Hx0.
    destruct (lsi x2); simplify_eq; [by apply sync_put_irq|done]. }
  destruct (negb _); [by eapply sync_icp_resend|by simplify_eq].
Qed.

Lemma sync_xive_or_same icp icp' :
  sync_inv icp -> xive_or_same icp icp' -> sync_inv icp'.
Proof.
  intros Hi [->|(nr & srv & prio & saved & H)]; [done|].
  by eapply sync_ics_write_xive.
Qed.

Lemma step_sync icp o icp' :
  0 < XICS_IPI < 2 ^ 24 ->
  sync_inv icp -> step icp o = Some icp' -> sync_inv icp'.
Proof.
  intros Hipi Hi. destruct o; cbn [step]; intros H.
  - by eapply sync_ics_set_irq.
  - apply fmap_Some in H as (r & H & ->). unfold h_cppr in H. bind_inv H.
    simplify_eq. eapply sync_icp_set_cppr; [done| |done|done].
    apply Z.mod_pos_bound. lia.
  - apply fmap_Some in H as (r & H & ->). unfold h_ipi in H.
    destruct (_ <=? _); [by simplify_eq|].
    bind_inv H. simplify_eq. by eapply sync_icp_set_mfrr.
  - apply fmap_Some in H as (r & H & ->). unfold h_xirr in H. bind_inv H.
    cbn [icp_accept] in H. simplify_eq. cbn [fst].
    apply sync_put_ss; [done|]. unfold pin_sync, XISR.
    cbn [xirr output pin_level ev_level set_xirr qemu_irq_lower qemu_set_irq].
    rewrite XISR_after_accept. reflexivity.
  - apply fmap_Some in H as (r & H & ->). unfold h_eoi in H. bind_inv H.
    simplify_eq. by eapply sync_icp_eoi.
  - apply fmap_Some in H as (r & H & ->).
    by eapply sync_xive_or_same, rtas_set_xive_cases.
  - apply fmap_Some in H as (r & H & ->).
    by eapply sync_xive_or_same, rtas_get_xive_cases.
  - apply fmap_Some in H as (r & H & ->).
    by eapply sync_xive_or_same, rtas_int_off_cases.
  - apply fmap_Some in H as (r & H & ->).
    by eapply sync_xive_or_same, rtas_int_on_cases.
  - simplify_eq. destruct Hi as (Ho & Hn & Hs). split; [done|]. split.
    + unfold nr_irqs in *. cbn [xics_reset ics irqs offset] in *.
      by rewrite length_fmap.
    + cbn [xics_reset ss]. apply Forall_fmap, Forall_forall. by intros s _.
  - unfold xics_set_irq_type in H. destruct (ics_valid_irq _ _); [|done].
    bind_inv H. simplify_eq. by apply sync_put_irq.
Qed.

Lemma run_sync icp os icp' :
  0 < XICS_IPI < 2 ^ 24 ->
  sync_inv icp -> run icp os = Some icp' -> sync_inv icp'.
Proof.
  intros Hipi. revert icp. induction os as [|o os IH]; cbn [run]; intros icp Hi H.
  - by simplify_eq.
  - bind_inv H. apply (IH x); [|exact H]. by eapply step_sync.
Qed.

(** The pin follows XISR.  In every state reached from a controller that
    [xics_system_init] returned with at most [2^24 - 16] sources, the output
    pin of a presenter is raised exactly when its XISR is not zero; the
    number of the IPI pseudo-source is assumed positive and to fit the XISR
    field. *)
Theorem pin_follows_xisr n cpus os icp0 icp srv s :
  0 < XICS_IPI < 2 ^ 24 ->
  n <= 2 ^ 24 - 16 ->
  xics_system_init n cpus = Some icp0 ->
  run icp0 os = Some icp ->
  get_ss icp srv = Some s ->
  pin_level (output s) = true <-> XISR s <> 0.
Proof.
  intros Hipi Hn Hinit Hrun Hs.
  assert (sync_inv icp0) as Hsync.
  { apply xics_system_init_Some in Hinit as [Hn0 ->].
    split; [done|]. split.
    - unfold nr_irqs. cbn [ics irqs offset].
      rewrite length_replicate. lia.
    - cbn [ss]. by apply Forall_replicate. }
  pose proof (sync_get_ss _ _ _ (run_sync _ _ _ Hipi Hsync Hrun) Hs) as Hp.
  unfold pin_sync in Hp. rewrite Hp. apply truthy_true.
Qed.

(** *** No access outside the arrays without IPIs *)

Lemma safe_put_irq icp i q :
  safe icp -> 0 <= server q < nr_servers icp -> safe (put_irq icp i q).
Proof.
  intros (Ho & Hn & Hq & Hs) Hsrv.
  assert (nr_irqs (ics (put_irq icp i q)) = nr_irqs (ics icp)) as Hlen.
  { unfold nr_irqs, put_irq, store_index. cbn [ics irqs].
    by rewrite length_insert. }
  split; [done|]. split; [by rewrite Hlen|]. split.
  - cbn [put_irq ics irqs]. by apply Forall_insert.
  - revert Hs. apply Forall_impl. intros s (? & ? & Hx).
    split; [done|]. split; [done|]. unfold valid_source in *.
    by rewrite Hlen.
Qed.

Lemma safe_put_ss icp srv s :
  safe icp -> safe_ss icp s -> safe (put_ss icp srv s).
Proof.
  intros (Ho & Hn & Hq & Hs) Hss.
  assert (nr_servers (put_ss icp srv s) = nr_servers icp) as Hlen.
  { unfold nr_servers, put_ss, store_index. cbn [ss].
    by rewrite length_insert. }
  split; [done|]. split; [done|]. split.
  - rewrite Hlen. exact Hq.
  - cbn [put_ss ss]. by apply Forall_insert.
Qed.

Lemma safe_get_irq icp srcno :
  0 <= srcno < nr_irqs (ics icp) -> is_Some (get_irq icp srcno).
Proof. intros H. by apply at_index_in_range. Qed.

Lemma safe_irq_server icp srcno q :
  safe icp -> get_irq icp srcno = Some q -> 0 <= server q < nr_servers icp.
Proof.
  intros (_ & _ & Hq & _) [_ H]%at_index_Some.
  exact (Forall_lookup_1 _ _ _ _ Hq H).
Qed.

Lemma safe_irq_index icp srcno q :
  get_irq icp srcno = Some q -> 0 <= srcno < nr_irqs (ics icp).
Proof.
  intros H. assert (is_Some (get_irq icp srcno)) as Hs by (by eexists).
  by apply is_Some_at_index in Hs.
Qed.

Lemma safe_get_ss icp srv :
  safe icp -> 0 <= srv < nr_servers icp ->
  exists s, get_ss icp srv = Some s /\ safe_ss icp s.
Proof.
  intros (_ & _ & _ & Hs) Hsrv.
  destruct (at_index_in_range (ss icp) srv Hsrv) as [s H].
  exists s. split; [done|]. apply at_index_Some in H as [_ H].
  exact (Forall_lookup_1 _ _ _ _ Hs H).
Qed.

Lemma safe_ics_reject icp nr :
  safe icp -> valid_source icp nr ->
  exists icp',
    ics_reject icp nr = Some icp' /\ safe icp' /\ ss icp' = ss icp /\
    offset (ics icp') = offset (ics icp) /\
    nr_irqs (ics icp') = nr_irqs (ics icp).
Proof.
  intros Hsafe Hnr.
  destruct (safe_get_irq icp (nr - offset (ics icp))) as [q Hq];
    [unfold valid_source in Hnr; lia|].
  pose proof (ics_reject_defined _ _ _ Hq) as Hrej.
  destruct (good_shape _ _ (good_ics_reject _ _ _ Hrej)) as [Ho Hn].
  rewrite Hrej. eexists. split; [done|].
  split; [|done]. apply safe_put_irq; [done|].
  exact (safe_irq_server _ _ _ Hsafe Hq).
Qed.

Lemma safe_icp_irq icp srv nr prio :
  safe icp -> 0 <= srv < nr_servers icp -> valid_source icp nr ->
  exists icp', icp_irq icp srv nr prio = Some icp' /\ safe icp'.
Proof.
  intros Hsafe Hsrv Hnr.
  destruct (safe_get_ss _ _ Hsafe Hsrv) as (s & Hs & Hf & Hm & Hx).
  unfold icp_irq. rewrite Hs. msimpl.
  destruct (_ || _).
  { destruct (safe_ics_reject _ _ Hsafe Hnr) as (icp' & H & Hs' & _). eauto. }
  assert (exists icp1,
    (if truthy (XISR s) then ics_reject icp (XISR s) else Some icp) = Some icp1
    /\ safe icp1 /\ ss icp1 = ss icp /\
    offset (ics icp1) = offset (ics icp) /\
    nr_irqs (ics icp1) = nr_irqs (ics icp))
    as (icp1 & -> & Hsafe1 & Hss & Hoff & Hlen).
  { destruct (truthy (XISR s)) eqn:Ht; [|by eauto 10].
    destruct Hx as [Hx|Hx]; [by apply truthy_true in Ht|].
    by apply safe_ics_reject. }
  msimpl. unfold get_ss. rewrite Hss. fold (get_ss icp srv). rewrite Hs.
  msimpl. eexists. split; [done|]. apply safe_put_ss; [done|].
  pose proof (land_XISR_MASK_range nr) as Hr.
  assert (Z.land nr XISR_MASK = nr) as Hland.
  { destruct Hsafe as (Ho & Hn & _). unfold valid_source in Hnr.
    change XISR_MASK with (Z.ones 24). rewrite Z.land_ones by lia.
    apply Z.mod_small. lia. }
  unfold safe_ss, ss_fits, XISR, valid_source.
  cbn [xirr mfrr set_xirr set_pending_priority qemu_irq_raise qemu_set_irq].
  rewrite XISR_write_xisr by done. split; [|split; [done|]].
  - apply lor_range; [lia| |lia]. rewrite not_XISR_MASK.
    apply land_CPPR_MASK_range.
  - right. rewrite Hland, Hoff, Hlen. exact Hnr.
Qed.

Lemma nr_irqs_put_irq icp i q :
  nr_irqs (ics (put_irq icp i q)) = nr_irqs (ics icp).
Proof.
  unfold nr_irqs, put_irq, store_index. cbn [ics irqs].
  by rewrite length_insert.
Qed.

Lemma nr_servers_put_ss icp srv s :
  nr_servers (put_ss icp srv s) = nr_servers icp.
Proof.
  unfold nr_servers, put_ss, store_index. cbn [ss]. by rewrite length_insert.
Qed.

Lemma safe_fits icp : safe icp -> Forall ss_fits (ss icp).
Proof. intros (_ & _ & _ & Hs). revert Hs. apply Forall_impl. by intros s [? _]. Qed.

Lemma safe_good_shape x y :
  safe x -> good x y ->
  offset (ics y) = offset (ics x) /\
  nr_irqs (ics y) = nr_irqs (ics x) /\
  nr_servers y = nr_servers x.
Proof.
  intros Hs Hg. destruct (good_shape _ _ Hg) as [Ho Hn].
  split; [done|]. split; [done|].
  destruct Hg as (_ & _ & Hss). specialize (Hss (safe_fits _ Hs)).
  apply Forall2_length in Hss. unfold nr_servers. by rewrite Hss.
Qed.

Lemma safe_deliver icp srcno q st :
  safe icp -> get_irq icp srcno = Some q ->
  exists icp',
    icp_irq (put_irq icp srcno (set_status q st)) (server q)
            (srcno + offset (ics icp)) (priority q) = Some icp' /\
    safe icp'.
Proof.
  intros Hsafe Hq.
  pose proof (safe_irq_server _ _ _ Hsafe Hq) as Hsrv.
  pose proof (safe_irq_index _ _ _ Hq) as Hidx.
  apply safe_icp_irq.
  - by apply safe_put_irq.
  - exact Hsrv.
  - unfold valid_source. rewrite nr_irqs_put_irq. cbn [put_irq ics offset].
    lia.
Qed.

Lemma safe_resend_msi icp srcno :
  safe icp -> 0 <= srcno < nr_irqs (ics icp) ->
  exists icp', resend_msi icp srcno = Some icp' /\ safe icp'.
Proof.
  intros Hsafe Hi. destruct (safe_get_irq _ _ Hi) as [q Hq].
  unfold resend_msi. rewrite Hq. msimpl.
  destruct (has_status q _); [|by eauto].
  cbn [priority server set_status]. destruct (negb _).
  - exact (safe_deliver _ _ _ _ Hsafe Hq).
  - eexists. split; [done|]. apply safe_put_irq; [done|].
    exact (safe_irq_server _ _ _ Hsafe Hq).
Qed.

Lemma safe_resend_lsi icp srcno :
  safe icp -> 0 <= srcno < nr_irqs (ics icp) ->
  exists icp', resend_lsi icp srcno = Some icp' /\ safe icp'.
Proof.
  intros Hsafe Hi. destruct (safe_get_irq _ _ Hi) as [q Hq].
  unfold resend_lsi. rewrite Hq. msimpl.
  destruct (_ && _); [|by eauto].
  cbn [priority server set_status].
  exact (safe_deliver _ _ _ _ Hsafe Hq).
Qed.

Lemma safe_ics_resend_from n i icp :
  safe icp -> 0 <= i -> i + Z.of_nat n <= nr_irqs (ics icp) ->
  exists icp', ics_resend_from n i icp = Some icp' /\ safe icp'.
Proof.
  revert i icp. induction n as [|n IH]; intros i icp Hsafe Hi Hn.
  - by eauto.
  - cbn [ics_resend_from].
    assert (0 <= i < nr_irqs (ics icp)) as Hidx by lia.
    destruct (safe_get_irq _ _ Hidx) as [q Hq]. rewrite Hq. msimpl.
    assert (exists icp1,
      (if lsi q then resend_lsi icp i else resend_msi icp i) = Some icp1 /\
      safe icp1 /\ nr_irqs (ics icp1) = nr_irqs (ics icp))
      as (icp1 & H1 & Hsafe1 & Hlen).
    { destruct (lsi q) eqn:Hl.
      - destruct (safe_resend_lsi _ _ Hsafe Hidx) as (icp1 & H1 & Hs1).
        exists icp1. split; [done|]. split; [done|].
        by destruct (safe_good_shape _ _ Hsafe
          (good_resend_lsi _ _ _ _ Hq Hl H1)) as (_ & ? & _).
      - destruct (safe_resend_msi _ _ Hsafe Hidx) as (icp1 & H1 & Hs1).
        exists icp1. split; [done|]. split; [done|].
        by destruct (safe_good_shape _ _ Hsafe
          (good_resend_msi _ _ _ H1)) as (_ & ? & _). }
    rewrite H1. msimpl. apply IH; [done|lia|lia].
Qed.

Lemma safe_ics_resend icp :
  safe icp -> exists icp', ics_resend icp = Some icp' /\ safe icp'.
Proof.
  intros Hsafe. apply safe_ics_resend_from; [done|lia|].
  unfold nr_irqs. lia.
Qed.

Lemma safe_ics_set_irq icp srcno val :
  safe icp -> 0 <= srcno < nr_irqs (ics icp) ->
  exists icp', ics_set_irq icp srcno val = Some icp' /\ safe icp'.
Proof.
  intros Hsafe Hi. destruct (safe_get_irq _ _ Hi) as [q Hq].
  pose proof (safe_irq_server _ _ _ Hsafe Hq) as Hsrv.
  unfold ics_set_irq. rewrite Hq. msimpl. destruct (lsi q).
  - unfold set_irq_lsi. rewrite Hq. msimpl.
    apply safe_resend_lsi; [|by rewrite nr_irqs_put_irq].
    apply safe_put_irq; [done|]. by destruct (truthy val).
  - unfold set_irq_msi. rewrite Hq. msimpl.
    destruct (truthy val); [|by eauto].
    destruct (_ =? _).
    + eexists. split; [done|]. by apply safe_put_irq.
    + apply safe_icp_irq; [done|done|]. unfold valid_source. lia.
Qed.

Lemma safe_ics_write_xive icp nr srv prio saved :
  safe icp -> valid_source icp nr -> 0 <= srv < nr_servers icp ->
  exists icp', ics_write_xive icp nr srv prio saved = Some icp' /\ safe icp'.
Proof.
  intros Hsafe Hnr Hsrv.
  assert (0 <= nr - offset (ics icp) < nr_irqs (ics icp)) as Hi
    by (unfold valid_source in Hnr; lia).
  destruct (safe_get_irq _ _ Hi) as [q Hq].
  unfold ics_write_xive. rewrite Hq. msimpl.
  set (q1 := IcsIrq srv prio saved (status q) (lsi q)).
  assert (safe (put_irq icp (nr - offset (ics icp)) q1)) as Hsafe1
    by (by apply safe_put_irq).
  change (lsi q1) with (lsi q). destruct (lsi q).
  - apply safe_resend_lsi; [done|by rewrite nr_irqs_put_irq].
  - unfold write_xive_msi. erewrite get_put_irq by done. msimpl.
    destruct (_ || _); [by eauto|].
    cbn [ics offset put_irq].
    replace (status q1) with (status q) by done.
    pose proof (safe_deliver _ _ q1
      (Z.land (status q1) (Z.lnot XICS_STATUS_MASKED_PENDING)) Hsafe1
      (get_put_irq _ _ _ _ Hq)) as Hd.
    exact Hd.
Qed.

Lemma safe_ss_no_ipi icp s : safe_ss icp s -> (mfrr s <? CPPR s) = false.
Proof.
  intros (Hf & Hm & _). pose proof (CPPR_range s Hf). apply Z.ltb_ge. lia.
Qed.

Lemma safe_icp_resend icp cpu :
  safe icp -> 0 <= cpu < nr_servers icp ->
  exists icp', icp_resend icp cpu = Some icp' /\ safe icp'.
Proof.
  intros Hsafe Hcpu. destruct (safe_get_ss _ _ Hsafe Hcpu) as (s & Hs & Hss).
  unfold icp_resend. rewrite Hs. msimpl. rewrite (safe_ss_no_ipi _ _ Hss).
  msimpl. by apply safe_ics_resend.
Qed.

Lemma safe_icp_set_cppr icp cpu cppr :
  safe icp -> 0 <= cpu < nr_servers icp -> 0 <= cppr < 2 ^ 8 ->
  exists icp', icp_set_cppr icp cpu cppr = Some icp' /\ safe icp'.
Proof.
  intros Hsafe Hcpu Hc.
  destruct (safe_get_ss _ _ Hsafe Hcpu) as (s & Hs & Hf & Hm & Hx).
  unfold icp_set_cppr. rewrite Hs. msimpl.
  set (s1 := set_xirr s _).
  assert (XISR s1 = XISR s) as Hx1.
  { unfold XISR, s1. cbn [xirr set_xirr]. by apply XISR_write_cppr. }
  assert (safe_ss icp s1) as Hss1.
  { split; [|split; [done|by rewrite Hx1]].
    unfold ss_fits, s1. cbn [xirr set_xirr]. apply lor_range; [lia| |].
    - rewrite not_CPPR_MASK.
      pose proof (land_XISR_MASK_range (xirr s)). lia.
    - apply Z.mod_pos_bound. lia. }
  assert (safe (put_ss icp cpu s1)) as Hsafe1 by (by apply safe_put_ss).
  destruct (_ <? _).
  - destruct (truthy (XISR s1)) eqn:Ht; cbn [andb]; [|by eauto].
    destruct (_ <=? _); [|by eauto].
    set (s2 := qemu_irq_lower _).
    assert (safe_ss icp s2) as Hss2.
    { split; [|split; [done|left]].
      - unfold ss_fits, s2.
        cbn [xirr set_xirr qemu_irq_lower qemu_set_irq].
        rewrite not_XISR_MASK. apply land_CPPR_MASK_range.
      - unfold XISR, s2.
        cbn [xirr set_xirr qemu_irq_lower qemu_set_irq].
        apply XISR_cleared. }
    destruct (safe_ics_reject (put_ss (put_ss icp cpu s1) cpu s2) (XISR s1))
      as (icp' & H & Hs' & _).
    + apply safe_put_ss; [done|]. exact Hss2.
    + rewrite Hx1. destruct Hx as [Hx|Hx]; [|done].
      apply truthy_true in Ht. congruence.
    + eauto.
  - destruct (negb _); [|by eauto].
    apply safe_icp_resend; [done|]. by rewrite nr_servers_put_ss.
Qed.

Lemma safe_icp_set_mfrr_off icp srv :
  safe icp -> 0 <= srv < nr_servers icp ->
  exists icp', icp_set_mfrr icp srv 0xff = Some icp' /\ safe icp'.
Proof.
  intros Hsafe Hsrv.
  destruct (safe_get_ss _ _ Hsafe Hsrv) as (s & Hs & Hf & Hm & Hx).
  unfold icp_set_mfrr. rewrite Hs. msimpl.
  assert (safe_ss icp (set_mfrr s 0xff)) as Hss by done.
  pose proof (safe_ss_no_ipi _ _ Hss) as Hno.
  change (mfrr (set_mfrr s 255)) with 255 in Hno. rewrite Hno.
  eexists. split; [done|]. by apply safe_put_ss.
Qed.

Lemma safe_icp_eoi icp cpu x :
  safe icp -> 0 <= cpu < nr_servers icp ->
  valid_source icp (Z.land x XISR_MASK) ->
  exists icp', icp_eoi icp cpu x = Some icp' /\ safe icp'.
Proof.
  intros Hsafe Hcpu Hnr.
  destruct (safe_get_ss _ _ Hsafe Hcpu) as (s & Hs & Hf & Hm & Hx).
  unfold icp_eoi. rewrite Hs. msimpl.
  set (s1 := set_xirr s _).
  assert (safe_ss icp s1) as Hss1.
  { split; [|split; [done|]].
    - unfold ss_fits, s1. cbn [xirr set_xirr]. apply lor_range; [lia| |].
      + rewrite not_CPPR_MASK.
        pose proof (land_XISR_MASK_range (xirr s)). lia.
      + apply land_CPPR_MASK_range.
    - unfold XISR, s1 in *. cbn [xirr set_xirr]. by rewrite XISR_write_eoi. }
  set (icp1 := put_ss icp cpu s1).
  assert (safe icp1) as Hsafe1 by (by apply safe_put_ss).
  assert (exists icp2, ics_eoi icp1 (Z.land x XISR_MASK) = Some icp2 /\
                       safe icp2 /\ nr_servers icp2 = nr_servers icp)
    as (icp2 & -> & Hsafe2 & Hlen).
  { unfold ics_eoi.
    destruct (safe_get_irq icp1 (Z.land x XISR_MASK - offset (ics icp1)))
      as [q Hq]; [unfold valid_source in Hnr; cbn [icp1 put_ss ics]; lia|].
    rewrite Hq. msimpl. destruct (lsi q).
    - eexists. split; [done|]. split.
      + apply safe_put_irq; [done|]. exact (safe_irq_server _ _ _ Hsafe1 Hq).
      + cbn [put_irq]. unfold nr_servers. cbn [ss]. apply nr_servers_put_ss.
    - eexists. split; [done|]. split; [done|]. apply nr_servers_put_ss. }
  msimpl.
  assert (0 <= cpu < nr_servers icp2) as Hcpu2 by lia.
  destruct (safe_get_ss _ _ Hsafe2 Hcpu2) as (s' & -> & _). msimpl.
  destruct (negb _); [|by eauto].
  by apply safe_icp_resend.
Qed.

Lemma safe_ics_wf icp : safe icp -> ics_wf (ics icp).
Proof. intros (Ho & Hn & _). split; [done|lia]. Qed.

Lemma safe_valid icp nr :
  safe icp -> ics_valid_irq (ics icp) nr = true -> valid_source icp nr.
Proof. intros Hs Hv. by apply ics_valid_irq_iff in Hv; [|apply safe_ics_wf]. Qed.

Lemma rtas_ld_nonneg args n : Forall (fun a => 0 <= a) args -> 0 <= rtas_ld args n.
Proof.
  intros H. unfold rtas_ld. destruct (args !! n) as [a|] eqn:Ha; [|done].
  exact (Forall_lookup_1 _ _ _ _ H Ha).
Qed.

(** Without IPIs no access leaves the arrays.  In a [safe] state every
    [benign] call returns, in a [safe] state again: no entry point indexes
    the source or presenter array out of bounds as long as every source is
    routed to an existing presenter, no IPI is requested and only source
    interrupts are EOIed. *)
Theorem safe_step icp o :
  safe icp -> benign icp o ->
  exists icp', step icp o = Some icp' /\ safe icp'.
Proof.
  intros Hsafe Hb. destruct o; cbn [step benign] in *.
  - by apply safe_ics_set_irq.
  - unfold h_cppr.
    destruct (safe_icp_set_cppr icp cpu (u8 cppr)) as (icp' & -> & Hs');
      [done|done|apply Z.mod_pos_bound; lia|]. by eauto.
  - unfold h_ipi. destruct Hb as [Hsrv Hm]. rewrite Hm.
    destruct (Z.leb_spec (nr_servers icp) srv); [by eauto|].
    destruct (safe_icp_set_mfrr_off icp srv) as (icp' & -> & Hs');
      [done|lia|]. by eauto.
  - unfold h_xirr.
    destruct (safe_get_ss _ _ Hsafe Hb) as (s & -> & Hf & Hm & Hx).
    msimpl. cbn [icp_accept fmap option_fmap option_map fst].
    eexists. split; [done|]. apply safe_put_ss; [done|].
    split; [|split; [done|left]].
    + unfold ss_fits. cbn [xirr set_xirr]. apply Z.mod_pos_bound. lia.
    + unfold XISR. cbn [xirr set_xirr]. apply XISR_after_accept.
  - unfold h_eoi. destruct Hb as [Hcpu Hnr].
    destruct (safe_icp_eoi icp cpu (u32 x)) as (icp' & -> & Hs');
      [done|done|done|]. by eauto.
  - unfold rtas_set_xive.
    destruct (_ || _); [by eauto|].
    destruct (ics_valid_irq _ _) eqn:Hv; cbn [negb orb]; [|by eauto].
    destruct (Z.leb_spec (nr_servers icp) (rtas_ld args 1)); cbn [orb];
      [by eauto|].
    destruct (_ <? _); [by eauto|].
    destruct (safe_ics_write_xive icp (rtas_ld args 0) (rtas_ld args 1)
                (rtas_ld args 2) (rtas_ld args 2)) as (icp' & -> & Hs').
    + done.
    + by apply safe_valid.
    + split; [by apply rtas_ld_nonneg|done].
    + by eauto.
  - unfold rtas_get_xive.
    destruct (_ || _); [by eauto|].
    destruct (ics_valid_irq _ _) eqn:Hv; cbn [negb]; [|by eauto].
    destruct (valid_get_irq _ _ (safe_ics_wf _ Hsafe) Hv) as [q ->].
    by eauto.
  - unfold rtas_int_off.
    destruct (_ || _); [by eauto|].
    destruct (ics_valid_irq _ _) eqn:Hv; cbn [negb]; [|by eauto].
    destruct (valid_get_irq _ _ (safe_ics_wf _ Hsafe) Hv) as [q Hq].
    rewrite Hq. msimpl.
    destruct (safe_ics_write_xive icp (rtas_ld args 0) (server q) 0xff
                (priority q)) as (icp' & -> & Hs').
    + done.
    + by apply safe_valid.
    + exact (safe_irq_server _ _ _ Hsafe Hq).
    + by eauto.
  - unfold rtas_int_on.
    destruct (_ || _); [by eauto|].
    destruct (ics_valid_irq _ _) eqn:Hv; cbn [negb]; [|by eauto].
    destruct (valid_get_irq _ _ (safe_ics_wf _ Hsafe) Hv) as [q Hq].
    rewrite Hq. msimpl.
    destruct (safe_ics_write_xive icp (rtas_ld args 0) (server q)
                (saved_priority q) (saved_priority q)) as (icp' & -> & Hs').
    + done.
    + by apply safe_valid.
    + exact (safe_irq_server _ _ _ Hsafe Hq).
    + by eauto.
  - eexists. split; [done|]. destruct Hsafe as (Ho & Hn & Hq & Hs).
    assert (nr_irqs (ics (xics_reset icp)) = nr_irqs (ics icp)) as Hlen.
    { unfold nr_irqs. cbn [xics_reset ics irqs]. by rewrite length_fmap. }
    assert (nr_servers (xics_reset icp) = nr_servers icp) as Hlen'.
    { unfold nr_servers. cbn [xics_reset ss]. by rewrite length_fmap. }
    split; [done|]. split; [by rewrite Hlen|]. split.
    + cbn [xics_reset ics irqs]. apply Forall_fmap, Forall_forall.
      intros q _. unfold compose. cbn [reset_irq server]. lia.
    + cbn [xics_reset ss]. apply Forall_fmap, Forall_forall.
      intros s _. unfold compose. split; [|split; [done|by left]].
      unfold ss_fits. cbn [reset_server qemu_set_irq xirr]. lia.
  - unfold xics_set_irq_type.
    assert (u32 irq = irq) as ->.
    { destruct Hsafe as (Ho & Hn & _). unfold valid_source in Hb.
      apply Z.mod_small. lia. }
    assert (ics_valid_irq (ics icp) irq = true) as ->
      by (by apply ics_valid_irq_iff; [apply safe_ics_wf|]).
    destruct (safe_get_irq icp (irq - offset (ics icp))) as [q Hq];
      [unfold valid_source in Hb; lia|].
    rewrite Hq. msimpl. eexists. split; [done|].
    apply safe_put_irq; [done|]. exact (safe_irq_server _ _ _ Hsafe Hq).
Qed.

(** An interrupt offered to a presenter is presented or marked: when
    [icp_irq(server, nr, priority)] returns, for a number that fits the XISR
    field, either [nr] is the XISR of the presenter, at [pending_priority =
    priority] and with the pin raised, or the source [nr] has its REJECTED
    bit set and no presenter has changed. *)
Theorem icp_irq_outcome icp srv nr prio icp' :
  0 <= nr < 2 ^ 24 ->
  icp_irq icp srv nr prio = Some icp' ->
  (exists s', get_ss icp' srv = Some s' /\ XISR s' = nr /\
              pending_priority s' = prio /\ pin_level (output s') = true) \/
  (exists q', get_irq icp' (nr - offset (ics icp)) = Some q' /\
              has_status q' XICS_STATUS_REJECTED = true /\
              has_status q' XICS_STATUS_SENT = false /\
              ss icp' = ss icp).
Proof.
  intros Hnr H. unfold icp_irq in H. bind_inv H.
  destruct (_ || _).
  - right. unfold ics_reject in H. bind_inv H. simplify_eq.
    eexists. split; [by eapply get_put_irq|].
    unfold has_status. cbn [status set_status]. split; [|split; [|done]].
    + apply truthy_true. rewrite status_clear_other by done.
      by apply status_set_same.
    + apply truthy_false, status_clear_same.
  - left. bind_inv H. bind_inv H. simplify_eq. eexists.
    split; [by eapply get_put_ss|]. unfold XISR.
    cbn [xirr pending_priority output pin_level ev_level set_xirr
         set_pending_priority qemu_irq_raise qemu_set_irq].
    split; [|done].
    rewrite XISR_write_xisr by apply land_XISR_MASK_range.
    change XISR_MASK with (Z.ones 24). rewrite Z.land_ones by lia.
    apply Z.mod_small. lia.
Qed.

Lemma rtas_int_off_valid icp nr rets q :
  ics_valid_irq (ics icp) nr = true ->
  get_irq icp (nr - offset (ics icp)) = Some q ->
  rtas_int_off icp 1 [nr] 1 rets
  = Some (put_irq icp (nr - offset (ics icp))
            (IcsIrq (server q) 0xff (priority q) (status q) (lsi q)),
          rtas_st rets 0 0).
Proof.
  intros Hv Hq. unfold rtas_int_off. change (rtas_ld [nr] 0) with nr.
  cbn [Z.eqb Pos.eqb negb orb]. rewrite Hv. cbn [negb]. rewrite Hq. msimpl.
  unfold ics_write_xive. rewrite Hq. msimpl. cbn [lsi].
  set (q1 := IcsIrq _ _ _ _ _).
  assert (get_irq (put_irq icp (nr - offset (ics icp)) q1)
            (nr - offset (ics icp)) = Some q1) as Hq1
    by (by eapply get_put_irq).
  destruct (lsi q).
  - unfold write_xive_lsi, resend_lsi. rewrite Hq1. reflexivity.
  - unfold write_xive_msi. rewrite Hq1. msimpl.
    change (priority q1 =? 255) with true. by rewrite orb_true_r.
Qed.

Lemma rtas_int_on_valid icp nr rets q r :
  ics_valid_irq (ics icp) nr = true ->
  get_irq icp (nr - offset (ics icp)) = Some q ->
  rtas_int_on icp 1 [nr] 1 rets = Some r ->
  exists q', get_irq (fst r) (nr - offset (ics icp)) = Some q' /\
             server q' = server q /\ priority q' = saved_priority q.
Proof.
  intros Hv Hq H. unfold rtas_int_on in H. change (rtas_ld [nr] 0) with nr in H.
  cbn [Z.eqb Pos.eqb negb orb] in H. rewrite Hv in H. cbn [negb] in H.
  rewrite Hq in H. msimpl in H. bind_inv H. simplify_eq. cbn [fst].
  destruct (ics_write_xive_source _ _ _ _ _ _ _ Hq Hx)
    as (_ & _ & q' & Hq' & Hs & Hp & _).
  eauto.
Qed.

(** [ibm,int-off] does not nest: a second [int-off] on a masked source
    saves [0xff] over the priority the first one saved, so that after two
    [int-off] an [int-on] leaves the source masked. *)
Theorem int_off_does_not_nest icp nr rets1 rets2 rets3 :
  ics_wf (ics icp) ->
  ics_valid_irq (ics icp) nr = true ->
  exists icp1 icp2 q2,
    rtas_int_off icp 1 [nr] 1 rets1 = Some (icp1, rtas_st rets1 0 0) /\
    rtas_int_off icp1 1 [nr] 1 rets2 = Some (icp2, rtas_st rets2 0 0) /\
    get_irq icp2 (nr - offset (ics icp)) = Some q2 /\
    priority q2 = 0xff /\ saved_priority q2 = 0xff /\
    (forall r, rtas_int_on icp2 1 [nr] 1 rets3 = Some r ->
       exists q3, get_irq (fst r) (nr - offset (ics icp)) = Some q3 /\
                  priority q3 = 0xff).
Proof.
  intros Hwf Hv. destruct (valid_get_irq _ _ Hwf Hv) as [q Hq].
  set (srcno := nr - offset (ics icp)) in *.
  set (q1 := IcsIrq (server q) 0xff (priority q) (status q) (lsi q)).
  set (icp1 := put_irq icp srcno q1).
  set (q2 := IcsIrq (server q) 0xff 0xff (status q) (lsi q)).
  set (icp2 := put_irq icp1 srcno q2).
  assert (get_irq icp1 srcno = Some q1) as Hq1 by (by eapply get_put_irq).
  assert (get_irq icp2 srcno = Some q2) as Hq2 by (by eapply get_put_irq).
  assert (ics_valid_irq (ics icp1) nr = true) as Hv1.
  { unfold ics_valid_irq in *. unfold icp1. by rewrite nr_irqs_put_irq. }
  assert (ics_valid_irq (ics icp2) nr = true) as Hv2.
  { unfold ics_valid_irq in *. unfold icp2. by rewrite nr_irqs_put_irq. }
  exists icp1, icp2, q2. split; [by apply rtas_int_off_valid|].
  split; [exact (rtas_int_off_valid icp1 nr rets2 q1 Hv1 Hq1)|].
  split; [done|]. split; [done|]. split; [done|].
  intros r Hr.
  destruct (rtas_int_on_valid icp2 nr rets3 q2 r Hv2 Hq2 Hr)
    as (q3 & Hq3 & _ & Hp).
  exists q3. split; [exact Hq3|exact Hp].
Qed.

(** [xics_set_irq_type]: the assertion holds exactly for the numbers of
    sources; for those the call changes the type of that source and nothing
    else, for every other [int] it aborts. *)
Theorem xics_set_irq_type_spec icp irq l :
  0 <= offset (ics icp) ->
  offset (ics icp) + nr_irqs (ics icp) <= 2 ^ 31 ->
  - 2 ^ 31 <= irq < 2 ^ 31 ->
  (valid_source icp irq ->
     exists q,
       get_irq icp (irq - offset (ics icp)) = Some q /\
       xics_set_irq_type icp irq l
       = Some (put_irq icp (irq - offset (ics icp)) (set_lsi q l))) /\
  (~ valid_source icp irq -> xics_set_irq_type icp irq l = None).
Proof.
  intros Ho Hn Hirq. unfold xics_set_irq_type, valid_source.
  assert (ics_wf (ics icp)) as Hwf by (split; [done|lia]).
  split.
  - intros Hin. assert (u32 irq = irq) as Hu by (apply Z.mod_small; lia).
    rewrite Hu. apply (ics_valid_irq_iff _ _ Hwf) in Hin as Hvalid.
    rewrite Hvalid.
    destruct (valid_get_irq _ _ Hwf Hvalid) as [q Hq]. exists q.
    split; [done|]. by rewrite Hq.
  - intros Hout. destruct (ics_valid_irq _ _) eqn:Hvalid; [|done].
    exfalso. apply (ics_valid_irq_iff _ _ Hwf) in Hvalid.
    unfold u32 in Hvalid.
    destruct (Z.le_gt_cases 0 irq) as [Hpos|Hneg].
    + rewrite Z.mod_small in Hvalid by lia. by apply Hout.
    + assert (irq mod 2 ^ 32 = irq + 2 ^ 32) as Hm.
      { symmetry. apply (Z.mod_unique _ _ (-1)); lia. }
      lia.
Qed.

(** *** The resend pass and the interrupts the controller holds *)

Lemma ics_reject_keeps icp nr icp' k q :
  ics_reject icp nr = Some icp' -> get_irq icp k = Some q ->
  exists q',
    get_irq icp' k = Some q' /\ server q' = server q /\
    (has_status q XICS_STATUS_REJECTED = true \/ k = nr - offset (ics icp) ->
     has_status q' XICS_STATUS_REJECTED = true).
Proof.
  unfold ics_reject. intros H Hq. bind_inv H. simplify_eq.
  destruct (decide (k = nr - offset (ics icp))) as [->|Hne].
  - rewrite Hq in Hx. injection Hx as <-.
    eexists. split; [by eapply get_put_irq|]. split; [done|].
    intros _. unfold has_status. cbn [status set_status]. apply truthy_true.
    rewrite status_clear_other by done. by apply status_set_same.
  - exists q. split.
    + apply at_index_Some in Hx as [H0 _]. unfold get_irq.
      cbn [ics irqs put_irq]. by rewrite at_index_store_ne.
    + split; [done|]. by intros [?|?].
Qed.

Lemma held_ics_reject icp nr icp' k :
  held icp k -> ics_reject icp nr = Some icp' -> held icp' k.
Proof.
  intros (q & Hq & Hh) H.
  destruct (ics_reject_keeps _ _ _ _ _ H Hq) as (q' & Hq' & Hsrv & Hrej).
  exists q'. split; [done|]. destruct Hh as [Hr|(s & Hs & Hx)].
  - left. apply Hrej. by left.
  - right. exists s. rewrite Hsrv. unfold get_ss.
    rewrite (ics_reject_ss _ _ _ H). split; [done|].
    destruct (good_ics_reject _ _ _ H) as (Ho & _). by rewrite <- Ho.
Qed.

Lemma held_put_irq_other icp j x q' k :
  j <> k -> get_irq icp j = Some x -> held icp k -> held (put_irq icp j q') k.
Proof.
  intros Hne [H0 _]%at_index_Some (q & Hq & Hh). exists q. split; [|done].
  unfold get_irq. cbn [ics irqs put_irq]. by rewrite at_index_store_ne.
Qed.

(** Writing presenter [srv] keeps the interrupt of source [k] held when the
    source has REJECTED set, when the write installs its number, or when it
    is routed elsewhere. *)
Lemma held_put_ss icp srv s s' k q :
  get_ss icp srv = Some s -> get_irq icp k = Some q ->
  has_status q XICS_STATUS_REJECTED = true \/
  (server q = srv /\ XISR s' = k + offset (ics icp)) \/
  (server q <> srv /\ held icp k) ->
  held (put_ss icp srv s') k.
Proof.
  intros Hs Hq Hc. exists q. split; [done|].
  destruct Hc as [Hr|[[<- Hx]|[Hne (q0 & Hq0 & Hh)]]].
  - by left.
  - right. exists s'. split; [by eapply get_put_ss|done].
  - rewrite Hq in Hq0. injection Hq0 as <-.
    destruct Hh as [Hr|(s0 & Hs0 & Hx)]; [by left|].
    right. exists s0. split; [|done].
    apply at_index_Some in Hs as [H0 _]. unfold get_ss. cbn [ss put_ss].
    by rewrite at_index_store_ne.
Qed.

Lemma held_icp_irq icp srv nr prio icp' k :
  0 < offset (ics icp) ->
  held icp k -> icp_irq icp srv nr prio = Some icp' -> held icp' k.
Proof.
  intros Ho Hh H. unfold icp_irq in H. bind_inv H.
  destruct (_ || _); [by eapply held_ics_reject|].
  bind_inv H. bind_inv H. simplify_eq.
  destruct Hh as (q & Hq & Hh).
  pose proof Hq as [Hk _]%at_index_Some.
  assert (exists q1,
            get_irq x0 k = Some q1 /\ server q1 = server q /\
            (has_status q XICS_STATUS_REJECTED = true \/
             (truthy (XISR x) = true /\ k = XISR x - offset (ics icp)) ->
             has_status q1 XICS_STATUS_REJECTED = true) /\
            ss x0 = ss icp /\ offset (ics x0) = offset (ics icp))
    as (q1 & Hq1 & Hsrv & Hrej & Hss & Hoff).
  { destruct (truthy (XISR x)) eqn:Ht.
    - destruct (ics_reject_keeps _ _ _ _ _ Hx0 Hq) as (q1 & Hq1 & Hsrv & Hrej).
      exists q1. split; [done|]. split; [done|]. split.
      + intros [?|[_ ?]]; apply Hrej; [by left|by right].
      + split; [by eapply ics_reject_ss|].
        destruct (good_ics_reject _ _ _ Hx0) as (Hoff & _). done.
    - simplify_eq. exists q. split; [done|]. split; [done|]. split; [|done].
      by intros [?|[? _]]. }
  eapply held_put_ss; [exact Hx1|exact Hq1|].
  destruct Hh as [Hr|(s0 & Hs0 & Hxs)]; [left; apply Hrej; by left|].
  destruct (decide (server q = srv)) as [Heq|Hne].
  - left. apply Hrej. right. rewrite Heq, Hx in Hs0. injection Hs0 as <-.
    split; [apply truthy_true; lia|lia].
  - right. right. split; [congruence|]. exists q1. split; [done|].
    right. exists s0. rewrite Hsrv, Hoff. split; [|done].
    unfold get_ss. by rewrite Hss.
Qed.

(** Offering source [nr - offset] to the presenter it is routed to leaves
    its interrupt held: presented, or rejected. *)
Lemma icp_irq_holds icp srv nr prio icp' q :
  0 <= nr < 2 ^ 24 ->
  get_irq icp (nr - offset (ics icp)) = Some q -> server q = srv ->
  icp_irq icp srv nr prio = Some icp' ->
  held icp' (nr - offset (ics icp)).
Proof.
  intros Hnr Hq Hsrv H. unfold icp_irq in H. bind_inv H.
  destruct (_ || _).
  - destruct (ics_reject_keeps _ _ _ _ _ H Hq) as (q' & Hq' & _ & Hrej).
    exists q'. split; [done|]. left. apply Hrej. by right.
  - bind_inv H. bind_inv H. simplify_eq.
    assert (exists q1, get_irq x0 (nr - offset (ics icp)) = Some q1 /\
                       server q1 = server q /\
                       offset (ics x0) = offset (ics icp))
      as (q1 & Hq1 & Hsrv1 & Hoff).
    { destruct (truthy (XISR x)).
      - destruct (ics_reject_keeps _ _ _ _ _ Hx0 Hq) as (q1 & Hq1 & Hs1 & _).
        exists q1. split; [done|]. split; [done|].
        by destruct (good_ics_reject _ _ _ Hx0) as (Hoff & _).
      - simplify_eq. by exists q. }
    eapply held_put_ss; [exact Hx1|exact Hq1|].
    right. left. split; [done|]. rewrite Hoff.
    unfold XISR. cbn [xirr set_xirr set_pending_priority qemu_irq_raise
                      qemu_set_irq].
    rewrite XISR_write_xisr by apply land_XISR_MASK_range.
    change XISR_MASK with (Z.ones 24). rewrite Z.land_ones, Z.mod_small; lia.
Qed.

Lemma held_resend_msi icp j icp' k q :
  0 < offset (ics icp) ->
  offset (ics icp) + nr_irqs (ics icp) <= 2 ^ 24 ->
  get_irq icp k = Some q -> priority q <> 0xff ->
  held icp k -> resend_msi icp j = Some icp' -> held icp' k.
Proof.
  intros Ho Hn Hq Hp Hh H. unfold resend_msi in H. bind_inv H.
  destruct (has_status x XICS_STATUS_REJECTED); [|by simplify_eq].
  cbn [priority set_status server] in H.
  destruct (decide (j = k)) as [->|Hne].
  - rewrite Hq in Hx. injection Hx as <-.
    apply Z.eqb_neq in Hp. rewrite Hp in H. cbn [negb] in H.
    change (offset (ics (put_irq icp k _))) with (offset (ics icp)) in H.
    pose proof Hq as [Hk Hlt%lookup_lt_Some]%at_index_Some.
    unfold nr_irqs in Hn.
    assert (k + offset (ics icp) - offset (ics icp) = k) as Hsub by lia.
    set (q' := set_status q _) in H.
    assert (held icp' (k + offset (ics icp) - offset (ics (put_irq icp k q'))))
      as Hheld.
    { eapply (icp_irq_holds (put_irq icp k q') (server q) _ _ _ q');
        [lia| |reflexivity|exact H].
      change (offset (ics (put_irq icp k q'))) with (offset (ics icp)).
      rewrite Hsub. by eapply get_put_irq. }
    change (offset (ics (put_irq icp k q'))) with (offset (ics icp)) in Hheld.
    by rewrite Hsub in Hheld.
  - assert (held (put_irq icp j
                    (set_status x (Z.land (status x)
                                     (Z.lnot XICS_STATUS_REJECTED)))) k)
      as Hh2 by (by eapply held_put_irq_other).
    destruct (negb _); [|by simplify_eq].
    eapply held_icp_irq; [|exact Hh2|exact H]. exact Ho.
Qed.

Lemma held_resend_lsi icp j icp' k :
  0 < offset (ics icp) -> j <> k ->
  held icp k -> resend_lsi icp j = Some icp' -> held icp' k.
Proof.
  intros Ho Hne Hh H. unfold resend_lsi in H. bind_inv H.
  destruct (_ && _); [|by simplify_eq].
  eapply held_icp_irq; [|by eapply held_put_irq_other|exact H]. exact Ho.
Qed.

Lemma held_ics_resend_from n i icp icp' k q :
  0 < offset (ics icp) ->
  offset (ics icp) + nr_irqs (ics icp) <= 2 ^ 24 ->
  get_irq icp k = Some q -> lsi q = false -> priority q <> 0xff ->
  held icp k -> ics_resend_from n i icp = Some icp' -> held icp' k.
Proof.
  revert i icp q.
  induction n as [|n IH]; intros i icp q Ho Hn Hq Hl Hp Hh H;
    cbn [ics_resend_from] in H.
  - by simplify_eq.
  - bind_inv H. bind_inv H.
    assert (good icp x0 /\ held x0 k) as [Hg Hh0].
    { destruct (lsi x) eqn:Hlx.
      - split; [by eapply good_resend_lsi|].
        eapply held_resend_lsi; [exact Ho| |exact Hh|exact Hx0].
        intros ->. congruence.
      - split; [by eapply good_resend_msi|].
        by eapply held_resend_msi. }
    destruct (good_shape _ _ Hg) as [Ho0 Hn0].
    destruct (good_lookup_irq _ _ _ _ Hg Hq) as (q0 & Hq0 & _ & Hp0 & _ & Hl0 & _).
    eapply (IH (i + 1) x0 q0); [lia|lia|done|congruence|congruence|done|done].
Qed.

(** The resend pass loses no interrupt of an unmasked MSI source.  When the
    controller holds the interrupt of such a source before [ics_resend],
    because REJECTED is set or because its number is the XISR of its
    presenter, it holds it when [ics_resend] returns: the source is offered
    to its presenter and then presented or rejected again, and a source that
    a later delivery displaces is rejected.  The source keeps its server,
    priority and type.  The source numbers are positive and fit the XISR
    field. *)
Theorem ics_resend_keeps_unmasked icp icp' srcno q :
  0 < offset (ics icp) ->
  offset (ics icp) + nr_irqs (ics icp) <= 2 ^ 24 ->
  get_irq icp srcno = Some q -> lsi q = false -> priority q <> 0xff ->
  held icp srcno ->
  ics_resend icp = Some icp' ->
  held icp' srcno /\
  exists q', get_irq icp' srcno = Some q' /\ server q' = server q /\
             priority q' = priority q /\ lsi q' = false.
Proof.
  intros Ho Hn Hq Hl Hp Hh H. split.
  - by eapply held_ics_resend_from.
  - destruct (good_lookup_irq _ _ _ _ (good_ics_resend _ _ H) Hq)
      as (q' & Hq' & Hs & Hp' & _ & Hl' & _).
    exists q'. split; [done|]. split; [done|]. split; [done|congruence].
Qed.

End Controller.

(** * Instances and counterexamples

    In hw/xics.h the IPI pseudo-source has number 2, below the first source
    number 16; the instances below take that value. *)

Lemma run_deliver_16 :
  run 2 scenario_start scenario_deliver_16 = Some pending_16.
Proof. vm_compute. reflexivity. Qed.

Lemma reachable_pending_16 : reachable 2 pending_16.
Proof.
  exact (reachable_run 2 _ _ _ (reachable_scenario_start 2) run_deliver_16).
Qed.

Lemma ics_wf_pending_16 : ics_wf (ics pending_16).
Proof. vm_compute. split; [discriminate|reflexivity]. Qed.

(** [icp_irq_spec] applies.  While source 16 is pending at priority 5,
    source 18 at priority 7 is rejected, and source 17 at priority 2
    displaces it: source 16 is rejected, XISR becomes 17 and the pin is
    raised. *)
Lemma icp_irq_spec_witness :
  get_ss pending_16 0 = Some pending_16_presenter /\
  icp_irq pending_16 0 18 7 = ics_reject pending_16 18 /\
  exists s',
    icp_irq pending_16 0 17 2
    = Some (put_ss (put_irq pending_16 0 (IcsIrq 0 5 5 4 false)) 0 s') /\
    XISR s' = 17 /\ pending_priority s' = 2 /\ pin_level (output s') = true.
Proof.
  split; [reflexivity|]. split.
  - destruct (icp_irq_spec pending_16 0 18 7 pending_16_presenter eq_refl)
      as [H _].
    apply H. right. split; vm_compute; discriminate.
  - destruct (icp_irq_spec pending_16 0 17 2 pending_16_presenter eq_refl)
      as [_ H].
    destruct (H (fun Hc => match Hc with
                           | or_introl Hle => Hle eq_refl
                           | or_intror (conj _ Hle) => Hle eq_refl
                           end)
                (put_irq pending_16 0 (IcsIrq 0 5 5 4 false)) eq_refl)
      as (s' & Hi & _ & _ & Hx & Hp & Hl & _).
    exists s'. split; [exact Hi|]. split; [apply Hx; lia|].
    split; [exact Hp|exact Hl].
Defined.

(** [resend_msi_spec] applies to the state in which source 16 is REJECTED
    and masked: REJECTED is cleared and nothing is delivered. *)
Lemma resend_msi_spec_witness :
  get_irq rejected_16_masked 0 = Some (IcsIrq 0 0xff 5 4 false) /\
  resend_msi rejected_16_masked 0
  = Some (put_irq rejected_16_masked 0 (IcsIrq 0 0xff 5 0 false)) /\
  ss (put_irq rejected_16_masked 0 (IcsIrq 0 0xff 5 0 false))
  = ss rejected_16_masked.
Proof.
  split; [reflexivity|].
  pose proof (resend_msi_spec rejected_16_masked 0 (IcsIrq 0 0xff 5 4 false)
                eq_refl) as H.
  cbv zeta in H. destruct H as (_ & _ & H & _).
  destruct (H eq_refl eq_refl) as (H1 & _ & _ & _ & H5).
  split; [exact H1|exact H5].
Defined.

(** The last clause of C4 fails where the controller calls [resend_msi].
    Source 16 is rejected and then masked, and presenter 0 accepts source
    17.  The EOI of source 17 writes CPPR back and runs the resend pass in
    [rejected_16_masked]: source 16 has status 4 before [resend_msi] and
    status 0 after it, and no presenter has changed. *)
Lemma resend_msi_masked_counterexample :
  exists st3 s3 st4 q q',
    run 2 scenario_start (scenario_reject_then_mask ++ [Op_h_xirr 0])
    = Some st3 /\
    reachable 2 st3 /\
    get_ss st3 0 = Some s3 /\
    rejected_16_masked
    = put_ss st3 0
        (set_xirr s3 (Z.lor (Z.land (xirr s3) (u32 (Z.lnot CPPR_MASK)))
                            (Z.land 0xff000011 CPPR_MASK))) /\
    h_eoi 2 st3 0 0xff000011 = Some (st4, H_SUCCESS) /\
    ics_resend rejected_16_masked = Some st4 /\
    resend_msi rejected_16_masked 0 = Some st4 /\
    get_irq rejected_16_masked 0 = Some q /\
    (lsi q = false /\ priority q = 0xff /\
     has_status q XICS_STATUS_REJECTED = true /\ status q = 4) /\
    get_irq st4 0 = Some q' /\
    status q' = 0 /\ status q' <> status q /\
    ss st4 = ss rejected_16_masked.
Proof.
  do 5 eexists. split; [lazy; reflexivity|].
  split.
  { apply (reachable_run 2 scenario_start
             (scenario_reject_then_mask ++ [Op_h_xirr 0]));
      [apply reachable_scenario_start|lazy; reflexivity]. }
  split; [lazy; reflexivity|]. split; [lazy; reflexivity|].
  split; [lazy; reflexivity|]. split; [lazy; reflexivity|].
  split; [lazy; reflexivity|]. split; [lazy; reflexivity|].
  split; [lazy; done|]. split; [lazy; reflexivity|].
  split; [reflexivity|]. split; [discriminate|reflexivity].
Qed.

Lemma icp_accept_spec_witness :
  0 <= pending_priority pending_16_presenter < 2 ^ 8 /\
  fst (icp_accept pending_16_presenter) = 0xff000010 /\
  XISR (snd (icp_accept pending_16_presenter)) = 0 /\
  CPPR (snd (icp_accept pending_16_presenter)) = 5.
Proof.
  assert (0 <= pending_priority pending_16_presenter < 2 ^ 8) as Hp
    by (vm_compute; split; [discriminate|reflexivity]).
  split; [exact Hp|].
  destruct (icp_accept_spec pending_16_presenter Hp) as (H1 & _ & H3 & H4 & _).
  split; [exact H1|]. split; [exact H3|exact H4].
Defined.

(** [icp_set_cppr_spec] applies: lowering CPPR to 3 withdraws source 16,
    pending at priority 5. *)
Lemma icp_set_cppr_spec_witness :
  get_ss pending_16 0 = Some pending_16_presenter /\
  0 <= 3 < 2 ^ 8 /\
  icp_set_cppr 2 pending_16 0 3
  = ics_reject
      (put_ss pending_16 0
         (qemu_irq_lower (set_xirr pending_16_presenter (Z.shiftl 3 24))))
      16.
Proof.
  assert (0 <= 3 < 2 ^ 8) as Hc by lia.
  split; [reflexivity|]. split; [exact Hc|].
  pose proof (icp_set_cppr_spec 2 pending_16 0 3 pending_16_presenter
                eq_refl Hc) as H.
  cbv zeta in H. destruct H as (_ & H & _).
  apply H; vm_compute; done.
Defined.

Lemma int_off_int_on_witness :
  ics_wf (ics pending_16) /\
  ics_valid_irq (ics pending_16) 16 = true /\
  exists q icp1,
    get_irq pending_16 (16 - offset (ics pending_16)) = Some q /\
    rtas_int_off pending_16 1 [16] 1 [] = Some (icp1, rtas_st [] 0 0).
Proof.
  split; [exact ics_wf_pending_16|]. split; [reflexivity|].
  destruct (int_off_int_on pending_16 16 [] [] ics_wf_pending_16 eq_refl)
    as (q & icp1 & H1 & H2 & _).
  exists q, icp1. split; [exact H1|exact H2].
Defined.

Lemma rtas_set_xive_spec_witness :
  ics_wf (ics pending_16) /\
  rtas_set_xive pending_16 2 [] 1 [] = Some (pending_16, rtas_st [] 0 (-3)).
Proof.
  split; [exact ics_wf_pending_16|].
  pose proof (rtas_set_xive_spec pending_16 2 [] 1 [] ics_wf_pending_16) as H.
  cbv zeta in H. destruct H as [H _]. apply H. left. discriminate.
Defined.

(** [masked_source] applies: after reset source 16 is a masked MSI, and
    asserting it sets MASKED_PENDING. *)
Lemma masked_source_witness :
  get_irq scenario_start 0 = Some (IcsIrq 0 0xff 0xff 0 false) /\
  priority (IcsIrq 0 0xff 0xff 0 false) = 0xff /\
  1 <> 0 /\
  ics_set_irq scenario_start 0 1
  = Some (put_irq scenario_start 0 (IcsIrq 0 0xff 0xff 8 false)).
Proof.
  split; [reflexivity|]. split; [reflexivity|]. split; [discriminate|].
  destruct (masked_source 2 scenario_start) as [_ H].
  destruct (H 0 1 (IcsIrq 0 0xff 0xff 0 false) eq_refl eq_refl)
    as [H1 _]; [discriminate|].
  exact H1.
Defined.

(** C7 as stated fails: source 16, an LSI asserted while masked, acquires
    ASSERTED and not MASKED_PENDING. *)
Lemma masked_lsi_counterexample :
  exists st q st' q',
    run 2 scenario_start scenario_lsi = Some st /\
    reachable 2 st /\
    get_irq st 0 = Some q /\
    (lsi q = true /\ priority q = 0xff) /\
    ics_set_irq st 0 1 = Some st' /\
    get_irq st' 0 = Some q' /\
    has_status q' XICS_STATUS_MASKED_PENDING = false /\
    has_status q' XICS_STATUS_ASSERTED = true.
Proof.
  do 4 eexists. split; [lazy; reflexivity|].
  split.
  { apply (reachable_run 2 scenario_start scenario_lsi);
      [apply reachable_scenario_start|lazy; reflexivity]. }
  split; [lazy; reflexivity|]. split; [lazy; done|].
  split; [lazy; reflexivity|]. split; [lazy; reflexivity|].
  split; reflexivity.
Qed.

Lemma reachable_typed_pending_16 : reachable_typed 2 pending_16.
Proof.
  apply (reachable_typed_run 2 scenario_boot (Op_reset :: scenario_deliver_16)).
  - exact (reachable_typed_init 2 4 scenario_cpus _ scenario_boot_init).
  - repeat constructor.
  - vm_compute. reflexivity.
Qed.

Lemma msi_source_never_sent_witness :
  reachable_typed 2 pending_16 /\ msi_never_sent pending_16.
Proof.
  split; [exact reachable_typed_pending_16|].
  exact (msi_source_never_sent 2 pending_16 reachable_typed_pending_16).
Defined.

(** C10 as stated fails: source 16 is sent as an LSI and then declared an
    MSI by [xics_set_irq_type]; it is an MSI source with SENT set. *)
Lemma msi_sent_counterexample :
  exists st q,
    run 2 scenario_start scenario_retype = Some st /\
    reachable 2 st /\
    get_irq st 0 = Some q /\
    lsi q = false /\
    has_status q XICS_STATUS_SENT = true.
Proof.
  do 2 eexists. split; [lazy; reflexivity|].
  split.
  { apply (reachable_run 2 scenario_start scenario_retype);
      [apply reachable_scenario_start|lazy; reflexivity]. }
  split; [lazy; reflexivity|]. split; reflexivity.
Qed.

Lemma raise_above_gate_witness :
  0 <= 2 < 2 ^ 24 /\
  reachable 2 pending_16 /\
  get_ss pending_16 0 = Some pending_16_presenter /\
  PinEvent true 0xff000010 5 ∈ output pending_16_presenter /\
  5 < Z.shiftr 0xff000010 24.
Proof.
  assert (0 <= 2 < 2 ^ 24) as Hipi by lia.
  assert (PinEvent true 0xff000010 5 ∈ output pending_16_presenter) as He
    by apply list_elem_of_here.
  split; [exact Hipi|]. split; [exact reachable_pending_16|].
  split; [reflexivity|]. split; [exact He|].
  apply (raise_above_gate 2 pending_16 0 pending_16_presenter
           (PinEvent true 0xff000010 5) Hipi reachable_pending_16 eq_refl He).
  - reflexivity.
  - vm_compute. discriminate.
Defined.

(** ** Instances of the further properties *)

Ltac zsolve := vm_compute; repeat split; try discriminate; try reflexivity.

Lemma run_scenario_ipi : run 2 scenario_start scenario_ipi = Some ipi_pending.
Proof. vm_compute. reflexivity. Qed.

Lemma fits_pending_16 : Forall ss_fits (ss pending_16).
Proof. repeat constructor; zsolve. Qed.

Lemma safe_pending_16 : safe pending_16.
Proof.
  split; [zsolve|]. split; [zsolve|]. split.
  - repeat constructor; zsolve.
  - constructor; [|constructor; [|constructor]].
    + split; [zsolve|]. split; [reflexivity|]. right. zsolve.
    + split; [zsolve|]. split; [reflexivity|]. left. reflexivity.
Qed.

Lemma ics_reject_idempotent_witness :
  ics_reject pending_16 17
  = Some (put_irq pending_16 1 (IcsIrq 0 0xff 0xff 4 false)) /\
  ics_reject (put_irq pending_16 1 (IcsIrq 0 0xff 0xff 4 false)) 17
  = Some (put_irq pending_16 1 (IcsIrq 0 0xff 0xff 4 false)).
Proof.
  split; [reflexivity|].
  exact (proj1 (ics_reject_idempotent pending_16 17 _ eq_refl)).
Defined.

(** With source 16 pending at priority 5 and MFRR [0xff], [icp_check_ipi]
    leaves the presenter alone. *)
Lemma icp_check_ipi_spec_witness :
  get_ss pending_16 0 = Some pending_16_presenter /\
  icp_check_ipi 2 pending_16 0 = Some pending_16.
Proof.
  split; [reflexivity|].
  destruct (icp_check_ipi_spec 2 pending_16 0 pending_16_presenter eq_refl)
    as [H _].
  apply H. split; zsolve.
Defined.

(** With the IPI pending at priority 8, the delivery of source 16 at
    priority 5 leaves the source array. *)
Lemma icp_irq_displaces_non_source_witness :
  run 2 scenario_start scenario_ipi = Some ipi_pending /\
  get_ss ipi_pending 0 = Some ipi_pending_presenter /\
  XISR ipi_pending_presenter = 2 /\
  icp_irq ipi_pending 0 16 5 = None.
Proof.
  split; [exact run_scenario_ipi|]. split; [reflexivity|].
  split; [reflexivity|].
  apply (icp_irq_displaces_non_source ipi_pending 0 16 5
           ipi_pending_presenter eq_refl).
  - zsolve.
  - left. zsolve.
  - zsolve.
  - zsolve.
Defined.

(** The EOI of the IPI reads outside the source array. *)
Lemma icp_eoi_of_non_source_witness :
  is_Some (get_ss ipi_pending 0) /\
  icp_eoi 2 ipi_pending 0 0x10000002 = None.
Proof.
  assert (is_Some (get_ss ipi_pending 0)) as Hs by (by eexists).
  split; [exact Hs|].
  apply (icp_eoi_of_non_source 2 ipi_pending 0 0x10000002 Hs).
  left. zsolve.
Defined.

Lemma h_ipi_spec_witness :
  nr_servers pending_16 <= 5 /\
  h_ipi 2 pending_16 5 0 = Some (pending_16, H_PARAMETER).
Proof.
  assert (nr_servers pending_16 <= 5) as H by zsolve.
  split; [exact H|].
  exact (proj1 (h_ipi_spec 2 pending_16 5 0) H).
Defined.

Lemma icp_eoi_restores_cppr_witness :
  0 <= 2 < 2 ^ 24 /\ Forall ss_fits (ss pending_16) /\
  0 <= 0x05000011 < 2 ^ 32 /\
  exists icp',
    icp_eoi 2 pending_16 0 0x05000011 = Some icp' /\
    exists s', get_ss icp' 0 = Some s' /\ CPPR s' = Z.shiftr 0x05000011 24.
Proof.
  assert (0 <= 2 < 2 ^ 24) as Hipi by lia.
  assert (0 <= 0x05000011 < 2 ^ 32) as Hx by lia.
  split; [exact Hipi|]. split; [exact fits_pending_16|]. split; [exact Hx|].
  eexists. split; [lazy; reflexivity|].
  eapply (icp_eoi_restores_cppr 2 pending_16 0 0x05000011 _ Hipi
            fits_pending_16 Hx).
  lazy. reflexivity.
Defined.

(** Accepting source 16 and signalling its end puts CPPR back to [0xff]. *)
Lemma accept_then_eoi_witness :
  0 <= 2 < 2 ^ 24 /\ Forall ss_fits (ss pending_16) /\
  h_xirr pending_16 0
  = Some (put_ss pending_16 0 (snd (icp_accept pending_16_presenter)),
          0xff000010, H_SUCCESS) /\
  exists icp2,
    h_eoi 2 (put_ss pending_16 0 (snd (icp_accept pending_16_presenter)))
          0 0xff000010 = Some (icp2, H_SUCCESS) /\
    exists s2, get_ss icp2 0 = Some s2 /\ CPPR s2 = CPPR pending_16_presenter.
Proof.
  assert (0 <= 2 < 2 ^ 24) as Hipi by lia.
  assert (h_xirr pending_16 0
          = Some (put_ss pending_16 0 (snd (icp_accept pending_16_presenter)),
                  0xff000010, H_SUCCESS)) as H1 by reflexivity.
  assert (exists icp2,
    h_eoi 2 (put_ss pending_16 0 (snd (icp_accept pending_16_presenter)))
          0 0xff000010 = Some (icp2, H_SUCCESS)) as [icp2 H2]
    by (eexists; lazy; reflexivity).
  split; [exact Hipi|]. split; [exact fits_pending_16|]. split; [exact H1|].
  exists icp2. split; [exact H2|].
  destruct (accept_then_eoi 2 pending_16 0 _ _ _ icp2 _ Hipi fits_pending_16
              H1 H2) as (s & s2 & Hs & _ & Hs2 & Hc).
  exists s2. split; [exact Hs2|].
  assert (s = pending_16_presenter) as <-; [|exact Hc].
  vm_compute in Hs. by simplify_eq.
Defined.

Lemma ics_resend_idle_witness :
  Forall idle_source (irqs (ics scenario_start)) /\
  ics_resend scenario_start = Some scenario_start.
Proof.
  assert (Forall idle_source (irqs (ics scenario_start))) as H
    by (repeat constructor).
  split; [exact H|]. exact (ics_resend_idle scenario_start H).
Defined.

Lemma xics_reset_quiet_witness :
  is_Some (get_ss pending_16 0) /\
  icp_resend 2 (xics_reset pending_16) 0 = Some (xics_reset pending_16).
Proof.
  assert (is_Some (get_ss pending_16 0)) as Hs by (by eexists).
  split; [exact Hs|].
  destruct (xics_reset_quiet 2 pending_16) as (_ & _ & _ & _ & _ & H).
  exact (H 0 Hs).
Defined.

(** [xics_system_init_spec] applies to the two processors of the
    scenarios: two zeroed presenters and four sources; with a processor of
    another bus model there is no controller. *)
Lemma xics_system_init_spec_witness :
  xics_system_init 4 scenario_cpus = Some scenario_boot /\
  nr_servers scenario_boot = 2 /\
  nr_irqs (ics scenario_boot) = 4 /\
  get_ss scenario_boot 1 = Some (IcpServer 0 0 0 []) /\
  xics_system_init 4 (CPU 2 PPC_FLAGS_INPUT_other :: scenario_cpus) = None.
Proof.
  destruct (xics_system_init_spec 4 scenario_cpus) as (_ & H & _).
  destruct (H scenario_boot eq_refl) as (_ & _ & _ & Hs & _ & Hn & _).
  split; [reflexivity|]. split; [reflexivity|]. split; [exact Hn|].
  split; [apply Hs; vm_compute; split; [discriminate|reflexivity]|].
  destruct (xics_system_init_spec 4 (CPU 2 PPC_FLAGS_INPUT_other :: scenario_cpus))
    as [H1 _].
  destruct (xics_system_init 4 (CPU 2 PPC_FLAGS_INPUT_other :: scenario_cpus))
    as [icp|]; [|reflexivity].
  destruct H1 as [H1 _]. destruct (H1 (ex_intro _ icp eq_refl)) as [_ Hc].
  apply Forall_cons_iff in Hc as [[_ Hc] _]. by destruct Hc.
Defined.

Lemma rtas_get_xive_spec_witness :
  ics_wf (ics pending_16) /\
  exists q,
    get_irq pending_16 (16 - offset (ics pending_16)) = Some q /\
    rtas_get_xive pending_16 1 [16] 3 []
    = Some (pending_16,
            rtas_st (rtas_st (rtas_st [] 0 0) 1 (server q)) 2 (priority q)).
Proof.
  split; [exact ics_wf_pending_16|].
  pose proof (rtas_get_xive_spec pending_16 1 [16] 3 [] ics_wf_pending_16)
    as H.
  cbv zeta in H. destruct H as [_ H]. apply H.
  intros [Hb|[Hb|Hb]]; [by apply Hb|by apply Hb|]. apply Hb. zsolve.
Defined.

Lemma set_xive_then_get_xive_witness :
  ics_wf (ics pending_16) /\
  ics_valid_irq (ics pending_16) 17 = true /\
  0 < nr_servers pending_16 /\ 3 <= 0xff /\
  exists icp',
    rtas_set_xive pending_16 3 [17; 0; 3] 1 [] = Some (icp', rtas_st [] 0 0) /\
    rtas_get_xive icp' 1 [17] 3 []
    = Some (icp', rtas_st (rtas_st (rtas_st [] 0 0) 1 0) 2 3).
Proof.
  assert (0 < nr_servers pending_16) as Hs by zsolve.
  assert (3 <= 0xff) as Hp by lia.
  split; [exact ics_wf_pending_16|]. split; [reflexivity|].
  split; [exact Hs|]. split; [exact Hp|].
  eexists. split; [lazy; reflexivity|].
  eapply (set_xive_then_get_xive pending_16 17 0 3 [] _ _ []
            ics_wf_pending_16 eq_refl Hs Hp).
  lazy. reflexivity.
Defined.

Lemma rtas_int_parameter_errors_witness :
  ics_wf (ics pending_16) /\
  rtas_int_off pending_16 2 [] 1 [] = Some (pending_16, rtas_st [] 0 (-3)) /\
  rtas_int_on pending_16 2 [] 1 [] = Some (pending_16, rtas_st [] 0 (-3)).
Proof.
  split; [exact ics_wf_pending_16|].
  apply (rtas_int_parameter_errors pending_16 2 [] 1 [] ics_wf_pending_16).
  left. discriminate.
Defined.

Lemma pin_follows_xisr_witness :
  0 < 2 < 2 ^ 24 /\ 4 <= 2 ^ 24 - 16 /\
  xics_system_init 4 scenario_cpus = Some scenario_boot /\
  run 2 scenario_boot (Op_reset :: scenario_deliver_16) = Some pending_16 /\
  get_ss pending_16 0 = Some pending_16_presenter /\
  (pin_level (output pending_16_presenter) = true <->
   XISR pending_16_presenter <> 0).
Proof.
  assert (0 < 2 < 2 ^ 24) as Hipi by lia.
  assert (4 <= 2 ^ 24 - 16) as Hn by lia.
  assert (run 2 scenario_boot (Op_reset :: scenario_deliver_16)
          = Some pending_16) as Hrun by (vm_compute; reflexivity).
  split; [exact Hipi|]. split; [exact Hn|]. split; [reflexivity|].
  split; [exact Hrun|]. split; [reflexivity|].
  exact (pin_follows_xisr 2 4 scenario_cpus _ scenario_boot pending_16 0
           pending_16_presenter Hipi Hn eq_refl Hrun eq_refl).
Defined.

Lemma safe_step_witness :
  safe pending_16 /\ benign pending_16 (Op_set_irq 1 1) /\
  exists icp', step 2 pending_16 (Op_set_irq 1 1) = Some icp' /\ safe icp'.
Proof.
  assert (benign pending_16 (Op_set_irq 1 1)) as Hb by zsolve.
  split; [exact safe_pending_16|]. split; [exact Hb|].
  exact (safe_step 2 pending_16 (Op_set_irq 1 1) safe_pending_16 Hb).
Defined.

Lemma icp_irq_outcome_witness :
  0 <= 17 < 2 ^ 24 /\
  exists icp',
    icp_irq pending_16 0 17 2 = Some icp' /\
    exists s', get_ss icp' 0 = Some s' /\ XISR s' = 17.
Proof.
  assert (0 <= 17 < 2 ^ 24) as Hnr by lia.
  split; [exact Hnr|]. eexists. split; [lazy; reflexivity|].
  eexists. split; [lazy; reflexivity|].
  destruct (icp_irq_outcome pending_16 0 17 2 _ Hnr eq_refl)
    as [(s' & Hs' & Hx & _)|(q' & _ & _ & _ & Hss)].
  - vm_compute in Hs'. simplify_eq. exact Hx.
  - vm_compute in Hss. discriminate.
Defined.

Lemma int_off_does_not_nest_witness :
  ics_wf (ics pending_16) /\
  ics_valid_irq (ics pending_16) 16 = true /\
  exists icp1 icp2 q2,
    rtas_int_off pending_16 1 [16] 1 [] = Some (icp1, rtas_st [] 0 0) /\
    rtas_int_off icp1 1 [16] 1 [] = Some (icp2, rtas_st [] 0 0) /\
    get_irq icp2 (16 - offset (ics pending_16)) = Some q2 /\
    priority q2 = 0xff /\ saved_priority q2 = 0xff.
Proof.
  split; [exact ics_wf_pending_16|]. split; [reflexivity|].
  destruct (int_off_does_not_nest pending_16 16 [] [] [] ics_wf_pending_16
              eq_refl) as (icp1 & icp2 & q2 & H1 & H2 & H3 & H4 & H5 & _).
  exists icp1, icp2, q2. repeat split; assumption.
Defined.

Lemma xics_set_irq_type_spec_witness :
  0 <= offset (ics pending_16) /\
  offset (ics pending_16) + nr_irqs (ics pending_16) <= 2 ^ 31 /\
  - 2 ^ 31 <= 3 < 2 ^ 31 /\
  xics_set_irq_type pending_16 3 true = None.
Proof.
  assert (0 <= offset (ics pending_16)) as Ho by zsolve.
  assert (offset (ics pending_16) + nr_irqs (ics pending_16) <= 2 ^ 31)
    as Hn by zsolve.
  assert (- 2 ^ 31 <= 3 < 2 ^ 31) as Hi by lia.
  split; [exact Ho|]. split; [exact Hn|]. split; [exact Hi|].
  apply (proj2 (xics_set_irq_type_spec pending_16 3 true Ho Hn Hi)).
  intros [H _]. vm_compute in H. by apply H.
Defined.

(** In the reject cycle of the spec the resend pass finds source 16
    REJECTED and not masked, and presents it again. *)
Lemma ics_resend_keeps_unmasked_witness :
  0 < offset (ics rejected_16) /\
  offset (ics rejected_16) + nr_irqs (ics rejected_16) <= 2 ^ 24 /\
  get_irq rejected_16 0 = Some (IcsIrq 0 5 5 4 false) /\
  held rejected_16 0 /\
  exists st' s',
    ics_resend rejected_16 = Some st' /\ held st' 0 /\
    get_ss st' 0 = Some s' /\ XISR s' = 16.
Proof.
  assert (0 < offset (ics rejected_16)) as Ho by zsolve.
  assert (offset (ics rejected_16) + nr_irqs (ics rejected_16) <= 2 ^ 24)
    as Hn by zsolve.
  assert (held rejected_16 0) as Hh.
  { exists (IcsIrq 0 5 5 4 false). split; [reflexivity|]. left. reflexivity. }
  split; [exact Ho|]. split; [exact Hn|]. split; [reflexivity|].
  split; [exact Hh|].
  do 2 eexists. split; [lazy; reflexivity|]. split.
  - eapply (proj1 (ics_resend_keeps_unmasked rejected_16 _ 0
                     (IcsIrq 0 5 5 4 false) Ho Hn eq_refl eq_refl
                     ltac:(discriminate) Hh eq_refl)).
  - split; [lazy; reflexivity|reflexivity].
Defined.

